(** * useWebworker: a shallow embedding of the worker lifecycle hook

    Source: [src/lib/useWebworker.ts].

    The hook keeps three React state cells ([data], [error], [status]) and
    two refs ([workerRef], [timeoutRef]).  Its code runs as callbacks on the
    single control thread: the effect of [useEffect] (and its destructor),
    the [onmessage] / [onerror] relays installed on the worker, the timer
    callback given to [window.setTimeout], and the two commands returned to
    the caller.  Each callback is embedded as a computation in a small
    state-and-exception monad over one record [Machine] that holds the
    hook's cells together with the part of the host (worker registry, timer
    table, console, call log) that the hook talks to.

    Every [setX] of the source stores a constant or an argument, never a
    function of the previous state, so applying the writes in program order
    gives the state React commits after the batch.  What React's batching
    does change is what a closure READS: [status] inside a callback is the
    value of the render that created the callback.  Those reads are
    therefore explicit parameters ([status_seen]) of the embedded
    callbacks. *)

From Stdlib Require Import ZArith List String Bool Arith Lia.
Import ListNotations.

Local Open Scope string_scope.
Local Open Scope list_scope.

(** ** Values *)

(** The JavaScript values that flow through the hook: message payloads
    ([any]), thrown failures ([unknown]) and the two kinds of error object
    the hook itself stores. *)
Inductive scalar : Type :=
| SNum (n : Z)
| SStr (s : string).

Inductive jsval : Type :=
| VNull
| VNum (n : Z)
| VStr (s : string)
| VObject (fields : list (string * scalar))  (* a flat record such as {result: 84} *)
| VError (message : string)        (* new Error(message) *)
| VErrorEvent (message : string).  (* ErrorEvent dispatched on a Worker *)

Definition is_null (v : jsval) : bool :=
  match v with VNull => true | _ => false end.

(** [WorkerStatus] of the source. *)
Inductive WorkerStatus : Type := Idle | Running | Success | Error | Terminated.

Definition status_eqb (a b : WorkerStatus) : bool :=
  match a, b with
  | Idle, Idle | Running, Running | Success, Success
  | Error, Error | Terminated, Terminated => true
  | _, _ => false
  end.

(** [workerSource : string | URL | (() => Worker)].  URL objects and
    functions are compared by reference in a dependency array, so they carry
    an identity.  [SrcAbsent] is the [undefined] an untyped caller can
    pass. *)
Inductive WorkerSource : Type :=
| SrcAbsent
| SrcString (s : string)
| SrcURL (ref : nat) (href : string)
| SrcFunction (ref : nat).

(** [!workerSource] is true exactly for [undefined] and the empty string. *)
Definition source_truthy (src : WorkerSource) : bool :=
  match src with
  | SrcAbsent => false
  | SrcString s => negb (String.eqb s "")
  | SrcURL _ _ | SrcFunction _ => true
  end.

(** [Object.is] on two source descriptors. *)
Definition source_is (a b : WorkerSource) : bool :=
  match a, b with
  | SrcAbsent, SrcAbsent => true
  | SrcString s, SrcString t => String.eqb s t
  | SrcURL r _, SrcURL r' _ => Nat.eqb r r'
  | SrcFunction r, SrcFunction r' => Nat.eqb r r'
  | _, _ => false
  end.

(** [options?.timeout : number | undefined]. *)
Definition timeout_is (a b : option Z) : bool :=
  match a, b with
  | None, None => true
  | Some x, Some y => Z.eqb x y
  | _, _ => false
  end.

(** Truthiness of a [number | undefined]. *)
Definition number_truthy (n : option Z) : bool :=
  match n with
  | Some k => negb (Z.eqb k 0)
  | None => false
  end.

(** What the host's constructor (or the caller's factory) does when the
    effect invokes it. *)
Inductive Construction : Type :=
| Constructs
| Throws (failure : jsval).

(** ** Host and hook state *)

(** A pending timer of the host.  Its callback is the arrow function of
    source line 88, which closes over the [status] of the render that ran
    the effect. *)
Record Timer : Type := mkTimer {
  timer_id : Z;
  deadline : Z;
  status_seen_by_timer : WorkerStatus
}.

(** Calls the hook makes on the host, in program order. *)
Inductive HostCall : Type :=
| CallSpawn (w : nat) (src : WorkerSource)
| CallTerminate (w : nat)
| CallPost (w : nat) (message : jsval)
| CallSetTimeout (id : Z) (delay : Z)
| CallClearTimeout (id : Z)
| CallWarn (text : string).

Record Machine : Type := mkMachine {
  (* useState *)
  data : jsval;
  error : jsval;
  status : WorkerStatus;
  (* useRef *)
  workerRef : option nat;
  timeoutRef : option Z;
  (* useEffect bookkeeping of the component instance *)
  deps : option (WorkerSource * option Z);
  destructor : bool;
  unmounted : bool;
  (* host *)
  spawned : nat;
  clock : Z;
  timer_seq : Z;
  timers : list Timer;
  calls : list HostCall
}.

(** The component before its first render.  [window.setTimeout] hands out
    positive identifiers. *)
Definition boot : Machine :=
  {| data := VNull; error := VNull; status := Idle;
     workerRef := None; timeoutRef := None;
     deps := None; destructor := false; unmounted := false;
     spawned := 0; clock := 0; timer_seq := 1; timers := []; calls := [] |}.

Definition with_data (v : jsval) (m : Machine) : Machine :=
  {| data := v; error := error m; status := status m;
     workerRef := workerRef m; timeoutRef := timeoutRef m;
     deps := deps m; destructor := destructor m; unmounted := unmounted m;
     spawned := spawned m; clock := clock m; timer_seq := timer_seq m;
     timers := timers m; calls := calls m |}.

Definition with_error (v : jsval) (m : Machine) : Machine :=
  {| data := data m; error := v; status := status m;
     workerRef := workerRef m; timeoutRef := timeoutRef m;
     deps := deps m; destructor := destructor m; unmounted := unmounted m;
     spawned := spawned m; clock := clock m; timer_seq := timer_seq m;
     timers := timers m; calls := calls m |}.

Definition with_status (s : WorkerStatus) (m : Machine) : Machine :=
  {| data := data m; error := error m; status := s;
     workerRef := workerRef m; timeoutRef := timeoutRef m;
     deps := deps m; destructor := destructor m; unmounted := unmounted m;
     spawned := spawned m; clock := clock m; timer_seq := timer_seq m;
     timers := timers m; calls := calls m |}.

Definition with_workerRef (w : option nat) (m : Machine) : Machine :=
  {| data := data m; error := error m; status := status m;
     workerRef := w; timeoutRef := timeoutRef m;
     deps := deps m; destructor := destructor m; unmounted := unmounted m;
     spawned := spawned m; clock := clock m; timer_seq := timer_seq m;
     timers := timers m; calls := calls m |}.

Definition with_timeoutRef (t : option Z) (m : Machine) : Machine :=
  {| data := data m; error := error m; status := status m;
     workerRef := workerRef m; timeoutRef := t;
     deps := deps m; destructor := destructor m; unmounted := unmounted m;
     spawned := spawned m; clock := clock m; timer_seq := timer_seq m;
     timers := timers m; calls := calls m |}.

Definition with_effect (d : option (WorkerSource * option Z)) (c : bool)
    (m : Machine) : Machine :=
  {| data := data m; error := error m; status := status m;
     workerRef := workerRef m; timeoutRef := timeoutRef m;
     deps := d; destructor := c; unmounted := unmounted m;
     spawned := spawned m; clock := clock m; timer_seq := timer_seq m;
     timers := timers m; calls := calls m |}.

Definition with_unmounted (b : bool) (m : Machine) : Machine :=
  {| data := data m; error := error m; status := status m;
     workerRef := workerRef m; timeoutRef := timeoutRef m;
     deps := deps m; destructor := destructor m; unmounted := b;
     spawned := spawned m; clock := clock m; timer_seq := timer_seq m;
     timers := timers m; calls := calls m |}.

Definition with_host (n : nat) (now seq : Z) (ts : list Timer)
    (log : list HostCall) (m : Machine) : Machine :=
  {| data := data m; error := error m; status := status m;
     workerRef := workerRef m; timeoutRef := timeoutRef m;
     deps := deps m; destructor := destructor m; unmounted := unmounted m;
     spawned := n; clock := now; timer_seq := seq;
     timers := ts; calls := log |}.

Definition log_call (c : HostCall) (m : Machine) : Machine :=
  with_host (spawned m) (clock m) (timer_seq m) (timers m) (calls m ++ [c]) m.

(** ** The callback monad: state that survives a throw *)

Inductive Completion (A : Type) : Type :=
| Normal (a : A)
| Abrupt (thrown : jsval).
Arguments Normal {A} a.
Arguments Abrupt {A} thrown.

Definition M (A : Type) : Type := Machine -> Completion A * Machine.

Definition ret {A} (a : A) : M A := fun m => (Normal a, m).

Definition bind {A B} (c : M A) (k : A -> M B) : M B :=
  fun m =>
    match c m with
    | (Normal a, m') => k a m'
    | (Abrupt e, m') => (Abrupt e, m')
    end.

Definition throw {A} (e : jsval) : M A := fun m => (Abrupt e, m).

Definition try_catch {A} (body : M A) (handler : jsval -> M A) : M A :=
  fun m =>
    match body m with
    | (Normal a, m') => (Normal a, m')
    | (Abrupt e, m') => handler e m'
    end.

Definition read {A} (f : Machine -> A) : M A := fun m => (Normal (f m), m).
Definition update (f : Machine -> Machine) : M unit := fun m => (Normal tt, f m).

Declare Scope hook_scope.
Delimit Scope hook_scope with hook.
Notation "x <- c ;; k" := (bind c (fun x => k))
  (at level 61, c at next level, right associativity) : hook_scope.
Notation "c ;; k" := (bind c (fun _ => k))
  (at level 61, right associativity) : hook_scope.
Local Open Scope hook_scope.

(** The state left by a callback that completed; [None] for an uncaught
    throw. *)
Definition exec (c : M unit) (m : Machine) : option Machine :=
  match c m with
  | (Normal _, m') => Some m'
  | (Abrupt _, _) => None
  end.

(** React state setters and ref assignments. *)
Definition setData (v : jsval) : M unit := update (with_data v).
Definition setError (v : jsval) : M unit := update (with_error v).
Definition setStatus (s : WorkerStatus) : M unit := update (with_status s).
Definition set_workerRef (w : option nat) : M unit := update (with_workerRef w).
Definition set_timeoutRef (t : option Z) : M unit := update (with_timeoutRef t).

(** ** Host primitives *)

(** A handle comes into being: the next identity, or the failure the
    environment decided on. *)
Definition spawn (src : WorkerSource) (env : Construction) : M nat :=
  match env with
  | Throws e => throw e
  | Constructs =>
      w <- read spawned ;;
      update (fun m => with_host (S w) (clock m) (timer_seq m) (timers m)
                         (calls m ++ [CallSpawn w src]) m) ;;
      ret w
  end.

(** [new Worker(workerSource)]. *)
Definition new_Worker (src : WorkerSource) (env : Construction) : M nat :=
  spawn src env.

(** [workerSource()], the caller's factory. *)
Definition call_factory (src : WorkerSource) (env : Construction) : M nat :=
  spawn src env.

Definition Worker_terminate (w : nat) : M unit := update (log_call (CallTerminate w)).

Definition Worker_postMessage (w : nat) (message : jsval) : M unit :=
  update (log_call (CallPost w message)).

Definition console_warn (text : string) : M unit := update (log_call (CallWarn text)).

(** [window.setTimeout(cb, delay)]; a negative delay counts as zero. *)
Definition window_setTimeout (status_seen : WorkerStatus) (delay : Z) : M Z :=
  id <- read timer_seq ;;
  update (fun m =>
    with_host (spawned m) (clock m) (id + 1)
      (timers m ++ [mkTimer id (clock m + Z.max 0 delay) status_seen])
      (calls m ++ [CallSetTimeout id delay]) m) ;;
  ret id.

Definition drop_timer (id : Z) (ts : list Timer) : list Timer :=
  filter (fun t => negb (Z.eqb (timer_id t) id)) ts.

Definition clearTimeout (id : Z) : M unit :=
  update (fun m =>
    with_host (spawned m) (clock m) (timer_seq m)
      (drop_timer id (timers m)) (calls m ++ [CallClearTimeout id]) m).

(** ** The hook *)

(** The block that lines 45-48, 71-74 and 81-84 of the source repeat:
      if (timeoutRef.current) { clearTimeout(...); timeoutRef.current = undefined } *)
Definition clear_timeoutRef : M unit :=
  t <- read timeoutRef ;;
  if number_truthy t then
    match t with
    | Some id => clearTimeout id ;; set_timeoutRef None
    | None => ret tt
    end
  else ret tt.

(** Lines 38-50. *)
Definition terminateWorker : M unit :=
  w <- read workerRef ;;
  match w with
  | Some worker =>
      Worker_terminate worker ;;
      set_workerRef None ;;
      setStatus Terminated ;;
      setData VNull ;;
      setError VNull ;;
      clear_timeoutRef
  | None => ret tt
  end.

(** Lines 67-75: [workerInstance.onmessage], applied to [event.data]. *)
Definition onmessage (event_data : jsval) : M unit :=
  setData event_data ;;
  setStatus Success ;;
  setError VNull ;;
  clear_timeoutRef.

(** Lines 77-85: [workerInstance.onerror]. *)
Definition onerror (err : jsval) : M unit :=
  setError err ;;
  setStatus Error ;;
  setData VNull ;;
  clear_timeoutRef.

(** Lines 88-94: the callback handed to [window.setTimeout].  [status] is
    the variable of the enclosing render. *)
Definition timeout_callback (status_seen : WorkerStatus) : M unit :=
  if negb (status_eqb status_seen Success) && negb (status_eqb status_seen Error) then
    terminateWorker ;;
    setError (VError "Worker timed out") ;;
    setStatus Error
  else ret tt.

(** Lines 52-104: the effect.  The result tells whether a destructor was
    returned (line 53 returns none). *)
Definition effect (status_seen : WorkerStatus) (workerSource : WorkerSource)
    (timeout : option Z) (env : Construction) : M bool :=
  if negb (source_truthy workerSource) then ret false
  else
    try_catch
      (workerInstance <-
         match workerSource with
         | SrcFunction _ => call_factory workerSource env
         | _ => new_Worker workerSource env
         end ;;
       set_workerRef (Some workerInstance) ;;
       setStatus Running ;;
       (* onmessage and onerror are installed on workerInstance here *)
       if number_truthy timeout then
         match timeout with
         | Some delay =>
             id <- window_setTimeout status_seen delay ;;
             set_timeoutRef (Some id)
         | None => ret tt
         end
       else ret tt)
      (fun err =>
         setError err ;;
         setStatus Error) ;;
    ret true.

(** Lines 106-119.  [status] is the variable of the render that created
    this [useCallback] instance. *)
Definition postMessage (status_seen : WorkerStatus) (message : jsval) : M unit :=
  w <- read workerRef ;;
  match w with
  | Some worker =>
      if negb (status_eqb status_seen Terminated) then
        Worker_postMessage worker message
      else
        console_warn "Worker is not running or has been terminated." ;;
        setError (VError "Worker is not running or has been terminated.") ;;
        setStatus Error
  | None =>
      console_warn "Worker is not running or has been terminated." ;;
      setError (VError "Worker is not running or has been terminated.") ;;
      setStatus Error
  end.

(** Line 121: what a render returns.  The two commands are closures;
    [postMessage] is the instance created by this render, so it sees this
    render's [status]. *)
Record HookResult : Type := mkHookResult {
  result_data : jsval;
  result_error : jsval;
  result_status : WorkerStatus;
  result_postMessage : jsval -> M unit;
  result_terminateWorker : M unit
}.

Definition useWebworker (m : Machine) : HookResult :=
  {| result_data := data m;
     result_error := error m;
     result_status := status m;
     result_postMessage := postMessage (status m);
     result_terminateWorker := terminateWorker |}.

(** ** The component instance and its environment *)

(** [error instanceof ErrorEvent || error instanceof Error]. *)
Definition has_message (error : jsval) : bool :=
  match error with
  | VError _ | VErrorEvent _ => true
  | _ => false
  end.

(** What can happen to a component.  [Render] is a render with the given
    props followed by React's commit; [env] is what the constructor does if
    the effect reaches it.  [CallPostMessage] and [CallTerminateWorker] are
    the caller using the commands of the latest render.  [WorkerMessage]
    and [WorkerError] are the host dispatching on worker [w], the latter an
    ErrorEvent with the given message; [AdvanceTimers] lets [ms]
    milliseconds pass.

    [CallKeptPostMessage] is the caller using a [postMessage] it kept from
    an earlier render, which saw the status [status_seen]: [useCallback]
    makes a new instance whenever the status changes (line 118) and the old
    ones stay callable, also after the unmount.  The model does not record
    which statuses were rendered; it admits every [status_seen], so what
    is proved of every sequence of events holds of every kept instance.
    ([terminateWorker] is one instance for the life of the component, line
    50.)

    [WorkerErrorOther] is the host handing [onerror] a value that is not an
    ErrorEvent: the relay is typed for an ErrorEvent but stores whatever it
    is given (lines 77-79); a browser fires a plain Event, a record here,
    at a worker whose script cannot be loaded, and a test double passes
    what it is told to, null for one.  The values are those without a
    message of their own ([step] checks it): an ErrorEvent is
    [WorkerError], and an Error object made by the host is left out, since
    a [jsval] knows an Error by its message only and could not tell it from
    the ones the hook makes itself. *)
Inductive Event : Type :=
| Render (workerSource : WorkerSource) (timeout : option Z) (env : Construction)
| CallPostMessage (message : jsval)
| CallTerminateWorker
| WorkerMessage (w : nat) (event_data : jsval)
| WorkerError (w : nat) (message : string)
| AdvanceTimers (ms : Z)
| Unmount
| CallKeptPostMessage (status_seen : WorkerStatus) (message : jsval)
| WorkerErrorOther (w : nat) (err : jsval).

Definition is_terminate_of (w : nat) (c : HostCall) : bool :=
  match c with
  | CallTerminate w' => Nat.eqb w w'
  | _ => false
  end.

(** How often [terminate()] was invoked on handle [w]. *)
Definition count_terminate (w : nat) (log : list HostCall) : nat :=
  List.length (filter (is_terminate_of w) log).

Definition terminate_count (w : nat) (m : Machine) : nat :=
  count_terminate w (calls m).

(** A handle is live from its construction until [terminate()] is called
    on it. *)
Definition live (w : nat) (m : Machine) : bool :=
  Nat.ltb w (spawned m) && Nat.eqb (terminate_count w m) 0.

(** The relays are installed on every handle the effect constructed, and
    the hook never removes them: the host can dispatch on any of these. *)
Definition installed (w : nat) (m : Machine) : bool :=
  Nat.ltb w (spawned m).

(** The dependency array [[workerSource, options?.timeout, terminateWorker]]
    differs from the one of the previous commit ([terminateWorker] is a
    [useCallback] with no dependencies and never changes). *)
Definition deps_changed (workerSource : WorkerSource) (timeout : option Z)
    (m : Machine) : bool :=
  match deps m with
  | None => true
  | Some (src, tmo) => negb (source_is src workerSource && timeout_is tmo timeout)
  end.

(** Commit of a render: when the dependencies changed, the destructor of
    the previous effect runs, then the effect of this render, whose
    closures see this render's [status]. *)
Definition commit (workerSource : WorkerSource) (timeout : option Z)
    (env : Construction) : M unit :=
  changed <- read (deps_changed workerSource timeout) ;;
  if changed then
    status_seen <- read status ;;
    had_destructor <- read destructor ;;
    (if had_destructor then terminateWorker else ret tt) ;;
    returned <- effect status_seen workerSource timeout env ;;
    update (with_effect (Some (workerSource, timeout)) returned)
  else ret tt.

(** Timers are run in deadline order. *)
Fixpoint insert_timer (t : Timer) (ts : list Timer) : list Timer :=
  match ts with
  | [] => [t]
  | u :: rest =>
      if Z.leb (deadline u) (deadline t) then u :: insert_timer t rest
      else t :: u :: rest
  end.

Definition by_deadline (ts : list Timer) : list Timer :=
  fold_right insert_timer [] (rev ts).

Definition is_pending (id : Z) (m : Machine) : bool :=
  existsb (fun t => Z.eqb (timer_id t) id) (timers m).

(** The host runs one due timer: it leaves the table, the clock stands at
    its deadline, its callback runs.  A timer cleared meanwhile is
    skipped. *)
Definition fire (t : Timer) : M unit :=
  pending <- read (is_pending (timer_id t)) ;;
  if pending then
    update (fun m => with_host (spawned m) (deadline t) (timer_seq m)
                       (drop_timer (timer_id t) (timers m)) (calls m) m) ;;
    timeout_callback (status_seen_by_timer t)
  else ret tt.

Fixpoint fire_all (queue : list Timer) : M unit :=
  match queue with
  | [] => ret tt
  | t :: rest => fire t ;; fire_all rest
  end.

Definition advance (ms : Z) : M unit :=
  now <- read clock ;;
  ts <- read timers ;;
  fire_all (by_deadline (filter (fun t => Z.leb (deadline t) (now + ms)) ts)) ;;
  update (fun m => with_host (spawned m) (now + ms) (timer_seq m) (timers m) (calls m) m).

(** One event.  [None] when the event cannot happen: an unmounted
    component is not rendered or unmounted again and has no latest render,
    the commands exist only after the first render, the host dispatches on
    a handle that carries the relays, and time does not run backwards.
    Whether the host still dispatches on a handle after [terminate()] is the
    host's business (a browser discards what the worker had queued, the test
    double of the repository delivers whatever it is told to); [step]
    allows it and [dispatches_live] below rules it out.

    The closures outlive the component: after the unmount a kept
    [postMessage], [terminateWorker], the relays and a timer still run when
    they are called.  React ignores the state setters of an unmounted
    component and nobody reads its cells any more; the model goes on
    recording what the setters were given, so of a state after the unmount
    only the refs, the timers and the calls say something about the
    program. *)
Definition step (e : Event) (m : Machine) : option Machine :=
  match e with
  | Render workerSource timeout env =>
      if unmounted m then None
      else exec (commit workerSource timeout env) m
  | CallPostMessage message =>
      if unmounted m then None
      else
        match deps m with
        | Some _ => exec (result_postMessage (useWebworker m) message) m
        | None => None
        end
  | CallKeptPostMessage status_seen message =>
      match deps m with
      | Some _ => exec (postMessage status_seen message) m
      | None => None
      end
  | CallTerminateWorker =>
      match deps m with
      | Some _ => exec (result_terminateWorker (useWebworker m)) m
      | None => None
      end
  | WorkerMessage w event_data =>
      if installed w m then exec (onmessage event_data) m else None
  | WorkerError w message =>
      if installed w m then exec (onerror (VErrorEvent message)) m else None
  | WorkerErrorOther w err =>
      if installed w m && negb (has_message err) then exec (onerror err) m
      else None
  | AdvanceTimers ms =>
      if Z.leb 0 ms then exec (advance ms) m else None
  | Unmount =>
      if unmounted m then None
      else
        match deps m with
        | Some _ =>
            exec ((if destructor m then terminateWorker else ret tt) ;;
                  update (with_unmounted true)) m
        | None => None
        end
  end.

Fixpoint run (es : list Event) (m : Machine) : option Machine :=
  match es with
  | [] => Some m
  | e :: rest =>
      match step e m with
      | Some m' => run rest m'
      | None => None
      end
  end.

(** States the component can be in. *)
Definition reachable (m : Machine) : Prop := exists es, run es boot = Some m.

(** A host that dispatches messages and errors on live workers only. *)
Definition on_live (e : Event) (m : Machine) : bool :=
  match e with
  | WorkerMessage w _ | WorkerError w _ | WorkerErrorOther w _ => live w m
  | _ => true
  end.

Fixpoint dispatches_live (es : list Event) (m : Machine) : bool :=
  match es with
  | [] => true
  | e :: rest =>
      on_live e m &&
      match step e m with
      | Some m' => dispatches_live rest m'
      | None => true
      end
  end.

(** ** Notions used in the statements *)

(** What every state of a mounted component satisfies: the ref points to
    the only live handle, at most one timer is pending and [timeoutRef]
    names it, and [status] and [error] obey the rules that the code
    maintains under any host. *)
Record wf (m : Machine) : Prop := mkWf {
  wf_ref_live : forall w, workerRef m = Some w -> w < spawned m /\ terminate_count w m = 0;
  wf_live_ref : forall w, w < spawned m -> terminate_count w m = 0 -> workerRef m = Some w;
  wf_once : forall w, terminate_count w m <= 1;
  wf_fresh : forall w, spawned m <= w -> terminate_count w m = 0;
  wf_timers : timers m = [] \/
              exists t, timers m = [t] /\ timeoutRef m = Some (timer_id t) /\
                        timer_id t <> 0%Z /\ workerRef m <> None;
  wf_seq : (1 <= timer_seq m)%Z;
  wf_timeoutRef : forall id, timeoutRef m = Some id -> (1 <= id)%Z;
  wf_destructor : destructor m = false -> workerRef m = None;
  wf_success : status m = Success -> error m = VNull;
  wf_idle : status m = Idle ->
            data m = VNull /\ error m = VNull /\ workerRef m = None;
  wf_terminated : status m = Terminated ->
                  data m = VNull /\ error m = VNull /\ workerRef m = None;
  wf_running : status m = Running -> workerRef m <> None
}.

(** What [data] obeys in addition when the host dispatches on live workers
    only and the caller uses no [postMessage] kept from a Terminated
    render: a payload is on display only while the status is Success, and
    only while the handle that sent it is in the ref. *)
Definition tidy (m : Machine) : Prop :=
  (data m <> VNull -> status m = Success) /\
  (workerRef m = None -> data m = VNull).

(** A [postMessage] kept from a render that saw the status Terminated. *)
Definition kept_from_terminated (e : Event) : bool :=
  match e with
  | CallKeptPostMessage Terminated _ => true
  | _ => false
  end.

(** What [data] obeys under such a host whichever instance of
    [postMessage] the caller uses: a payload is on display while the status
    is Success, or while it is Error with the notice of line 114 (an
    instance kept from a Terminated render refuses although a later cycle
    has a result on display, and the refusal does not clear [data]); and
    only while the handle that sent it is in the ref. *)
Definition tidy_but_for_refusal (m : Machine) : Prop :=
  (data m <> VNull ->
   status m = Success \/
   (status m = Error /\
    error m = VError "Worker is not running or has been terminated.")) /\
  (workerRef m = None -> data m = VNull).

(** The host calls made by the block
    [if (timeoutRef.current) { clearTimeout(...); ... }]. *)
Definition clear_calls (t : option Z) : list HostCall :=
  match t with
  | Some id => if Z.eqb id 0 then [] else [CallClearTimeout id]
  | None => []
  end.

(** The timer table after that block. *)
Definition clear_timers (t : option Z) (ts : list Timer) : list Timer :=
  match t with
  | Some id => if Z.eqb id 0 then ts else drop_timer id ts
  | None => ts
  end.

(** [timeoutRef.current] after that block. *)
Definition clear_ref (t : option Z) : option Z :=
  if number_truthy t then None else t.

(** The text of lines 113 and 114. *)
Definition notice : string := "Worker is not running or has been terminated.".

(** A [postMessage] created while the status was Terminated and called
    after a later cycle produced a result: the result stays in [data]. *)
Definition stale_postMessage_state : Machine :=
  {| data := VObject [("result", SNum 84)]; error := VNull; status := Success;
     workerRef := Some 1; timeoutRef := None;
     deps := Some (SrcString "/b.js", None); destructor := true;
     unmounted := false;
     spawned := 2; clock := 0; timer_seq := 1; timers := [];
     calls := [CallSpawn 0 (SrcString "/a.js"); CallTerminate 0;
               CallSpawn 1 (SrcString "/b.js")] |}.

(** The state after mounting with a URL and no timeout. *)
Definition running_plain : Machine :=
  {| data := VNull; error := VNull; status := Running;
     workerRef := Some 0; timeoutRef := None;
     deps := Some (SrcString "/example.worker.js", None);
     destructor := true; unmounted := false;
     spawned := 1; clock := 0; timer_seq := 1; timers := [];
     calls := [CallSpawn 0 (SrcString "/example.worker.js")] |}.

(** The state 50 ms after mounting with a URL and [timeout: 100]. *)
Definition running_timed : Machine :=
  {| data := VNull; error := VNull; status := Running;
     workerRef := Some 0; timeoutRef := Some 1%Z;
     deps := Some (SrcString "/example.worker.js", Some 100%Z);
     destructor := true; unmounted := false;
     spawned := 1; clock := 50; timer_seq := 2;
     timers := [mkTimer 1 100 Idle];
     calls := [CallSpawn 0 (SrcString "/example.worker.js");
               CallSetTimeout 1 100] |}.

(** The state the destructor of the previous effect leaves. *)
Definition torn_down (m : Machine) : Machine :=
  match workerRef m with
  | Some worker =>
      {| data := VNull; error := VNull; status := Terminated;
         workerRef := None; timeoutRef := clear_ref (timeoutRef m);
         deps := deps m; destructor := destructor m; unmounted := unmounted m;
         spawned := spawned m; clock := clock m; timer_seq := timer_seq m;
         timers := clear_timers (timeoutRef m) (timers m);
         calls := (calls m ++ [CallTerminate worker]) ++ clear_calls (timeoutRef m) |}
  | None => m
  end.

(** What a successful construction adds: the timer, when one is asked
    for. *)
Definition scheduled (status_seen : WorkerStatus) (tmo : option Z) (m : Machine)
    : list Timer :=
  match tmo with
  | Some delay =>
      if Z.eqb delay 0 then []
      else [mkTimer (timer_seq m) (clock m + Z.max 0 delay) status_seen]
  | None => []
  end.

(** An event that hands the hook the value null as its error: the
    constructor throws it, or the host passes it to [onerror]. *)
Definition stores_null (e : Event) : bool :=
  match e with
  | Render _ _ (Throws VNull) => true
  | WorkerErrorOther _ VNull => true
  | _ => false
  end.

(** Status Error comes with an error object. *)
Definition err_ok (m : Machine) : Prop := status m = Error -> error m <> VNull.

(** The invariant of section 3 of the specification, in its words. *)
Definition claimed_invariant (m : Machine) : Prop :=
  (status m = Success <-> data m <> VNull /\ error m = VNull) /\
  (status m = Error <-> error m <> VNull /\ data m = VNull) /\
  (status m = Idle \/ status m = Terminated -> data m = VNull /\ error m = VNull) /\
  (status m = Running ->
   data m = VNull /\ error m = VNull /\
   exists w, workerRef m = Some w /\ live w m = true).

(** The worker answers with the payload null. *)
Definition null_payload_trace : list Event :=
  [Render (SrcString "/example.worker.js") None Constructs;
   WorkerMessage 0 VNull].

(** [postMessage] before any source is configured, then a source arrives. *)
Definition stale_error_trace : list Event :=
  [Render (SrcString "") None Constructs;
   CallPostMessage (VNum 1);
   Render (SrcString "/example.worker.js") None Constructs].

(** The worker is terminated by hand, a payload it had sent is delivered
    all the same, then the caller posts. *)
Definition late_message_trace : list Event :=
  [Render (SrcString "/example.worker.js") None Constructs;
   CallTerminateWorker;
   WorkerMessage 0 (VNum 84);
   CallPostMessage (VNum 1)].

(** The worker is terminated by hand and the source changes; the second
    worker answers; then the caller posts with the [postMessage] it kept
    from the render that saw Terminated.  The host dispatches on live
    workers only. *)
Definition kept_closure_trace : list Event :=
  [Render (SrcString "/a.js") None Constructs;
   CallTerminateWorker;
   Render (SrcString "/b.js") None Constructs;
   WorkerMessage 1 (VObject [("result", SNum 84)]);
   CallKeptPostMessage Terminated (VNum 1)].

(** The state after mounting with [timeout: 100] and letting 150 ms pass
    without an answer. *)
Definition timed_out : Machine :=
  {| data := VNull; error := VError "Worker timed out"; status := Error;
     workerRef := None; timeoutRef := None;
     deps := Some (SrcString "/example.worker.js", Some 100%Z);
     destructor := true; unmounted := false;
     spawned := 1; clock := 150; timer_seq := 2; timers := [];
     calls := [CallSpawn 0 (SrcString "/example.worker.js");
               CallSetTimeout 1 100; CallTerminate 0; CallClearTimeout 1] |}.

(** The source changes after a result arrived: the component is in a new
    Running cycle with a timeout of 100 ms whose callback saw Success. *)
Definition rearmed_after_result : Machine :=
  {| data := VNull; error := VNull; status := Running;
     workerRef := Some 1; timeoutRef := Some 2%Z;
     deps := Some (SrcString "/b.js", Some 100%Z);
     destructor := true; unmounted := false;
     spawned := 2; clock := 50; timer_seq := 3;
     timers := [mkTimer 2 150 Success];
     calls := [CallSpawn 0 (SrcString "/a.js"); CallSetTimeout 1 100;
               CallClearTimeout 1; CallTerminate 0;
               CallSpawn 1 (SrcString "/b.js"); CallSetTimeout 2 100] |}.

(** ** Notions used in the further properties *)

(** A host call that reaches no worker and arms no timer. *)
Definition quiet_call (c : HostCall) : bool :=
  match c with
  | CallWarn _ | CallClearTimeout _ => true
  | _ => false
  end.

(** The event makes the effect run again: a render whose dependencies
    differ from those of the previous commit. *)
Definition reruns_effect (e : Event) (m : Machine) : bool :=
  match e with
  | Render workerSource timeout _ => deps_changed workerSource timeout m
  | _ => false
  end.

(** No event of the sequence makes the effect run again. *)
Fixpoint effect_rests (es : list Event) (m : Machine) : bool :=
  match es with
  | [] => true
  | e :: rest =>
      negb (reruns_effect e m) &&
      match step e m with
      | Some m' => effect_rests rest m'
      | None => true
      end
  end.

(** [running_timed] after the worker answered with the number 1. *)
Definition answered_timed : Machine :=
  {| data := VNum 1; error := VNull; status := Success;
     workerRef := Some 0; timeoutRef := None;
     deps := Some (SrcString "/example.worker.js", Some 100%Z);
     destructor := true; unmounted := false;
     spawned := 1; clock := 50; timer_seq := 2; timers := [];
     calls := [CallSpawn 0 (SrcString "/example.worker.js");
               CallSetTimeout 1 100; CallClearTimeout 1] |}.

(** * The example worker, [public/example.worker.js] *)

(** The script answers every message with exactly one [self.postMessage].
    Its answers are a bare number or one of three records told apart by
    their [type] field:
      [ReplyResult p]   is  { type: "RESULT", payload: p }
      [ReplyNumber n]   is  n
      [ReplyEcho p]     is  { type: "ECHO_BACK", payload: p }  ([None]: undefined)
      [ReplyUnknown d]  is  { type: "ERROR", error: "Unknown message format", details: d }
    Numbers are the integers among the doubles, as in [jsval] (an integer
    that is no double, 2^53 + 1 for one, is no message, and fractions and
    NaN are outside the model). *)

(** The product [x * 2] of the script on such a number.  Doubling a double
    only raises its exponent, so the product is the exact one as long as
    it is below 2^1024 in size, and an infinity from there on: the script
    answers 2^1023 with Infinity. *)
Inductive Product : Type :=
| Finite (n : Z)
| Infinite (negative : bool).

Definition times_two (x : Z) : Product :=
  if Z.ltb (Z.abs (x * 2)) (2 ^ 1024) then Finite (x * 2)
  else Infinite (Z.ltb x 0).

Inductive WorkerReply : Type :=
| ReplyResult (payload : Product)
| ReplyNumber (n : Product)
| ReplyEcho (payload : option scalar)
| ReplyUnknown (details : jsval).

(** Truthiness of a message value. *)
Definition js_truthy (v : jsval) : bool :=
  match v with
  | VNull => false
  | VNum n => negb (Z.eqb n 0)
  | VStr s => negb (String.eqb s "")
  | VObject _ | VError _ | VErrorEvent _ => true
  end.

(** The value of field [key] in a record; a key written twice holds the
    value written last. *)
Fixpoint get_field (key : string) (fields : list (string * scalar))
    : option scalar :=
  match fields with
  | [] => None
  | (k, v) :: rest =>
      match get_field key rest with
      | Some later => Some later
      | None => if String.eqb k key then Some v else None
      end
  end.

(** [messageData.type] and [messageData.payload]: [None] is undefined,
    which is what every value other than a record carrying the field
    gives (an Error object has neither field). *)
Definition property (v : jsval) (key : string) : option scalar :=
  match v with
  | VObject fields => get_field key fields
  | _ => None
  end.

(** [x === text] for a field [x]. *)
Definition is_string (o : option scalar) (text : string) : bool :=
  match o with
  | Some (SStr s) => String.eqb s text
  | _ => false
  end.

(** [typeof x === "number"] on a field and on a message, and the number
    then at hand. *)
Definition is_number (o : option scalar) : bool :=
  match o with
  | Some (SNum _) => true
  | _ => false
  end.

Definition number_of (o : option scalar) : Z :=
  match o with
  | Some (SNum n) => n
  | _ => 0
  end.

Definition typeof_number (v : jsval) : bool :=
  match v with
  | VNum _ => true
  | _ => false
  end.

Definition value_of (v : jsval) : Z :=
  match v with
  | VNum n => n
  | _ => 0
  end.

(** Lines 49-94 of the script: the reply to [event.data].  Nothing in the
    [try] block can throw on a cloned message, so the [catch] of line 87 is
    never entered. *)
Definition worker_onmessage (messageData : jsval) : WorkerReply :=
  if js_truthy messageData
     && is_string (property messageData "type") "CALCULATE"
     && is_number (property messageData "payload")
  then ReplyResult (times_two (number_of (property messageData "payload")))
  else if typeof_number messageData
  then ReplyNumber (times_two (value_of messageData))
  else if js_truthy messageData
          && is_string (property messageData "type") "ECHO"
  then ReplyEcho (property messageData "payload")
  else ReplyUnknown messageData.

(** Lines 115-118: what the script posts when it has loaded. *)
Definition worker_ready : jsval :=
  VObject [("type", SStr "WORKER_READY");
           ("message", SStr "Worker is initialized and ready.")].

(** [Number.MAX_SAFE_INTEGER], and the integers every one of which is a
    double. *)
Definition MAX_SAFE_INTEGER : Z := 9007199254740991.

Definition safe_integer (n : Z) : Prop :=
  (- MAX_SAFE_INTEGER <= n <= MAX_SAFE_INTEGER)%Z.

(** * The demonstration, [src/App.tsx] *)

(** What the component itself asks of the browser: [alert] and
    [console.log] (the hook's own calls are in [calls]). *)
Inductive UICall : Type :=
| UIAlert (text : string)
| UILog (label : string) (value : Z).

(** The component: its instance of the hook, its own state cell and what it
    asked of the browser.  The cell holds [Number(event.target.value)];
    the model follows it while it is an integer, and what is said of the
    number sent asks for a safe integer. *)
Record AppState : Type := mkApp {
  hook : Machine;
  inputValue : Z;
  ui : list UICall
}.

(** Lines 13-14: the arguments of the hook. *)
Definition app_source : WorkerSource := SrcString "/example.worker.js".
Definition app_timeout : option Z := Some 5000%Z.

(** Lines 21-28, with the [status] and [postMessage] of the current
    render. *)
Definition sendMessageToWorker (a : AppState) : AppState :=
  let r := useWebworker (hook a) in
  if status_eqb (result_status r) Terminated then
    mkApp (hook a) (inputValue a)
      (ui a ++ [UIAlert "Worker has been terminated. Please refresh or re-initialize."])
  else
    mkApp (snd (result_postMessage r (VNum (inputValue a)) (hook a)))
      (inputValue a)
      (ui a ++ [UILog "Sending to worker:" (inputValue a)]).

(** Lines 30-45.  The [default] branch has no status left to serve. *)
Definition getStatusColor (currentStatus : WorkerStatus) : string :=
  match currentStatus with
  | Idle => "grey"
  | Running => "blue"
  | Success => "green"
  | Error => "red"
  | Terminated => "orange"
  end.

(** Line 64: [disabled] of the send button. *)
Definition send_disabled (s : WorkerStatus) : bool :=
  status_eqb s Running || status_eqb s Terminated.

(** Line 70: [disabled] of the terminate button. *)
Definition terminate_disabled (s : WorkerStatus) : bool :=
  status_eqb s Terminated || status_eqb s Idle.

(** A click on the send button; a disabled button does not call its
    handler. *)
Definition click_send (a : AppState) : AppState :=
  if send_disabled (result_status (useWebworker (hook a))) then a
  else sendMessageToWorker a.

(** A click on the terminate button, whose handler is the hook's
    [terminateWorker]. *)
Definition click_terminate (a : AppState) : AppState :=
  if terminate_disabled (result_status (useWebworker (hook a))) then a
  else mkApp (snd (result_terminateWorker (useWebworker (hook a)) (hook a)))
         (inputValue a) (ui a).

Section Display.

(** [JSON.stringify], the browser's. *)
Variable JSON_stringify : jsval -> string.

(** Lines 92-96: the text of the error panel. *)
Definition error_text (error : jsval) : string :=
  match error with
  | VErrorEvent message => message
  | VError message => message
  | _ => JSON_stringify error
  end.

End Display.

(** An event that hands the hook an error which is not an Error object or
    an ErrorEvent: the constructor throws such a value, or the host passes
    one to [onerror]. *)
Definition brings_no_message (e : Event) : bool :=
  match e with
  | Render _ _ (Throws (VError _)) => false
  | Render _ _ (Throws _) => true
  | WorkerErrorOther _ _ => true
  | _ => false
  end.

(** Line 8, and the component before its first render. *)
Definition app_boot : AppState := mkApp boot 5 [].

(** What can happen to the demonstration.  The component is the only user
    of its instance of the hook: it renders with the arguments of lines
    13-14 and the two commands are called by the two buttons, nowhere
    else, with the closures of the latest render.  [ChangeInput] is line 18
    with the number typed in; [AppMessage], [AppError] and [AppErrorOther]
    are the host dispatching on the worker, as for the hook. *)
Inductive AppEvent : Type :=
| AppRender (env : Construction)
| ClickSend
| ClickTerminate
| ChangeInput (value : Z)
| AppMessage (w : nat) (event_data : jsval)
| AppError (w : nat) (message : string)
| AppWait (ms : Z)
| AppUnmount
| AppErrorOther (w : nat) (err : jsval).

(** The buttons and the input are there from the first commit until the
    component is unmounted. *)
Definition on_screen (m : Machine) : bool :=
  negb (unmounted m) &&
  match deps m with
  | Some _ => true
  | None => false
  end.

Definition with_hook (a : AppState) (m : Machine) : AppState :=
  mkApp m (inputValue a) (ui a).

Definition app_step (ev : AppEvent) (a : AppState) : option AppState :=
  match ev with
  | AppRender env =>
      option_map (with_hook a) (step (Render app_source app_timeout env) (hook a))
  | ClickSend => if on_screen (hook a) then Some (click_send a) else None
  | ClickTerminate => if on_screen (hook a) then Some (click_terminate a) else None
  | ChangeInput value =>
      if on_screen (hook a) then Some (mkApp (hook a) value (ui a)) else None
  | AppMessage w event_data =>
      option_map (with_hook a) (step (WorkerMessage w event_data) (hook a))
  | AppError w message =>
      option_map (with_hook a) (step (WorkerError w message) (hook a))
  | AppWait ms => option_map (with_hook a) (step (AdvanceTimers ms) (hook a))
  | AppUnmount => option_map (with_hook a) (step Unmount (hook a))
  | AppErrorOther w err =>
      option_map (with_hook a) (step (WorkerErrorOther w err) (hook a))
  end.

Fixpoint app_run (evs : list AppEvent) (a : AppState) : option AppState :=
  match evs with
  | [] => Some a
  | ev :: rest =>
      match app_step ev a with
      | Some a' => app_run rest a'
      | None => None
      end
  end.

(** States the demonstration can be in. *)
Definition app_reachable (a : AppState) : Prop :=
  exists evs, app_run evs app_boot = Some a.

(** The host dispatches on live workers only, as a browser does. *)
Definition app_on_live (ev : AppEvent) (a : AppState) : bool :=
  match ev with
  | AppMessage w _ | AppError w _ | AppErrorOther w _ => live w (hook a)
  | _ => true
  end.

Fixpoint app_dispatches_live (evs : list AppEvent) (a : AppState) : bool :=
  match evs with
  | [] => true
  | ev :: rest =>
      app_on_live ev a &&
      match app_step ev a with
      | Some a' => app_dispatches_live rest a'
      | None => true
      end
  end.

(** Every render of the sequence brings the arguments of lines 13-14. *)
Definition app_renders (es : list Event) : bool :=
  forallb (fun e =>
             match e with
             | Render src tmo _ => source_is app_source src && timeout_is app_timeout tmo
             | _ => true
             end) es.

(** The dependencies of a hook that only ever saw the arguments of lines
    13-14: none before the first commit, when nothing has been constructed
    and the status is the initial one, and these arguments ever after, with
    at most the one worker of the first commit. *)
Definition demo_deps (m : Machine) : Prop :=
  (deps m = None /\ spawned m = 0 /\ status m = Idle) \/
  (deps m = Some (app_source, app_timeout) /\ spawned m <= 1).

(** The demonstration after its worker has loaded and said so. *)
Definition demo_ready : AppState :=
  mkApp
    {| data := worker_ready; error := VNull; status := Success;
       workerRef := Some 0; timeoutRef := None;
       deps := Some (app_source, app_timeout);
       destructor := true; unmounted := false;
       spawned := 1; clock := 0; timer_seq := 2; timers := [];
       calls := [CallSpawn 0 app_source; CallSetTimeout 1 5000;
                 CallClearTimeout 1] |}
    5 [].

(** The demonstration when its worker stayed silent for five seconds. *)
Definition demo_timed_out : AppState :=
  mkApp
    {| data := VNull; error := VError "Worker timed out"; status := Error;
       workerRef := None; timeoutRef := None;
       deps := Some (app_source, app_timeout);
       destructor := true; unmounted := false;
       spawned := 1; clock := 5000; timer_seq := 2; timers := [];
       calls := [CallSpawn 0 app_source; CallSetTimeout 1 5000;
                 CallTerminate 0; CallClearTimeout 1] |}
    5 [].

(** The demonstration after its first commit. *)
Definition demo_mounted : AppState :=
  mkApp
    {| data := VNull; error := VNull; status := Running;
       workerRef := Some 0; timeoutRef := Some 1%Z;
       deps := Some (app_source, app_timeout);
       destructor := true; unmounted := false;
       spawned := 1; clock := 0; timer_seq := 2;
       timers := [mkTimer 1 5000 Idle];
       calls := [CallSpawn 0 app_source; CallSetTimeout 1 5000] |}
    5 [].

(** The demonstration after a click on the terminate button. *)
Definition demo_terminated : AppState :=
  mkApp
    {| data := VNull; error := VNull; status := Terminated;
       workerRef := None; timeoutRef := None;
       deps := Some (app_source, app_timeout);
       destructor := true; unmounted := false;
       spawned := 1; clock := 0; timer_seq := 2; timers := [];
       calls := [CallSpawn 0 app_source; CallSetTimeout 1 5000;
                 CallTerminate 0; CallClearTimeout 1] |}
    5 [].

(** What the error panel can show without [JSON.stringify]: in the status
    Error the error is an Error object or an ErrorEvent. *)
Definition shows_message (m : Machine) : Prop :=
  status m = Error -> has_message (error m) = true.

(** * Well-formed states *)

(** ** The call log *)

Lemma count_terminate_nil (w : nat) : count_terminate w [] = 0.
Proof. reflexivity. Qed.

Lemma count_terminate_snoc (w : nat) (log : list HostCall) (c : HostCall) :
  count_terminate w (log ++ [c]) =
  count_terminate w log + (if is_terminate_of w c then 1 else 0).
Proof.
  unfold count_terminate. rewrite filter_app, length_app. cbn.
  destruct (is_terminate_of w c); reflexivity.
Qed.

Lemma live_spec (w : nat) (m : Machine) :
  live w m = true <-> w < spawned m /\ terminate_count w m = 0.
Proof.
  unfold live. rewrite andb_true_iff, Nat.ltb_lt, Nat.eqb_eq. tauto.
Qed.

Lemma count_terminate_app (w : nat) (log more : list HostCall) :
  count_terminate w (log ++ more) = count_terminate w log + count_terminate w more.
Proof. unfold count_terminate. rewrite filter_app, length_app. reflexivity. Qed.

#[local] Opaque count_terminate.

(** ** The invariant *)

Lemma wf_boot : wf boot.
Proof.
  constructor; cbn; intros; try discriminate; try congruence; try lia; auto.
Qed.

(** ** Each callback keeps the invariant *)

Ltac run_callback :=
  unfold exec, terminateWorker, onmessage, onerror, postMessage,
    timeout_callback, clear_timeoutRef, clearTimeout, Worker_terminate,
    Worker_postMessage, console_warn, setData, setError, setStatus,
    set_workerRef, set_timeoutRef, bind, ret, read, update, log_call in *;
  cbn in *.

(** Instantiate the quantified facts of the invariant at every handle in
    sight. *)
Ltac at_handles :=
  repeat match goal with
  | H : forall w : nat, _ |- _ =>
      match goal with
      | w : nat |- _ =>
          let T := type of (H w) in
          lazymatch goal with
          | _ : T |- _ => fail
          | _ => pose proof (H w)
          end
      end
  | H : forall id : Z, _ |- _ =>
      match goal with
      | id : Z |- _ =>
          let T := type of (H id) in
          lazymatch goal with
          | _ : T |- _ => fail
          | _ => pose proof (H id)
          end
      end
  end.

Ltac split_eqb :=
  repeat match goal with
  | |- context [Nat.eqb ?a ?b] => destruct (Nat.eqb_spec a b); subst
  | H : context [Nat.eqb ?a ?b] |- _ => destruct (Nat.eqb_spec a b); subst
  | |- context [Z.eqb ?a ?b] => destruct (Z.eqb_spec a b); subst
  | H : context [Z.eqb ?a ?b] |- _ => destruct (Z.eqb_spec a b); subst
  end.

Ltac log_facts :=
  unfold terminate_count in *; cbn in *;
  repeat match goal with
  | H : context [count_terminate _ (app _ (cons _ nil))] |- _ =>
      rewrite count_terminate_snoc in H
  | |- context [count_terminate _ (app _ (cons _ nil))] =>
      rewrite count_terminate_snoc
  end;
  cbn [is_terminate_of] in *.

(** Forward chaining: discharge every premise that is already known. *)
Ltac forward :=
  repeat match goal with
  | H : _ /\ _ |- _ => destruct H
  | H : Some _ = Some _ |- _ => inversion H; subst; clear H
  | H : ?P -> _ |- _ =>
      let HP := fresh in
      assert (HP : P) by first [assumption | reflexivity | lia | congruence];
      specialize (H HP); clear HP
  end.

Ltac split_lt :=
  repeat match goal with
  | H : ?a < ?b -> _ |- _ =>
      destruct (Nat.lt_ge_cases a b);
      [ specialize (H ltac:(assumption)) | clear H ]
  end.

Ltac arith := try congruence; try lia; try (f_equal; lia).

Ltac close_goal :=
  log_facts; at_handles; split_eqb; cbn in *; forward;
  first
    [ solve [intuition arith]
    | solve [left; reflexivity]
    | solve [right; eexists; (split; [reflexivity|]); cbn;
             intuition (try reflexivity; arith)]
    | solve [split_lt; forward; intuition arith]
    | idtac ].

Ltac close_wf := constructor; cbn; intros; close_goal.

Lemma terminateWorker_wf (m m' : Machine) :
  wf m -> exec terminateWorker m = Some m' -> wf m'.
Proof.
  intros [] E. destruct m as [d e s wr tr dp ds um sp ck sq ts cs].
  run_callback.
  destruct wr as [w|]; cbn in *.
  - destruct wf_timers0 as [-> | (t & -> & Ht & Hz & _)];
      destruct tr as [id|]; cbn in *; split_eqb; cbn in *;
      inversion E; subst; clear E; try congruence.
    all: close_wf.
  - inversion E; subst; clear E. close_wf.
Qed.

Lemma exec_bind (c k : M unit) (m m' : Machine) :
  exec (c ;; k) m = Some m' ->
  exists m1, exec c m = Some m1 /\ exec k m1 = Some m'.
Proof.
  unfold exec, bind. destruct (c m) as [[[]|thrown] m1]; [|discriminate].
  intros E. exists m1. split; [reflexivity | exact E].
Qed.

Lemma onmessage_wf (event_data : jsval) (m m' : Machine) :
  wf m -> exec (onmessage event_data) m = Some m' -> wf m'.
Proof.
  intros [] E.
  destruct m as [d e s wr tr dp ds um sp ck sq ts cs].
  run_callback.
  destruct wf_timers0 as [-> | (t & -> & Ht & Hz & _)];
    destruct tr as [id|]; cbn in *; split_eqb; cbn in *;
    inversion E; subst; clear E; try congruence.
  all: close_wf.
Qed.

Lemma onerror_wf (err : jsval) (m m' : Machine) :
  wf m -> exec (onerror err) m = Some m' -> wf m'.
Proof.
  intros [] E.
  destruct m as [d e s wr tr dp ds um sp ck sq ts cs].
  run_callback.
  destruct wf_timers0 as [-> | (t & -> & Ht & Hz & _)];
    destruct tr as [id|]; cbn in *; split_eqb; cbn in *;
    inversion E; subst; clear E; try congruence.
  all: close_wf.
Qed.

Lemma postMessage_wf (message : jsval) (m m' : Machine) :
  wf m -> exec (postMessage (status m) message) m = Some m' -> wf m'.
Proof.
  intros [] E.
  destruct m as [d e s wr tr dp ds um sp ck sq ts cs].
  run_callback.
  destruct wr as [w|]; [destruct s|]; cbn in *;
    inversion E; subst; clear E.
  all: close_wf.
Qed.

(** The same of an instance kept from any earlier render. *)
Lemma kept_postMessage_wf (status_seen : WorkerStatus) (message : jsval)
    (m m' : Machine) :
  wf m -> exec (postMessage status_seen message) m = Some m' -> wf m'.
Proof.
  intros [] E.
  destruct m as [d e s wr tr dp ds um sp ck sq ts cs].
  run_callback.
  destruct wr as [w|]; [destruct status_seen|]; cbn in *;
    inversion E; subst; clear E.
  all: close_wf.
Qed.

Lemma timeout_callback_wf (status_seen : WorkerStatus) (m m' : Machine) :
  wf m -> exec (timeout_callback status_seen) m = Some m' -> wf m'.
Proof.
  intros W E. unfold timeout_callback in E.
  destruct (negb (status_eqb status_seen Success) && negb (status_eqb status_seen Error)).
  - apply exec_bind in E. destruct E as (m1 & E1 & E2).
    pose proof (terminateWorker_wf _ _ W E1) as [].
    assert (N : workerRef m1 = None).
    { clear E2. destruct W. destruct m as [d e s wr tr dp ds um sp ck sq ts cs].
      run_callback. destruct wr as [w|]; cbn in *.
      - destruct tr as [id|]; cbn in *; split_eqb; cbn in *;
          inversion E1; reflexivity.
      - inversion E1; reflexivity. }
    destruct m1 as [d e s wr tr dp ds um sp ck sq ts cs].
    run_callback. subst wr. inversion E2; subst; clear E2.
    close_wf.
  - inversion E; subst. exact W.
Qed.

(** A timer leaving the table (it fired) leaves a well-formed state. *)
Lemma fire_wf (t : Timer) (m m' : Machine) :
  wf m -> exec (fire t) m = Some m' -> wf m'.
Proof.
  intros W E. unfold fire in E.
  unfold exec, bind, read in E. cbn in E.
  destruct (is_pending (timer_id t) m) eqn:P.
  - unfold update in E. cbn in E.
    eapply (timeout_callback_wf (status_seen_by_timer t)); [|exact E].
    destruct W. destruct m as [d e s wr tr dp ds um sp ck sq ts cs].
    constructor; unfold terminate_count in *; cbn in *; intros; auto; [].
    left. destruct wf_timers0 as [-> | (u & -> & Ht & Hz & Hw)].
    + reflexivity.
    + unfold is_pending in P. cbn in P. rewrite orb_false_r in P.
      unfold drop_timer. cbn. rewrite P. reflexivity.
  - cbn in E. inversion E; subst. exact W.
Qed.

Lemma fire_all_wf (queue : list Timer) (m m' : Machine) :
  wf m -> exec (fire_all queue) m = Some m' -> wf m'.
Proof.
  revert m. induction queue as [|t rest IH]; intros m W E.
  - inversion E; subst. exact W.
  - cbn [fire_all] in E. apply exec_bind in E. destruct E as (m1 & E1 & E2).
    eapply IH; [|exact E2]. eapply fire_wf; eauto.
Qed.

Lemma advance_wf (ms : Z) (m m' : Machine) :
  wf m -> exec (advance ms) m = Some m' -> wf m'.
Proof.
  intros W E. unfold advance in E.
  unfold bind at 1 2 in E. unfold read at 1 2 in E. cbn beta iota in E.
  apply exec_bind in E. destruct E as (m1 & E1 & E2).
  apply fire_all_wf in E1; [|exact W].
  unfold exec, update in E2. inversion E2; subst; clear E2.
  destruct E1. destruct m1 as [d e s wr tr dp ds um sp ck sq ts cs].
  constructor; unfold terminate_count in *; cbn in *; intros; auto.
Qed.

Ltac run_effect :=
  unfold exec, commit, effect, try_catch, call_factory, new_Worker, spawn,
    window_setTimeout, throw,
    setData, setError, setStatus, set_workerRef, set_timeoutRef,
    bind, ret, read, update in *;
  cbn in *.

(** The effect never lets a throw escape, and from a state without a handle
    it leads to a well-formed state whatever the constructor does. *)
Lemma effect_wf (status_seen : WorkerStatus) (src : WorkerSource)
    (tmo : option Z) (env : Construction) (m : Machine) :
  wf m -> workerRef m = None ->
  exists returned m1,
    effect status_seen src tmo env m = (Normal returned, m1) /\
    wf (with_effect (Some (src, tmo)) returned m1).
Proof.
  intros [] N.
  destruct m as [d e s wr tr dp ds um sp ck sq ts cs]. cbn in *. subst wr.
  destruct wf_timers0 as [-> | (t & _ & _ & _ & Hw)]; [|cbn in Hw; congruence].
  unfold effect.
  destruct (source_truthy src); cbn [negb].
  - replace (match src with
             | SrcFunction _ => call_factory src env
             | _ => new_Worker src env
             end) with (spawn src env) by (destruct src; reflexivity).
    run_effect.
    destruct env as [|failure]; cbn.
    + destruct tmo as [delay|]; cbn.
      * destruct (Z.eqb_spec delay 0); cbn;
          do 2 eexists; (split; [reflexivity|]); close_wf.
      * do 2 eexists; (split; [reflexivity|]); close_wf.
    + do 2 eexists; (split; [reflexivity|]); close_wf.
  - do 2 eexists; (split; [reflexivity|]); close_wf.
Qed.

(** [terminateWorker] always returns, leaving no handle in the ref. *)
Lemma terminateWorker_returns (m : Machine) :
  exists m1, terminateWorker m = (Normal tt, m1) /\ workerRef m1 = None.
Proof.
  destruct m as [d e s wr tr dp ds um sp ck sq ts cs].
  run_callback. destruct wr as [w|]; cbn.
  - destruct tr as [id|]; cbn; [destruct (Z.eqb id 0); cbn|];
      eexists; split; reflexivity.
  - eexists; split; reflexivity.
Qed.

Lemma commit_wf (src : WorkerSource) (tmo : option Z) (env : Construction)
    (m m' : Machine) :
  wf m -> exec (commit src tmo env) m = Some m' -> wf m'.
Proof.
  intros W E. unfold commit, exec in E.
  unfold bind at 1 in E. unfold read at 1 in E. cbn beta iota in E.
  destruct (deps_changed src tmo m); [|inversion E; subst; exact W].
  unfold bind at 1 2 in E. unfold read at 1 2 in E. cbn beta iota in E.
  assert (C : exists m1, (if destructor m then terminateWorker else ret tt) m
                         = (Normal tt, m1) /\ wf m1 /\ workerRef m1 = None).
  { destruct (destructor m) eqn:D.
    - destruct (terminateWorker_returns m) as (m1 & T & N).
      exists m1. split; [exact T|]. split; [|exact N].
      apply (terminateWorker_wf m); [exact W|]. unfold exec. rewrite T. reflexivity.
    - exists m. split; [reflexivity|]. split; [exact W|].
      apply (wf_destructor _ W D). }
  destruct C as (m1 & C & W1 & N1).
  unfold bind at 1 in E. rewrite C in E.
  destruct (effect_wf (status m) src tmo env m1 W1 N1) as (returned & m2 & F & W2).
  unfold bind at 1 in E. rewrite F in E.
  unfold update in E. inversion E; subst. exact W2.
Qed.

(** The events of a mounted component only. *)
Ltac mounted_only E :=
  match type of E with
  | context [if unmounted ?m then None else _] =>
      destruct (unmounted m); [discriminate E|]
  | _ => idtac
  end.

Lemma step_wf (e : Event) (m m' : Machine) :
  wf m -> step e m = Some m' -> wf m'.
Proof.
  intros W E. unfold step in E.
  destruct e as [src tmo env|message| |w event_data|w message|ms| |status_seen kept|w err];
    mounted_only E.
  - eapply commit_wf; eauto.
  - destruct (deps m); [|discriminate].
    exact (postMessage_wf message m m' W E).
  - destruct (deps m); [|discriminate].
    exact (terminateWorker_wf m m' W E).
  - destruct (installed w m); [|discriminate]. eapply onmessage_wf; eauto.
  - destruct (installed w m); [|discriminate]. eapply onerror_wf; eauto.
  - destruct (Z.leb 0 ms); [|discriminate]. eapply advance_wf; eauto.
  - destruct (deps m); [|discriminate].
    apply exec_bind in E. destruct E as (m1 & E1 & E2).
    assert (W1 : wf m1).
    { destruct (destructor m).
      - eapply terminateWorker_wf; eauto.
      - inversion E1; subst. exact W. }
    unfold exec, update in E2. inversion E2; subst; clear E2.
    destruct W1. destruct m1 as [d e s wr tr dp ds um sp ck sq ts cs].
    constructor; unfold terminate_count in *; cbn in *; intros; auto.
  - destruct (deps m); [|discriminate].
    exact (kept_postMessage_wf status_seen kept m m' W E).
  - destruct (installed w m && negb (has_message err)); [|discriminate].
    eapply onerror_wf; eauto.
Qed.

Lemma run_wf (es : list Event) (m m' : Machine) :
  wf m -> run es m = Some m' -> wf m'.
Proof.
  revert m. induction es as [|e rest IH]; intros m W E; cbn in E.
  - inversion E; subst. exact W.
  - destruct (step e m) as [m1|] eqn:S1; [|discriminate].
    eapply IH; [|exact E]. eapply step_wf; eauto.
Qed.

Lemma reachable_wf (m : Machine) : reachable m -> wf m.
Proof. intros [es E]. exact (run_wf es boot m wf_boot E). Qed.

(** * What each callback computes *)

Lemma terminateWorker_live (m : Machine) (worker : nat) :
  workerRef m = Some worker ->
  terminateWorker m =
  (Normal tt,
   {| data := VNull; error := VNull; status := Terminated;
      workerRef := None; timeoutRef := clear_ref (timeoutRef m);
      deps := deps m; destructor := destructor m; unmounted := unmounted m;
      spawned := spawned m; clock := clock m; timer_seq := timer_seq m;
      timers := clear_timers (timeoutRef m) (timers m);
      calls := (calls m ++ [CallTerminate worker]) ++ clear_calls (timeoutRef m) |}).
Proof.
  destruct m as [d e s wr tr dp ds um sp ck sq ts cs]. cbn. intros ->.
  run_callback. unfold clear_ref, clear_timers, clear_calls.
  destruct tr as [id|]; cbn; [destruct (Z.eqb id 0); cbn|];
    rewrite ?app_nil_r; reflexivity.
Qed.

Lemma terminateWorker_idle (m : Machine) :
  workerRef m = None -> terminateWorker m = (Normal tt, m).
Proof.
  destruct m as [d e s wr tr dp ds um sp ck sq ts cs]. cbn. intros ->.
  reflexivity.
Qed.

Lemma onmessage_result (event_data : jsval) (m : Machine) :
  onmessage event_data m =
  (Normal tt,
   {| data := event_data; error := VNull; status := Success;
      workerRef := workerRef m; timeoutRef := clear_ref (timeoutRef m);
      deps := deps m; destructor := destructor m; unmounted := unmounted m;
      spawned := spawned m; clock := clock m; timer_seq := timer_seq m;
      timers := clear_timers (timeoutRef m) (timers m);
      calls := calls m ++ clear_calls (timeoutRef m) |}).
Proof.
  destruct m as [d e s wr tr dp ds um sp ck sq ts cs].
  run_callback. unfold clear_ref, clear_timers, clear_calls.
  destruct tr as [id|]; cbn; [destruct (Z.eqb id 0); cbn|];
    rewrite ?app_nil_r; reflexivity.
Qed.

Lemma onerror_result (err : jsval) (m : Machine) :
  onerror err m =
  (Normal tt,
   {| data := VNull; error := err; status := Error;
      workerRef := workerRef m; timeoutRef := clear_ref (timeoutRef m);
      deps := deps m; destructor := destructor m; unmounted := unmounted m;
      spawned := spawned m; clock := clock m; timer_seq := timer_seq m;
      timers := clear_timers (timeoutRef m) (timers m);
      calls := calls m ++ clear_calls (timeoutRef m) |}).
Proof.
  destruct m as [d e s wr tr dp ds um sp ck sq ts cs].
  run_callback. unfold clear_ref, clear_timers, clear_calls.
  destruct tr as [id|]; cbn; [destruct (Z.eqb id 0); cbn|];
    rewrite ?app_nil_r; reflexivity.
Qed.

(** In a well-formed state the block leaves no timer pending. *)
Lemma clear_timers_wf (m : Machine) :
  wf m -> clear_timers (timeoutRef m) (timers m) = [].
Proof.
  intros W. destruct (wf_timers m W) as [E | (t & E & R & Z0 & _)];
    rewrite E.
  - unfold clear_timers. destruct (timeoutRef m) as [id|]; [|reflexivity].
    destruct (Z.eqb id 0); reflexivity.
  - rewrite R. unfold clear_timers, drop_timer. cbn.
    destruct (Z.eqb_spec (timer_id t) 0); [contradiction|].
    rewrite Z.eqb_refl. reflexivity.
Qed.

Lemma clear_ref_wf (m : Machine) : wf m -> clear_ref (timeoutRef m) = None.
Proof.
  intros W. unfold clear_ref, number_truthy.
  destruct (timeoutRef m) as [id|] eqn:R; [|reflexivity].
  pose proof (wf_timeoutRef m W id R).
  destruct (Z.eqb_spec id 0); [lia | reflexivity].
Qed.

Lemma count_terminate_clear_calls (w : nat) (t : option Z) :
  count_terminate w (clear_calls t) = 0.
Proof.
  destruct t as [id|]; cbn; [destruct (Z.eqb id 0)|]; reflexivity.
Qed.

(** * Sample states of the component *)

(** Each is reached from [boot] by the events shown. *)

Example running_plain_reached :
  run [Render (SrcString "/example.worker.js") None Constructs] boot
  = Some running_plain.
Proof. reflexivity. Qed.

Example running_timed_reached :
  run [Render (SrcString "/example.worker.js") (Some 100%Z) Constructs;
       AdvanceTimers 50] boot
  = Some running_timed.
Proof. reflexivity. Qed.

Example stale_postMessage_state_reached :
  run [Render (SrcString "/a.js") None Constructs;
       CallTerminateWorker;
       Render (SrcString "/b.js") None Constructs;
       WorkerMessage 1 (VObject [("result", SNum 84)])] boot
  = Some stale_postMessage_state.
Proof. reflexivity. Qed.

Example rearmed_after_result_reached :
  run [Render (SrcString "/a.js") (Some 100%Z) Constructs;
       AdvanceTimers 50;
       WorkerMessage 0 (VObject [("result", SNum 84)]);
       Render (SrcString "/b.js") (Some 100%Z) Constructs] boot
  = Some rearmed_after_result.
Proof. reflexivity. Qed.

Example timed_out_reached :
  run [Render (SrcString "/example.worker.js") (Some 100%Z) Constructs;
       AdvanceTimers 150] boot
  = Some timed_out.
Proof. reflexivity. Qed.

(** * The commands *)

(** C2.  [postMessage] with no handle in the ref, or created by a render
    whose status was Terminated, makes exactly one host call, the warning
    with the diagnostic notice (so nothing is forwarded to any handle),
    stores the misuse error and sets the status to Error.  With a handle
    and a status other than Terminated it makes exactly one host call,
    [postMessage] of the unchanged payload on that handle, and leaves
    everything else as it was: [data], [error] and [status], both refs and
    the timers. *)
Theorem postMessage_guard (status_seen : WorkerStatus) (message : jsval)
    (m : Machine) :
  (workerRef m = None \/ status_seen = Terminated ->
   exists m',
     exec (postMessage status_seen message) m = Some m' /\
     calls m' = calls m ++ [CallWarn notice] /\
     (forall w payload,
        In (CallPost w payload) (calls m') -> In (CallPost w payload) (calls m)) /\
     error m' = VError notice /\
     status m' = Error) /\
  (forall worker,
     workerRef m = Some worker -> status_seen <> Terminated ->
     exists m',
       exec (postMessage status_seen message) m = Some m' /\
       calls m' = calls m ++ [CallPost worker message] /\
       data m' = data m /\ error m' = error m /\ status m' = status m /\
       workerRef m' = workerRef m /\ timeoutRef m' = timeoutRef m /\
       timers m' = timers m /\ spawned m' = spawned m).
Proof.
  destruct m as [d e s wr tr dp ds um sp ck sq ts cs]. cbn. split.
  - intros G. run_callback.
    destruct wr as [worker|]; cbn.
    + destruct G as [G | ->]; [discriminate|]. cbn.
      eexists. repeat split. cbn. intros w payload F.
      apply in_app_or in F. destruct F as [F | [F|[]]]; [exact F | discriminate F].
    + eexists. repeat split. cbn. intros w payload F.
      apply in_app_or in F. destruct F as [F | [F|[]]]; [exact F | discriminate F].
  - intros worker -> G. run_callback.
    destruct status_seen; cbn; try congruence; eexists; repeat split.
Qed.

Example postMessage_guard_witness :
  (exists m',
     exec (postMessage Idle (VNum 7)) boot = Some m' /\
     calls m' = [CallWarn notice] /\
     error m' = VError notice /\
     status m' = Error) /\
  (exists m',
     exec (postMessage Running (VNum 7)) running_plain = Some m' /\
     calls m' = [CallSpawn 0 (SrcString "/example.worker.js");
                 CallPost 0 (VNum 7)] /\
     data m' = VNull /\ error m' = VNull /\ status m' = Running).
Proof.
  split.
  - destruct (proj1 (postMessage_guard Idle (VNum 7) boot))
      as (m' & E & C & _ & Er & S); [left; reflexivity|].
    exists m'. repeat split; assumption.
  - destruct (proj2 (postMessage_guard Running (VNum 7) running_plain) 0)
      as (m' & E & C & D & Er & S & _); [reflexivity | discriminate|].
    exists m'. repeat split; assumption.
Defined.

(** C9.  On the failing branch of [postMessage] the only state cells
    written are [error] and [status] (and the console receives the warning):
    [data] keeps its value, it is not reset to null, and both refs and the
    timer table are untouched. *)
Theorem postMessage_failure_frame (status_seen : WorkerStatus)
    (message : jsval) (m : Machine) :
  workerRef m = None \/ status_seen = Terminated ->
  exists m',
    exec (postMessage status_seen message) m = Some m' /\
    data m' = data m /\
    workerRef m' = workerRef m /\
    timeoutRef m' = timeoutRef m /\
    timers m' = timers m /\
    m' = with_status Error (with_error (VError notice)
           (log_call (CallWarn notice) m)).
Proof.
  destruct m as [d e s wr tr dp ds um sp ck sq ts cs]. cbn.
  intros G. run_callback.
  destruct wr as [worker|]; cbn.
  - destruct G as [G | ->]; [discriminate|]. cbn.
    eexists. repeat split.
  - eexists. repeat split.
Qed.

Example postMessage_failure_frame_witness :
  exists m',
    exec (postMessage Terminated (VNum 1)) stale_postMessage_state = Some m' /\
    data m' = VObject [("result", SNum 84)] /\
    status m' = Error.
Proof.
  destruct (postMessage_failure_frame Terminated (VNum 1) stale_postMessage_state)
    as (m' & E & D & _ & _ & _ & S).
  - right. reflexivity.
  - exists m'. split; [exact E|]. split; [exact D|]. rewrite S. reflexivity.
Defined.

(** C3.  In any state the component can reach, [terminateWorker] with a
    handle in the ref calls [terminate()] on that handle, which had not been
    terminated before and now has been exactly once; the ref becomes null,
    every pending timer is cleared ([clearTimeout] on its identifier) and
    [timeoutRef] reset, the status is Terminated and [data] and [error] are
    null.  With no handle in the ref it changes nothing, so calling it again
    is harmless. *)
Theorem terminateWorker_spec (m : Machine) :
  reachable m ->
  (forall worker,
     workerRef m = Some worker ->
     exists m',
       exec terminateWorker m = Some m' /\
       terminate_count worker m = 0 /\
       terminate_count worker m' = 1 /\
       calls m' = (calls m ++ [CallTerminate worker]) ++ clear_calls (timeoutRef m) /\
       (forall t, In t (timers m) -> In (CallClearTimeout (timer_id t)) (calls m')) /\
       workerRef m' = None /\
       timeoutRef m' = None /\
       timers m' = [] /\
       status m' = Terminated /\
       data m' = VNull /\
       error m' = VNull) /\
  (workerRef m = None -> exec terminateWorker m = Some m).
Proof.
  intros R. pose proof (reachable_wf m R) as W. split.
  - intros worker Hw. unfold exec. rewrite (terminateWorker_live m worker Hw).
    eexists. split; [reflexivity|]. cbn.
    destruct (wf_ref_live m W worker Hw) as [_ Z0].
    split; [exact Z0|].
    split.
    { unfold terminate_count in *. cbn.
      rewrite count_terminate_app, count_terminate_snoc, count_terminate_clear_calls.
      cbn. rewrite Nat.eqb_refl. lia. }
    split; [reflexivity|].
    split.
    { intros t Ht. apply in_or_app. right.
      destruct (wf_timers m W) as [E | (u & E & Ru & Z1 & _)];
        rewrite E in Ht; cbn in Ht; [contradiction|].
      destruct Ht as [<- | []]. rewrite Ru. cbn.
      destruct (Z.eqb_spec (timer_id u) 0); [contradiction|]. left. reflexivity. }
    split; [reflexivity|].
    split; [apply clear_ref_wf; exact W|].
    split; [apply clear_timers_wf; exact W|].
    repeat split.
  - intros Hn. unfold exec. rewrite (terminateWorker_idle m Hn). reflexivity.
Qed.

Example terminateWorker_spec_witness :
  (exists m',
     exec terminateWorker running_timed = Some m' /\
     terminate_count 0 m' = 1 /\
     timers m' = [] /\ workerRef m' = None /\ status m' = Terminated) /\
  exec terminateWorker boot = Some boot.
Proof.
  split.
  - assert (R : reachable running_timed)
      by (eexists; exact running_timed_reached).
    destruct (proj1 (terminateWorker_spec running_timed R) 0 eq_refl)
      as (m' & E & _ & K & _ & _ & N & _ & T & S & _).
    exists m'. repeat split; assumption.
  - apply (proj2 (terminateWorker_spec boot (ex_intro _ [] eq_refl))).
    reflexivity.
Defined.

(** * The relays and the timeout *)

(** With no timer pending, time passing only moves the clock. *)
Lemma advance_no_timer (ms : Z) (m : Machine) :
  timers m = [] ->
  advance ms m =
  (Normal tt, with_host (spawned m) (clock m + ms) (timer_seq m) [] (calls m) m).
Proof.
  destruct m as [d e s wr tr dp ds um sp ck sq ts cs]. cbn. intros ->.
  reflexivity.
Qed.

Lemma quiet_time (durations : list Z) (m : Machine) :
  unmounted m = false -> timers m = [] ->
  Forall (fun ms => 0 <= ms)%Z durations ->
  exists m',
    run (map AdvanceTimers durations) m = Some m' /\
    data m' = data m /\ error m' = error m /\ status m' = status m /\
    workerRef m' = workerRef m /\ calls m' = calls m /\ timers m' = [].
Proof.
  revert m. induction durations as [|ms rest IH]; intros m U T F.
  - exists m. repeat split; auto.
  - inversion F as [|? ? Hms Hrest]; subst. cbn [map run].
    unfold step. rewrite ?U.
    destruct (Z.leb_spec 0 ms); [|lia].
    unfold exec. rewrite (advance_no_timer ms m T).
    destruct (IH (with_host (spawned m) (clock m + ms) (timer_seq m) [] (calls m) m))
      as (m' & E & D & Er & S & Wr & C & T'); auto.
    exists m'. split; [exact E|].
    destruct m; cbn in *. repeat split; auto.
Qed.

(** C10.  A message whose payload is null, dispatched on a worker of the
    hook, sets the status to Success and [error] to null while [data] is
    null: at the interface Success does not mean that [data] is non-null. *)
Theorem null_payload_success (w : nat) (m : Machine) :
  unmounted m = false -> installed w m = true ->
  exists m',
    step (WorkerMessage w VNull) m = Some m' /\
    status m' = Success /\ error m' = VNull /\ data m' = VNull.
Proof.
  intros U L. unfold step. rewrite ?U, L. unfold exec.
  rewrite onmessage_result. eexists. repeat split.
Qed.

Example null_payload_success_witness :
  exists m',
    step (WorkerMessage 0 VNull) running_plain = Some m' /\
    status m' = Success /\ error m' = VNull /\ data m' = VNull.
Proof.
  apply (null_payload_success 0 running_plain); reflexivity.
Defined.

(** C5.  In any reachable state, a message dispatched on a worker of the
    hook stores the payload in [data], sets the status to Success and [error] to
    null, and clears the pending timer, so none is left.  However much time
    passes afterwards, in however many steps, the status stays Success with
    the same [data], and the host receives no further call: the timeout
    does not fire and [terminate()] is not invoked. *)
Theorem message_cancels_timeout (w : nat) (event_data : jsval) (m : Machine) :
  reachable m -> unmounted m = false -> installed w m = true ->
  exists m1,
    step (WorkerMessage w event_data) m = Some m1 /\
    data m1 = event_data /\ status m1 = Success /\ error m1 = VNull /\
    timers m1 = [] /\ timeoutRef m1 = None /\
    (forall t, In t (timers m) -> In (CallClearTimeout (timer_id t)) (calls m1)) /\
    (forall durations,
       Forall (fun ms => 0 <= ms)%Z durations ->
       exists m2,
         run (map AdvanceTimers durations) m1 = Some m2 /\
         status m2 = Success /\ data m2 = event_data /\ error m2 = VNull /\
         calls m2 = calls m1 /\
         (forall h, terminate_count h m2 = terminate_count h m1)).
Proof.
  intros R U L. pose proof (reachable_wf m R) as W.
  unfold step. rewrite ?U, L. unfold exec. rewrite onmessage_result.
  eexists. split; [reflexivity|]. cbn.
  split; [reflexivity|]. split; [reflexivity|]. split; [reflexivity|].
  split; [apply clear_timers_wf; exact W|].
  split; [apply clear_ref_wf; exact W|].
  split.
  { intros t Ht. apply in_or_app. right.
    destruct (wf_timers m W) as [E | (u & E & Ru & Z1 & _)];
      rewrite E in Ht; cbn in Ht; [contradiction|].
    destruct Ht as [<- | []]. rewrite Ru. cbn.
    destruct (Z.eqb_spec (timer_id u) 0); [contradiction|]. left. reflexivity. }
  intros durations F.
  match goal with |- context [run _ ?m1] =>
    destruct (quiet_time durations m1) as (m2 & E & D & Er & S & _ & C & _)
  end; auto.
  { cbn. apply clear_timers_wf; exact W. }
  exists m2. split; [exact E|]. cbn in *.
  repeat split; auto.
  intros h. unfold terminate_count. rewrite C. reflexivity.
Qed.

Example message_cancels_timeout_witness :
  exists m1 m2,
    step (WorkerMessage 0 (VObject [("message", SStr "done")])) running_timed
      = Some m1 /\
    status m1 = Success /\ timers m1 = [] /\
    run [AdvanceTimers 150] m1 = Some m2 /\
    status m2 = Success /\ terminate_count 0 m2 = 0.
Proof.
  destruct (message_cancels_timeout 0 (VObject [("message", SStr "done")])
              running_timed)
    as (m1 & E1 & _ & S1 & _ & T1 & _ & _ & Later).
  - eexists. exact running_timed_reached.
  - reflexivity.
  - reflexivity.
  - destruct (Later [150%Z]) as (m2 & E2 & S2 & _ & _ & _ & K).
    + repeat constructor. lia.
    + exists m1, m2. repeat split; auto.
      rewrite K. vm_compute in E1. inversion E1; subst. reflexivity.
Defined.

(** * Initialization *)

Lemma teardown_result (m : Machine) :
  wf m ->
  (if destructor m then terminateWorker else ret tt) m = (Normal tt, torn_down m).
Proof.
  intros W. unfold torn_down.
  destruct (workerRef m) as [worker|] eqn:Hw.
  - assert (D : destructor m = true).
    { destruct (destructor m) eqn:D; [reflexivity|].
      rewrite (wf_destructor m W D) in Hw. discriminate. }
    replace (if destructor m then terminateWorker else ret tt)
      with terminateWorker by (rewrite D; reflexivity).
    apply terminateWorker_live. exact Hw.
  - destruct (destructor m); [apply terminateWorker_idle; exact Hw | reflexivity].
Qed.

Lemma torn_down_wf (m : Machine) : wf m -> wf (torn_down m).
Proof.
  intros W. apply (terminateWorker_wf m); [exact W|].
  unfold exec, torn_down. destruct (workerRef m) as [worker|] eqn:Hw.
  - rewrite (terminateWorker_live m worker Hw). reflexivity.
  - rewrite (terminateWorker_idle m Hw). reflexivity.
Qed.

Lemma torn_down_no_handle (m : Machine) : workerRef (torn_down m) = None.
Proof.
  unfold torn_down. destruct (workerRef m) eqn:Hw; [reflexivity | exact Hw].
Qed.

Lemma torn_down_no_timer (m : Machine) : wf m -> timers (torn_down m) = [].
Proof.
  intros W. pose proof (torn_down_wf m W) as W'.
  destruct (wf_timers _ W') as [E | (t & _ & _ & _ & N)]; [exact E|].
  rewrite torn_down_no_handle in N. contradiction.
Qed.

Lemma commit_result (src : WorkerSource) (tmo : option Z) (env : Construction)
    (m : Machine) (returned : bool) (m2 : Machine) :
  wf m -> deps_changed src tmo m = true ->
  effect (status m) src tmo env (torn_down m) = (Normal returned, m2) ->
  exec (commit src tmo env) m = Some (with_effect (Some (src, tmo)) returned m2).
Proof.
  intros W C F. unfold commit, exec.
  unfold bind at 1. unfold read at 1. cbn beta iota. rewrite C.
  unfold bind at 1 2. unfold read at 1 2. cbn beta iota.
  unfold bind at 1. rewrite (teardown_result m W).
  unfold bind at 1. rewrite F. reflexivity.
Qed.

Lemma effect_empty (status_seen : WorkerStatus) (src : WorkerSource)
    (tmo : option Z) (env : Construction) (m : Machine) :
  source_truthy src = false ->
  effect status_seen src tmo env m = (Normal false, m).
Proof. intros F. unfold effect. rewrite F. reflexivity. Qed.

Lemma effect_throws (status_seen : WorkerStatus) (src : WorkerSource)
    (tmo : option Z) (failure : jsval) (m : Machine) :
  source_truthy src = true ->
  effect status_seen src tmo (Throws failure) m =
  (Normal true, with_status Error (with_error failure m)).
Proof. intros T. unfold effect. rewrite T. destruct src; reflexivity. Qed.

Lemma effect_constructs (status_seen : WorkerStatus) (src : WorkerSource)
    (tmo : option Z) (m : Machine) :
  source_truthy src = true ->
  exists m',
    effect status_seen src tmo Constructs m = (Normal true, m') /\
    data m' = data m /\ error m' = error m /\ status m' = Running /\
    workerRef m' = Some (spawned m) /\ spawned m' = S (spawned m) /\
    timers m' = timers m ++ scheduled status_seen tmo m /\
    (timeoutRef m' = if number_truthy tmo then Some (timer_seq m) else timeoutRef m) /\
    calls m' = (calls m ++ [CallSpawn (spawned m) src]) ++
               (match tmo with
                | Some delay =>
                    if Z.eqb delay 0 then []
                    else [CallSetTimeout (timer_seq m) delay]
                | None => []
                end) /\
    unmounted m' = unmounted m.
Proof.
  intros T. unfold effect. rewrite T.
  replace (match src with
           | SrcFunction _ => call_factory src Constructs
           | _ => new_Worker src Constructs
           end) with (spawn src Constructs) by (destruct src; reflexivity).
  destruct m as [d e s wr tr dp ds um sp ck sq ts cs].
  run_effect. unfold scheduled. cbn.
  destruct tmo as [delay|]; cbn; [destruct (Z.eqb delay 0); cbn|];
    eexists; rewrite ?app_nil_r; repeat split.
Qed.

Lemma no_handle_no_live (m : Machine) :
  wf m -> workerRef m = None -> forall w, live w m = false.
Proof.
  intros W N w. destruct (live w m) eqn:L; [|reflexivity].
  apply live_spec in L. destruct L as [Lt Z0].
  rewrite (wf_live_ref m W w Lt Z0) in N. discriminate.
Qed.

Lemma torn_down_timer_seq (m : Machine) : timer_seq (torn_down m) = timer_seq m.
Proof. unfold torn_down. destruct (workerRef m); reflexivity. Qed.

Lemma torn_down_spawned (m : Machine) : spawned (torn_down m) = spawned m.
Proof. unfold torn_down. destruct (workerRef m); reflexivity. Qed.

Lemma torn_down_unmounted (m : Machine) : unmounted (torn_down m) = unmounted m.
Proof. unfold torn_down. destruct (workerRef m); reflexivity. Qed.

Lemma torn_down_status (m : Machine) :
  status (torn_down m) =
  match workerRef m with Some _ => Terminated | None => status m end.
Proof. unfold torn_down. destruct (workerRef m); reflexivity. Qed.

Lemma torn_down_set_timeouts (m : Machine) (id delay : Z) :
  In (CallSetTimeout id delay) (calls (torn_down m)) ->
  In (CallSetTimeout id delay) (calls m).
Proof.
  unfold torn_down. destruct (workerRef m) as [worker|]; [|auto]. cbn.
  intros H. apply in_app_or in H. destruct H as [H|H].
  - apply in_app_or in H. destruct H as [H|[H|[]]]; [exact H | discriminate].
  - unfold clear_calls in H. destruct (timeoutRef m) as [t|]; [|destruct H].
    destruct (Z.eqb t 0); [destruct H|]. destruct H as [H|[]]. discriminate.
Qed.

(** C6.  When the constructor (or the factory) throws during an
    initialization, the thrown value becomes [error] and the status Error;
    [window.setTimeout] is not called (no timer identifier is consumed, the
    log gains no such call, no timer is pending), no handle is created, the
    ref is null and no handle is live. *)
Theorem construction_failure_captured (src : WorkerSource) (tmo : option Z)
    (failure : jsval) (m : Machine) :
  reachable m -> unmounted m = false ->
  source_truthy src = true -> deps_changed src tmo m = true ->
  exists m',
    step (Render src tmo (Throws failure)) m = Some m' /\
    error m' = failure /\ status m' = Error /\
    timers m' = [] /\ timer_seq m' = timer_seq m /\
    (forall id delay, In (CallSetTimeout id delay) (calls m') ->
                      In (CallSetTimeout id delay) (calls m)) /\
    spawned m' = spawned m /\ workerRef m' = None /\
    (forall w, live w m' = false).
Proof.
  intros R U T C. pose proof (reachable_wf m R) as W.
  pose proof (commit_result src tmo (Throws failure) m true _ W C
                (effect_throws (status m) src tmo failure (torn_down m) T)) as E.
  eexists. unfold step. rewrite ?U. split; [exact E|].
  assert (W' : wf (with_effect (Some (src, tmo)) true
                     (with_status Error (with_error failure (torn_down m))))).
  { apply (step_wf (Render src tmo (Throws failure)) m); [exact W|].
    unfold step. rewrite ?U. exact E. }
  assert (N : workerRef (with_effect (Some (src, tmo)) true
                (with_status Error (with_error failure (torn_down m)))) = None).
  { cbn. apply torn_down_no_handle. }
  split; [reflexivity|]. split; [reflexivity|].
  split; [cbn; apply torn_down_no_timer; exact W|].
  split; [cbn; apply torn_down_timer_seq|].
  split; [cbn; apply torn_down_set_timeouts|].
  split; [cbn; apply torn_down_spawned|].
  split; [exact N|].
  apply no_handle_no_live; assumption.
Qed.

Example construction_failure_captured_witness :
  exists m',
    step (Render (SrcString "/example.worker.js") (Some 100%Z)
            (Throws (VError "Failed to create worker"))) boot = Some m' /\
    error m' = VError "Failed to create worker" /\
    status m' = Error /\ timers m' = [] /\ workerRef m' = None.
Proof.
  destruct (construction_failure_captured (SrcString "/example.worker.js")
              (Some 100%Z) (VError "Failed to create worker") boot)
    as (m' & E & Er & S & T & _ & _ & _ & N & _).
  - exists []. reflexivity.
  - reflexivity.
  - reflexivity.
  - reflexivity.
  - exists m'. repeat split; assumption.
Defined.

(** C7 as the code has it.  An initialization with an empty or absent
    source creates no handle: the host's constructor is not called, the ref
    is null afterwards, no handle is live and no timer is pending.  The
    effect itself writes no state and makes no host call, whatever state it
    runs in.  What the commit changes is what the destructor of the
    previous cycle changes: when that cycle still had its handle, the
    handle is terminated and the status is Terminated with [data] and
    [error] null; otherwise the status, [data] and [error] keep their
    values and the host receives no call.  In particular a status of Idle
    stays Idle, with [data] and [error] null. *)
Theorem empty_source_creates_nothing (src : WorkerSource) (tmo : option Z)
    (env : Construction) (m : Machine) :
  reachable m -> unmounted m = false ->
  source_truthy src = false -> deps_changed src tmo m = true ->
  (forall status_seen m0,
     effect status_seen src tmo env m0 = (Normal false, m0)) /\
  exists m',
    step (Render src tmo env) m = Some m' /\
    spawned m' = spawned m /\ workerRef m' = None /\
    (forall w, live w m' = false) /\
    status m' = match workerRef m with
                | Some _ => Terminated
                | None => status m
                end /\
    (status m = Idle -> status m' = Idle) /\
    data m' = match workerRef m with
              | Some _ => VNull
              | None => data m
              end /\
    error m' = match workerRef m with
               | Some _ => VNull
               | None => error m
               end /\
    calls m' = match workerRef m with
               | Some w => (calls m ++ [CallTerminate w]) ++ clear_calls (timeoutRef m)
               | None => calls m
               end /\
    timers m' = [] /\ destructor m' = false.
Proof.
  intros R U F C. pose proof (reachable_wf m R) as W.
  split; [intros status_seen m0; apply effect_empty; exact F|].
  pose proof (commit_result src tmo env m false _ W C
                (effect_empty (status m) src tmo env (torn_down m) F)) as E.
  eexists. unfold step. rewrite U. split; [exact E|].
  assert (W' : wf (with_effect (Some (src, tmo)) false (torn_down m))).
  { apply (step_wf (Render src tmo env) m); [exact W|].
    unfold step. rewrite U. exact E. }
  assert (N : workerRef (with_effect (Some (src, tmo)) false (torn_down m)) = None).
  { cbn. apply torn_down_no_handle. }
  split; [cbn; apply torn_down_spawned|].
  split; [exact N|].
  split; [apply no_handle_no_live; assumption|].
  split; [cbn; apply torn_down_status|].
  split.
  { intros I. cbn. rewrite torn_down_status.
    destruct (wf_idle m W I) as (_ & _ & Hn). rewrite Hn. exact I. }
  split; [cbn; unfold torn_down; destruct (workerRef m); reflexivity|].
  split; [cbn; unfold torn_down; destruct (workerRef m); reflexivity|].
  split; [cbn; unfold torn_down; destruct (workerRef m); reflexivity|].
  split; [cbn; apply torn_down_no_timer; exact W | reflexivity].
Qed.

Example empty_source_creates_nothing_witness :
  (exists m',
     step (Render (SrcString "") None Constructs) boot = Some m' /\
     spawned m' = 0 /\ workerRef m' = None /\ status m' = Idle /\
     data m' = VNull /\ error m' = VNull /\ calls m' = []) /\
  (exists m',
     step (Render (SrcString "") None Constructs) running_timed = Some m' /\
     spawned m' = 1 /\ workerRef m' = None /\ status m' = Terminated /\
     data m' = VNull /\ error m' = VNull /\
     calls m' = [CallSpawn 0 (SrcString "/example.worker.js");
                 CallSetTimeout 1 100; CallTerminate 0; CallClearTimeout 1]) /\
  (exists m',
     step (Render SrcAbsent (Some 100%Z) Constructs) timed_out = Some m' /\
     spawned m' = 1 /\ workerRef m' = None /\ status m' = Error /\
     data m' = VNull /\ error m' = VError "Worker timed out" /\
     calls m' = calls timed_out).
Proof.
  split; [|split].
  - destruct (empty_source_creates_nothing (SrcString "") None Constructs boot)
      as (_ & m' & E & Sp & N & _ & St & _ & D & Er & C & _).
    + exists []. reflexivity.
    + reflexivity.
    + reflexivity.
    + reflexivity.
    + exists m'. repeat split; assumption.
  - destruct (empty_source_creates_nothing (SrcString "") None Constructs
                running_timed)
      as (_ & m' & E & Sp & N & _ & St & _ & D & Er & C & _).
    + eexists. exact running_timed_reached.
    + reflexivity.
    + reflexivity.
    + reflexivity.
    + exists m'. repeat split; assumption.
  - destruct (empty_source_creates_nothing SrcAbsent (Some 100%Z) Constructs
                timed_out)
      as (_ & m' & E & Sp & N & _ & St & _ & D & Er & C & _).
    + eexists. exact timed_out_reached.
    + reflexivity.
    + reflexivity.
    + reflexivity.
    + exists m'. repeat split; assumption.
Defined.

(** C7 as the spec states it fails on a re-initialization: the source
    changes from a URL to the empty string while Running, and the status
    ends Terminated, not Idle. *)
Lemma empty_source_after_running :
  exists m,
    run [Render (SrcString "/example.worker.js") None Constructs;
         Render (SrcString "") None Constructs] boot = Some m /\
    status m = Terminated /\ status m <> Idle /\ spawned m = 1.
Proof.
  eexists. split; [lazy; reflexivity|]. lazy. repeat split; discriminate.
Qed.

(** C8.  In every reachable state at most one handle is live and at most
    one timer is pending.  When the dependencies change while the status is
    Running and the new constructor succeeds, the previous handle, never
    terminated before, has [terminate()] called on it exactly once; this
    call (and the clearing of its timer) precedes the construction of the
    new handle in the host's call log; the new handle is a different one, it
    is the live handle in the ref, and the status is Running with [data] and
    [error] null. *)
Theorem single_handle (m : Machine) :
  reachable m ->
  (forall w1 w2, live w1 m = true -> live w2 m = true -> w1 = w2) /\
  (List.length (timers m) <= 1)%nat /\
  (forall w src tmo,
     unmounted m = false -> status m = Running -> workerRef m = Some w ->
     source_truthy src = true -> deps_changed src tmo m = true ->
     exists m' later,
       step (Render src tmo Constructs) m = Some m' /\
       terminate_count w m = 0 /\ terminate_count w m' = 1 /\
       calls m' = calls m ++ [CallTerminate w] ++ clear_calls (timeoutRef m)
                    ++ [CallSpawn (spawned m) src] ++ later /\
       live w m' = false /\
       workerRef m' = Some (spawned m) /\ spawned m <> w /\
       live (spawned m) m' = true /\
       status m' = Running /\ data m' = VNull /\ error m' = VNull /\
       timers m' = scheduled (status m) tmo m).
Proof.
  intros R. pose proof (reachable_wf m R) as W. split; [|split].
  - intros w1 w2 L1 L2. apply live_spec in L1, L2.
    destruct L1 as [A1 B1], L2 as [A2 B2].
    pose proof (wf_live_ref m W w1 A1 B1) as E1.
    pose proof (wf_live_ref m W w2 A2 B2) as E2.
    congruence.
  - destruct (wf_timers m W) as [E | (t & E & _)]; rewrite E; cbn; lia.
  - intros w src tmo U S Hw T C.
    destruct (effect_constructs (status m) src tmo (torn_down m) T)
      as (m2 & F & D2 & E2 & S2 & W2 & Sp2 & T2 & _ & C2 & _).
    pose proof (commit_result src tmo Constructs m true m2 W C F) as E.
    assert (W' : wf (with_effect (Some (src, tmo)) true m2)).
    { apply (step_wf (Render src tmo Constructs) m); [exact W|].
      unfold step. rewrite ?U. exact E. }
    destruct (wf_ref_live m W w Hw) as [Lt Z0].
    assert (TD : torn_down m =
      {| data := VNull; error := VNull; status := Terminated;
         workerRef := None; timeoutRef := clear_ref (timeoutRef m);
         deps := deps m; destructor := destructor m; unmounted := unmounted m;
         spawned := spawned m; clock := clock m; timer_seq := timer_seq m;
         timers := clear_timers (timeoutRef m) (timers m);
         calls := (calls m ++ [CallTerminate w]) ++ clear_calls (timeoutRef m) |}).
    { unfold torn_down. rewrite Hw. reflexivity. }
    rewrite TD in D2, E2, W2, Sp2, T2, C2. cbn in D2, E2, W2, Sp2, T2, C2.
    assert (K : terminate_count w (with_effect (Some (src, tmo)) true m2) = 1).
    { unfold terminate_count in *. cbn. rewrite C2.
      rewrite !count_terminate_app, count_terminate_clear_calls, Z0.
      replace (count_terminate w [CallTerminate w]) with 1
        by (rewrite <- (app_nil_l [CallTerminate w]), count_terminate_snoc;
            cbn; rewrite Nat.eqb_refl; reflexivity).
      replace (count_terminate w [CallSpawn (spawned m) src]) with 0 by reflexivity.
      destruct tmo as [delay|]; [destruct (Z.eqb delay 0)|]; reflexivity. }
    exists (with_effect (Some (src, tmo)) true m2).
    eexists. unfold step. rewrite ?U.
    split; [exact E|]. split; [exact Z0|]. split; [exact K|].
    split.
    { cbn. rewrite C2. rewrite <- !app_assoc. reflexivity. }
    split.
    { unfold live. rewrite K. apply andb_false_r. }
    split; [cbn; exact W2|].
    split; [lia|].
    split.
    { destruct (wf_ref_live _ W' (spawned m)) as [A B]; [cbn; exact W2|].
      apply live_spec. split; assumption. }
    split; [cbn; exact S2|]. split; [cbn; rewrite D2; reflexivity|].
    split; [cbn; rewrite E2; reflexivity|].
    cbn. rewrite T2. rewrite (clear_timers_wf m W). cbn.
    reflexivity.
Qed.

Example single_handle_witness :
  exists m',
    step (Render (SrcString "/new.worker.js") None Constructs) running_plain
      = Some m' /\
    terminate_count 0 m' = 1 /\ workerRef m' = Some 1 /\ status m' = Running.
Proof.
  assert (R : reachable running_plain)
    by (eexists; exact running_plain_reached).
  destruct (proj2 (proj2 (single_handle running_plain R))
              0 (SrcString "/new.worker.js") None)
    as (m' & later & E & _ & K & _ & _ & Hw & _ & _ & S & _);
    try reflexivity.
  exists m'. repeat split; assumption.
Defined.

(** * The nullity rules of the observables *)

Lemma terminateWorker_err_ok (m m' : Machine) :
  err_ok m -> exec terminateWorker m = Some m' -> err_ok m'.
Proof.
  unfold err_ok, exec. intros Q E.
  destruct (workerRef m) as [worker|] eqn:Hw.
  - rewrite (terminateWorker_live m worker Hw) in E. inversion E; subst.
    cbn. discriminate.
  - rewrite (terminateWorker_idle m Hw) in E. inversion E; subst. exact Q.
Qed.

Lemma timeout_callback_err_ok (status_seen : WorkerStatus) (m m' : Machine) :
  err_ok m -> exec (timeout_callback status_seen) m = Some m' -> err_ok m'.
Proof.
  unfold err_ok. intros Q E. unfold timeout_callback in E.
  destruct (negb (status_eqb status_seen Success) && negb (status_eqb status_seen Error)).
  - apply exec_bind in E. destruct E as (m1 & _ & E2).
    destruct m1. unfold exec in E2. cbn in E2. inversion E2; subst.
    cbn. discriminate.
  - inversion E; subst. exact Q.
Qed.

Lemma fire_all_err_ok (queue : list Timer) (m m' : Machine) :
  err_ok m -> exec (fire_all queue) m = Some m' -> err_ok m'.
Proof.
  revert m. induction queue as [|t rest IH]; intros m Q E.
  - inversion E; subst. exact Q.
  - cbn [fire_all] in E. apply exec_bind in E. destruct E as (m1 & E1 & E2).
    eapply IH; [|exact E2]. clear E2.
    unfold fire, exec, bind, read in E1. cbn in E1.
    destruct (is_pending (timer_id t) m).
    + unfold update in E1. cbn in E1.
      eapply (timeout_callback_err_ok (status_seen_by_timer t)); [|exact E1].
      destruct m; exact Q.
    + cbn in E1. inversion E1; subst. exact Q.
Qed.

Lemma step_err_ok (e : Event) (m m' : Machine) :
  wf m -> err_ok m -> stores_null e = false -> step e m = Some m' -> err_ok m'.
Proof.
  intros W Q T E. unfold step in E.
  destruct e as [src tmo env|message| |w event_data|w message|ms| |status_seen kept|w err];
    mounted_only E.
  - unfold exec in E.
    destruct (deps_changed src tmo m) eqn:C.
    + destruct (source_truthy src) eqn:Tr.
      * destruct env as [|failure].
        -- destruct (effect_constructs (status m) src tmo (torn_down m) Tr)
             as (m2 & F & _ & _ & S2 & _).
           pose proof (commit_result src tmo Constructs m true m2 W C F) as E'.
           unfold exec in E'. rewrite E' in E. inversion E; subst.
           unfold err_ok. cbn. rewrite S2. discriminate.
        -- pose proof (commit_result src tmo (Throws failure) m true _ W C
                         (effect_throws (status m) src tmo failure (torn_down m) Tr)) as E'.
           unfold exec in E'. rewrite E' in E. inversion E; subst.
           unfold err_ok. cbn. intros _. destruct failure; cbn in T; congruence.
      * pose proof (commit_result src tmo env m false _ W C
                      (effect_empty (status m) src tmo env (torn_down m) Tr)) as E'.
        unfold exec in E'. rewrite E' in E. inversion E; subst.
        unfold err_ok, torn_down. cbn.
        destruct (workerRef m); cbn; [discriminate | exact Q].
    + unfold commit, bind, read in E. cbn in E. rewrite C in E.
      inversion E; subst. exact Q.
  - destruct (deps m); [|discriminate].
    cbn [useWebworker result_postMessage] in E.
    destruct m as [d e s wr tr dp ds um sp ck sq ts cs].
    run_callback. unfold err_ok in *. cbn in *.
    destruct wr as [worker|]; [destruct s|]; cbn in *;
      inversion E; subst; cbn; auto; discriminate.
  - destruct (deps m); [|discriminate].
    exact (terminateWorker_err_ok m m' Q E).
  - destruct (installed w m); [|discriminate].
    unfold exec in E. rewrite onmessage_result in E. inversion E; subst.
    unfold err_ok. cbn. discriminate.
  - destruct (installed w m); [|discriminate].
    unfold exec in E. rewrite onerror_result in E. inversion E; subst.
    unfold err_ok. cbn. discriminate.
  - destruct (Z.leb 0 ms); [|discriminate].
    unfold advance in E.
    unfold bind at 1 2 in E. unfold read at 1 2 in E. cbn beta iota in E.
    apply exec_bind in E. destruct E as (m1 & E1 & E2).
    apply fire_all_err_ok in E1; [|exact Q].
    unfold exec, update in E2. inversion E2; subst. destruct m1; exact E1.
  - destruct (deps m); [|discriminate].
    apply exec_bind in E. destruct E as (m1 & E1 & E2).
    assert (Q1 : err_ok m1).
    { destruct (destructor m).
      - eapply terminateWorker_err_ok; eauto.
      - inversion E1; subst. exact Q. }
    unfold exec, update in E2. inversion E2; subst. destruct m1; exact Q1.
  - destruct (deps m); [|discriminate].
    destruct m as [d e s wr tr dp ds um sp ck sq ts cs].
    run_callback. unfold err_ok in *. cbn in *.
    destruct wr as [worker|]; [destruct status_seen|]; cbn in *;
      inversion E; subst; cbn; auto; discriminate.
  - destruct (installed w m && negb (has_message err)); [|discriminate].
    unfold exec in E. rewrite onerror_result in E. inversion E; subst.
    unfold err_ok. cbn. intros _. destruct err; cbn in T; congruence.
Qed.

Lemma run_err_ok (es : list Event) (m m' : Machine) :
  wf m -> err_ok m -> existsb stores_null es = false ->
  run es m = Some m' -> err_ok m'.
Proof.
  revert m. induction es as [|e rest IH]; intros m W Q T E; cbn in E.
  - inversion E; subst. exact Q.
  - cbn in T. apply orb_false_iff in T. destruct T as [T1 T2].
    destruct (step e m) as [m1|] eqn:S1; [|discriminate].
    eapply (IH m1); eauto using step_wf, step_err_ok.
Qed.

(** ** [data] under a host that dispatches on live workers only *)

Lemma tidy_of_null (m : Machine) : data m = VNull -> tidy m.
Proof. intros D. split; intros H; [contradiction | exact D]. Qed.

Lemma terminateWorker_clears (m m' : Machine) :
  tidy m -> exec terminateWorker m = Some m' -> data m' = VNull.
Proof.
  unfold exec. intros [_ T] E.
  destruct (workerRef m) as [worker|] eqn:Hw.
  - rewrite (terminateWorker_live m worker Hw) in E. inversion E; subst.
    reflexivity.
  - rewrite (terminateWorker_idle m Hw) in E. inversion E; subst.
    exact (T eq_refl).
Qed.

Lemma terminateWorker_tidy (m m' : Machine) :
  tidy m -> exec terminateWorker m = Some m' -> tidy m'.
Proof. intros T E. apply tidy_of_null. exact (terminateWorker_clears m m' T E). Qed.

Lemma timeout_callback_tidy (status_seen : WorkerStatus) (m m' : Machine) :
  tidy m -> exec (timeout_callback status_seen) m = Some m' -> tidy m'.
Proof.
  intros T E. unfold timeout_callback in E.
  destruct (negb (status_eqb status_seen Success) && negb (status_eqb status_seen Error)).
  - apply exec_bind in E. destruct E as (m1 & E1 & E2).
    pose proof (terminateWorker_clears m m1 T E1) as D.
    apply tidy_of_null.
    destruct m1. unfold exec in E2. cbn in E2. inversion E2; subst. exact D.
  - inversion E; subst. exact T.
Qed.

Lemma fire_all_tidy (queue : list Timer) (m m' : Machine) :
  tidy m -> exec (fire_all queue) m = Some m' -> tidy m'.
Proof.
  revert m. induction queue as [|t rest IH]; intros m T E.
  - inversion E; subst. exact T.
  - cbn [fire_all] in E. apply exec_bind in E. destruct E as (m1 & E1 & E2).
    eapply IH; [|exact E2]. clear E2.
    unfold fire, exec, bind, read in E1. cbn in E1.
    destruct (is_pending (timer_id t) m).
    + unfold update in E1. cbn in E1.
      eapply (timeout_callback_tidy (status_seen_by_timer t)); [|exact E1].
      destruct m; exact T.
    + cbn in E1. inversion E1; subst. exact T.
Qed.

Lemma torn_down_data (m : Machine) : tidy m -> data (torn_down m) = VNull.
Proof.
  intros [_ T]. unfold torn_down.
  destruct (workerRef m) eqn:Hw; [reflexivity | exact (T eq_refl)].
Qed.

Lemma step_tidy (e : Event) (m m' : Machine) :
  wf m -> tidy m -> kept_from_terminated e = false -> on_live e m = true ->
  step e m = Some m' -> tidy m'.
Proof.
  intros W T K L E. unfold step in E.
  destruct e as [src tmo env|message| |w event_data|w message|ms| |status_seen kept|w err];
    mounted_only E.
  - unfold exec in E.
    destruct (deps_changed src tmo m) eqn:C.
    + pose proof (torn_down_data m T) as D.
      apply tidy_of_null.
      destruct (source_truthy src) eqn:Tr.
      * destruct env as [|failure].
        -- destruct (effect_constructs (status m) src tmo (torn_down m) Tr)
             as (m2 & F & D2 & _).
           pose proof (commit_result src tmo Constructs m true m2 W C F) as E'.
           unfold exec in E'. rewrite E' in E. inversion E; subst.
           cbn. rewrite D2. exact D.
        -- pose proof (commit_result src tmo (Throws failure) m true _ W C
                         (effect_throws (status m) src tmo failure (torn_down m) Tr)) as E'.
           unfold exec in E'. rewrite E' in E. inversion E; subst. exact D.
      * pose proof (commit_result src tmo env m false _ W C
                      (effect_empty (status m) src tmo env (torn_down m) Tr)) as E'.
        unfold exec in E'. rewrite E' in E. inversion E; subst. exact D.
    + unfold commit, bind, read in E. cbn in E. rewrite C in E.
      inversion E; subst. exact T.
  - destruct (deps m); [|discriminate].
    cbn [useWebworker result_postMessage] in E.
    destruct T as [T1 T2].
    destruct m as [d e s wr tr dp ds um sp ck sq ts cs].
    run_callback. unfold tidy in *. cbn in *.
    destruct wr as [worker|]; [destruct s|]; cbn in *;
      inversion E; subst; cbn; split; intros H; auto; try discriminate;
      try (apply T1 in H; discriminate);
      try (rewrite (T2 eq_refl) in H; contradiction).
  - destruct (deps m); [|discriminate].
    exact (terminateWorker_tidy m m' T E).
  - destruct (installed w m); [|discriminate]. cbn in L.
    apply live_spec in L. destruct L as [Lt Z0].
    pose proof (wf_live_ref m W w Lt Z0) as Hw.
    unfold exec in E. rewrite onmessage_result in E. inversion E; subst.
    split; cbn; [reflexivity | rewrite Hw; discriminate].
  - destruct (installed w m); [|discriminate].
    unfold exec in E. rewrite onerror_result in E. inversion E; subst.
    apply tidy_of_null. reflexivity.
  - destruct (Z.leb 0 ms); [|discriminate].
    unfold advance in E.
    unfold bind at 1 2 in E. unfold read at 1 2 in E. cbn beta iota in E.
    apply exec_bind in E. destruct E as (m1 & E1 & E2).
    apply fire_all_tidy in E1; [|exact T].
    unfold exec, update in E2. inversion E2; subst. destruct m1; exact E1.
  - destruct (deps m); [|discriminate].
    apply exec_bind in E. destruct E as (m1 & E1 & E2).
    assert (T1 : tidy m1).
    { destruct (destructor m).
      - eapply terminateWorker_tidy; eauto.
      - inversion E1; subst. exact T. }
    unfold exec, update in E2. inversion E2; subst. destruct m1; exact T1.
  - destruct (deps m); [|discriminate].
    destruct T as [T1 T2].
    destruct m as [d e s wr tr dp ds um sp ck sq ts cs].
    run_callback. unfold tidy in *. cbn in *.
    destruct wr as [worker|]; [destruct status_seen|]; cbn in *;
      try discriminate K;
      inversion E; subst; cbn; split; intros H; auto; try discriminate;
      try (apply T1 in H; discriminate);
      try (rewrite (T2 eq_refl) in H; contradiction).
  - destruct (installed w m && negb (has_message err)); [|discriminate].
    unfold exec in E. rewrite onerror_result in E. inversion E; subst.
    apply tidy_of_null. reflexivity.
Qed.

Lemma run_tidy (es : list Event) (m m' : Machine) :
  wf m -> tidy m -> existsb kept_from_terminated es = false ->
  dispatches_live es m = true ->
  run es m = Some m' -> tidy m'.
Proof.
  revert m. induction es as [|e rest IH]; intros m W T K L E; cbn in E.
  - inversion E; subst. exact T.
  - cbn in L. apply andb_true_iff in L. destruct L as [L1 L2].
    cbn in K. apply orb_false_iff in K. destruct K as [K1 K2].
    destruct (step e m) as [m1|] eqn:S1; [|discriminate].
    eapply (IH m1); eauto using step_wf, step_tidy.
Qed.

(** ** [data] when the caller uses kept instances of [postMessage] *)

Lemma refusal_of_null (m : Machine) : data m = VNull -> tidy_but_for_refusal m.
Proof. intros D. split; intros H; [contradiction | exact D]. Qed.

Lemma terminateWorker_nulls (m m' : Machine) :
  tidy_but_for_refusal m -> exec terminateWorker m = Some m' -> data m' = VNull.
Proof.
  unfold exec. intros [_ T] E.
  destruct (workerRef m) as [worker|] eqn:Hw.
  - rewrite (terminateWorker_live m worker Hw) in E. inversion E; subst.
    reflexivity.
  - rewrite (terminateWorker_idle m Hw) in E. inversion E; subst.
    exact (T eq_refl).
Qed.

Lemma timeout_callback_refusal (status_seen : WorkerStatus) (m m' : Machine) :
  tidy_but_for_refusal m -> exec (timeout_callback status_seen) m = Some m' ->
  tidy_but_for_refusal m'.
Proof.
  intros T E. unfold timeout_callback in E.
  destruct (negb (status_eqb status_seen Success) && negb (status_eqb status_seen Error)).
  - apply exec_bind in E. destruct E as (m1 & E1 & E2).
    pose proof (terminateWorker_nulls m m1 T E1) as D.
    apply refusal_of_null.
    destruct m1. unfold exec in E2. cbn in E2. inversion E2; subst. exact D.
  - inversion E; subst. exact T.
Qed.

Lemma fire_all_refusal (queue : list Timer) (m m' : Machine) :
  tidy_but_for_refusal m -> exec (fire_all queue) m = Some m' ->
  tidy_but_for_refusal m'.
Proof.
  revert m. induction queue as [|t rest IH]; intros m T E.
  - inversion E; subst. exact T.
  - cbn [fire_all] in E. apply exec_bind in E. destruct E as (m1 & E1 & E2).
    eapply IH; [|exact E2]. clear E2.
    unfold fire, exec, bind, read in E1. cbn in E1.
    destruct (is_pending (timer_id t) m).
    + unfold update in E1. cbn in E1.
      eapply (timeout_callback_refusal (status_seen_by_timer t)); [|exact E1].
      destruct m; exact T.
    + cbn in E1. inversion E1; subst. exact T.
Qed.

Lemma torn_down_nulls (m : Machine) :
  tidy_but_for_refusal m -> data (torn_down m) = VNull.
Proof.
  intros [_ T]. unfold torn_down.
  destruct (workerRef m) eqn:Hw; [reflexivity | exact (T eq_refl)].
Qed.

Lemma postMessage_refusal (status_seen : WorkerStatus) (message : jsval)
    (m m' : Machine) :
  tidy_but_for_refusal m -> exec (postMessage status_seen message) m = Some m' ->
  tidy_but_for_refusal m'.
Proof.
  intros [T1 T2] E.
  destruct m as [d e s wr tr dp ds um sp ck sq ts cs].
  run_callback. unfold tidy_but_for_refusal in *. cbn in *.
  destruct wr as [worker|]; [destruct status_seen|]; cbn in *;
    inversion E; subst; cbn; split; intros H; auto; try discriminate.
Qed.

Lemma step_refusal (e : Event) (m m' : Machine) :
  wf m -> tidy_but_for_refusal m -> on_live e m = true -> step e m = Some m' ->
  tidy_but_for_refusal m'.
Proof.
  intros W T L E. unfold step in E.
  destruct e as [src tmo env|message| |w event_data|w message|ms| |status_seen kept|w err];
    mounted_only E.
  - destruct (deps_changed src tmo m) eqn:C.
    + pose proof (torn_down_nulls m T) as D.
      apply refusal_of_null.
      destruct (source_truthy src) eqn:Tr.
      * destruct env as [|failure].
        -- destruct (effect_constructs (status m) src tmo (torn_down m) Tr)
             as (m2 & F & D2 & _).
           pose proof (commit_result src tmo Constructs m true m2 W C F) as E'.
           rewrite E' in E. inversion E; subst.
           cbn. rewrite D2. exact D.
        -- pose proof (commit_result src tmo (Throws failure) m true _ W C
                         (effect_throws (status m) src tmo failure (torn_down m) Tr)) as E'.
           rewrite E' in E. inversion E; subst. exact D.
      * pose proof (commit_result src tmo env m false _ W C
                      (effect_empty (status m) src tmo env (torn_down m) Tr)) as E'.
        rewrite E' in E. inversion E; subst. exact D.
    + unfold exec, commit, bind, read in E. cbn in E. rewrite C in E.
      inversion E; subst. exact T.
  - destruct (deps m); [|discriminate].
    exact (postMessage_refusal (status m) message m m' T E).
  - destruct (deps m); [|discriminate].
    apply refusal_of_null. exact (terminateWorker_nulls m m' T E).
  - destruct (installed w m); [|discriminate]. cbn in L.
    apply live_spec in L. destruct L as [Lt Z0].
    pose proof (wf_live_ref m W w Lt Z0) as Hw.
    unfold exec in E. rewrite onmessage_result in E. inversion E; subst.
    split; cbn; [left; reflexivity | rewrite Hw; discriminate].
  - destruct (installed w m); [|discriminate].
    unfold exec in E. rewrite onerror_result in E. inversion E; subst.
    apply refusal_of_null. reflexivity.
  - destruct (Z.leb 0 ms); [|discriminate].
    unfold advance in E.
    unfold bind at 1 2 in E. unfold read at 1 2 in E. cbn beta iota in E.
    apply exec_bind in E. destruct E as (m1 & E1 & E2).
    apply fire_all_refusal in E1; [|exact T].
    unfold exec, update in E2. inversion E2; subst. destruct m1; exact E1.
  - destruct (deps m); [|discriminate].
    apply exec_bind in E. destruct E as (m1 & E1 & E2).
    assert (T1 : tidy_but_for_refusal m1).
    { destruct (destructor m).
      - apply refusal_of_null. exact (terminateWorker_nulls m m1 T E1).
      - inversion E1; subst. exact T. }
    unfold exec, update in E2. inversion E2; subst. destruct m1; exact T1.
  - destruct (deps m); [|discriminate].
    exact (postMessage_refusal status_seen kept m m' T E).
  - destruct (installed w m && negb (has_message err)); [|discriminate].
    unfold exec in E. rewrite onerror_result in E. inversion E; subst.
    apply refusal_of_null. reflexivity.
Qed.

Lemma run_refusal (es : list Event) (m m' : Machine) :
  wf m -> tidy_but_for_refusal m -> dispatches_live es m = true ->
  run es m = Some m' -> tidy_but_for_refusal m'.
Proof.
  revert m. induction es as [|e rest IH]; intros m W T L E; cbn in E.
  - inversion E; subst. exact T.
  - cbn in L. apply andb_true_iff in L. destruct L as [L1 L2].
    destruct (step e m) as [m1|] eqn:S1; [|discriminate].
    eapply (IH m1); eauto using step_wf, step_refusal.
Qed.

(** ** The invariant of the specification *)

(** C1 as stated fails: a null payload gives Success with [data] null; an
    error stored while there was no handle is still there when the next
    initialization reaches Running; under a host that dispatches on a
    terminated worker (the test double does when told to) a late payload
    stays in [data] when a misuse sets the status to Error; and under a
    host that dispatches on live workers only, a [postMessage] kept from a
    Terminated render refuses while the result of the next cycle is on
    display, which leaves the status Error with [data] non-null. *)
Lemma claimed_invariant_fails :
  (exists m, run null_payload_trace boot = Some m /\
             status m = Success /\ data m = VNull /\ ~ claimed_invariant m) /\
  (exists m, run stale_error_trace boot = Some m /\
             status m = Running /\ error m = VError notice /\
             ~ claimed_invariant m) /\
  (exists m, run late_message_trace boot = Some m /\
             status m = Error /\ data m = VNum 84 /\
             ~ claimed_invariant m) /\
  (exists m, run kept_closure_trace boot = Some m /\
             status m = Error /\ data m = VObject [("result", SNum 84)] /\
             dispatches_live kept_closure_trace boot = true /\
             ~ claimed_invariant m).
Proof.
  split; [|split; [|split]]; eexists; (split; [lazy; reflexivity|]);
    (split; [reflexivity|]); (split; [reflexivity|]).
  - intros [[S _] _]. cbn in S. destruct (S eq_refl) as [D _]. apply D. reflexivity.
  - intros (_ & _ & _ & Rn). cbn in Rn. destruct (Rn eq_refl) as (_ & E & _).
    discriminate.
  - intros (_ & [Er _] & _). cbn in Er. destruct (Er eq_refl) as [_ D].
    discriminate.
  - split; [vm_compute; reflexivity|].
    intros (_ & [Er _] & _). cbn in Er. destruct (Er eq_refl) as [_ D].
    discriminate.
Qed.

(** C1 as the code has it.  After every event, under any host and whatever
    instance of [postMessage] the caller uses: Success implies [error]
    null; [error] non-null implies Error or Running; Idle and Terminated
    imply [data] and [error] null; Running implies a live handle in the
    ref; Error implies [error] non-null provided the hook was never handed
    the value null as an error (by a throwing constructor or by the host).
    Under a host that dispatches on live workers only, moreover: [data]
    non-null implies Success with [error] null, or Error with the notice of
    a refused [postMessage] as the error; Error implies [data] null or that
    notice; Running implies [data] null.  When in addition no [postMessage]
    kept from a Terminated render is called: [data] non-null implies
    Success with [error] null, and Error implies [data] null. *)
Theorem nullity_rules (es : list Event) (m : Machine) :
  run es boot = Some m ->
  (status m = Success -> error m = VNull) /\
  (error m <> VNull -> status m = Error \/ status m = Running) /\
  (status m = Idle \/ status m = Terminated -> data m = VNull /\ error m = VNull) /\
  (status m = Running -> exists w, workerRef m = Some w /\ live w m = true) /\
  (existsb stores_null es = false -> status m = Error -> error m <> VNull) /\
  (dispatches_live es boot = true ->
   (data m <> VNull ->
    (status m = Success /\ error m = VNull) \/
    (status m = Error /\ error m = VError notice)) /\
   (status m = Error -> data m = VNull \/ error m = VError notice) /\
   (status m = Running -> data m = VNull) /\
   (existsb kept_from_terminated es = false ->
    (data m <> VNull -> status m = Success /\ error m = VNull) /\
    (status m = Error -> data m = VNull))).
Proof.
  intros E. pose proof (run_wf es boot m wf_boot E) as W.
  pose proof (wf_success m W) as HS.
  pose proof (wf_idle m W) as HI. pose proof (wf_terminated m W) as HT.
  assert (Null : forall v : jsval, v = VNull \/ v <> VNull).
  { intros v. destruct v; [left; reflexivity | right; discriminate ..]. }
  split; [exact HS|].
  split.
  { intros Er. destruct (status m) eqn:S; auto.
    - destruct (HI eq_refl) as (_ & Z & _). contradiction.
    - contradiction (HS eq_refl).
    - destruct (HT eq_refl) as (_ & Z & _). contradiction. }
  split.
  { intros [Q|Q]; [destruct (HI Q) as (D & Z & _) | destruct (HT Q) as (D & Z & _)];
      split; assumption. }
  split.
  { intros Rn. destruct (workerRef m) as [w|] eqn:Hw.
    - exists w. split; [reflexivity|]. apply live_spec. apply (wf_ref_live m W w Hw).
    - contradiction (wf_running m W Rn Hw). }
  split.
  { intros T. apply (run_err_ok es boot m wf_boot); auto.
    unfold err_ok. cbn. discriminate. }
  intros L.
  destruct (run_refusal es boot m wf_boot (refusal_of_null boot eq_refl) L E)
    as [HR _].
  split.
  { intros D. destruct (HR D) as [S | [S Er]]; [left | right]; auto. }
  split.
  { intros S. destruct (Null (data m)) as [D|D]; [left; exact D|].
    destruct (HR D) as [S' | [_ Er]]; [congruence | right; exact Er]. }
  split.
  { intros S. destruct (Null (data m)) as [D|D]; [exact D|].
    destruct (HR D) as [S' | [S' _]]; congruence. }
  intros K.
  destruct (run_tidy es boot m wf_boot (tidy_of_null boot eq_refl) K L E) as [HD _].
  split; [intros D; split; auto|].
  intros Q. destruct (Null (data m)) as [D|D]; [exact D|].
  rewrite (HD D) in Q. discriminate.
Qed.

Example nullity_rules_witness :
  (exists m,
     run [Render (SrcString "/example.worker.js") None Constructs;
          WorkerMessage 0 (VObject [("result", SNum 84)])] boot = Some m /\
     status m = Success /\ error m = VNull) /\
  (exists m,
     run kept_closure_trace boot = Some m /\
     data m = VObject [("result", SNum 84)] /\
     status m = Error /\ error m = VError notice).
Proof.
  split.
  - destruct (run [Render (SrcString "/example.worker.js") None Constructs;
                   WorkerMessage 0 (VObject [("result", SNum 84)])] boot)
      as [m|] eqn:E; [|lazy in E; discriminate].
    exists m. split; [reflexivity|].
    destruct (nullity_rules _ m E) as (_ & _ & _ & _ & _ & D).
    assert (Dm : data m <> VNull) by (lazy in E; inversion E; discriminate).
    destruct (D eq_refl) as (_ & _ & _ & D').
    apply D'; [reflexivity | exact Dm].
  - destruct (run kept_closure_trace boot) as [m|] eqn:E;
      [|lazy in E; discriminate].
    exists m. split; [reflexivity|].
    assert (Dm : data m = VObject [("result", SNum 84)])
      by (lazy in E; inversion E; reflexivity).
    split; [exact Dm|].
    destruct (nullity_rules _ m E) as (Su & _ & _ & _ & _ & D).
    destruct (D eq_refl) as (D1 & _).
    assert (St : status m = Error) by (lazy in E; inversion E; reflexivity).
    destruct D1 as [[S _] | R]; [rewrite Dm; discriminate | congruence | exact R].
Defined.

(** * The timeout *)

(** Time passing beyond the deadline of the one pending timer: the timer
    leaves the table, its callback runs at the deadline, and the clock
    arrives where it was sent. *)
Lemma advance_one (ms : Z) (t : Timer) (m : Machine) :
  timers m = [t] -> Z.leb (deadline t) (clock m + ms) = true ->
  exec (advance ms) m =
  match exec (timeout_callback (status_seen_by_timer t))
          (with_host (spawned m) (deadline t) (timer_seq m) [] (calls m) m) with
  | Some m1 =>
      Some (with_host (spawned m1) (clock m + ms) (timer_seq m1) (timers m1)
              (calls m1) m1)
  | None => None
  end.
Proof.
  destruct m as [d e s wr tr dp ds um sp ck sq ts cs]. cbn. intros -> D.
  destruct t as [id dl seen]. cbn in *.
  unfold advance, exec, bind, read. cbn [timers clock filter deadline].
  rewrite D. unfold by_deadline.
  cbn [rev app fold_right insert_timer fire_all].
  unfold fire, bind, read, update, ret, is_pending, drop_timer.
  cbn [timers existsb timer_id filter status_seen_by_timer].
  rewrite Z.eqb_refl. cbn [orb negb].
  unfold with_host. cbn. rewrite Z.eqb_refl. cbn [negb].
  destruct (timeout_callback seen _) as [[[]|thrown] m1]; reflexivity.
Qed.

(** X1.  Armed by a render that saw a status other than Success and Error
    (the first render sees Idle), the timeout does what it is for: when time
    passes beyond its deadline, the handle in the ref has [terminate()]
    called on it exactly once, the ref is null, [error] is
    [Error("Worker timed out")], [data] is null and the status is Error. *)
Theorem timeout_fires (ms : Z) (t : Timer) (m : Machine) :
  reachable m -> unmounted m = false -> timers m = [t] ->
  status_seen_by_timer t <> Success -> status_seen_by_timer t <> Error ->
  (0 <= ms)%Z -> (deadline t <= clock m + ms)%Z ->
  exists w m',
    workerRef m = Some w /\
    step (AdvanceTimers ms) m = Some m' /\
    terminate_count w m = 0 /\ terminate_count w m' = 1 /\
    workerRef m' = None /\
    error m' = VError "Worker timed out" /\ data m' = VNull /\
    status m' = Error /\ timers m' = [].
Proof.
  intros R U T NS NE P D. pose proof (reachable_wf m R) as W.
  destruct (wf_timers m W) as [E | (u & E & Ru & Z1 & Hw)];
    rewrite T in E; [discriminate|]. inversion E; subst u; clear E.
  destruct (workerRef m) as [w|] eqn:Ew; [clear Hw | contradiction].
  destruct (wf_ref_live m W w Ew) as [_ Z0].
  exists w. eexists. split; [reflexivity|].
  unfold step. rewrite ?U.
  destruct (Z.leb_spec 0 ms); [|lia].
  rewrite (advance_one ms t m T) by (apply Z.leb_le; exact D).
  unfold timeout_callback.
  replace (negb (status_eqb (status_seen_by_timer t) Success) &&
           negb (status_eqb (status_seen_by_timer t) Error)) with true
    by (destruct (status_seen_by_timer t); try reflexivity; congruence).
  unfold exec, bind.
  rewrite (terminateWorker_live _ w) by (destruct m; exact Ew).
  unfold setError, setStatus, update.
  split; [reflexivity|]. cbn.
  split; [exact Z0|].
  split.
  { unfold terminate_count in *. destruct m. cbn in *.
    rewrite count_terminate_app, count_terminate_snoc, count_terminate_clear_calls.
    cbn. rewrite Nat.eqb_refl. lia. }
  repeat split.
  rewrite Ru. unfold clear_timers. destruct (Z.eqb (timer_id t) 0); reflexivity.
Qed.

Example timeout_fires_witness :
  exists m',
    step (AdvanceTimers 100) running_timed = Some m' /\
    terminate_count 0 m' = 1 /\ workerRef m' = None /\
    error m' = VError "Worker timed out" /\ status m' = Error.
Proof.
  destruct (timeout_fires 100 (mkTimer 1 100 Idle) running_timed)
    as (w & m' & Hw & E & _ & K & N & Er & _ & S & _);
    try reflexivity; try discriminate; try (cbn; lia).
  - eexists. exact running_timed_reached.
  - inversion Hw; subst w. exists m'. repeat split; assumption.
Defined.

(** X2.  Armed by a render that saw Success or Error, the timer is inert:
    when it fires, only the timer table and the clock change. *)
Theorem timeout_inert (ms : Z) (t : Timer) (m : Machine) :
  unmounted m = false -> timers m = [t] ->
  status_seen_by_timer t = Success \/ status_seen_by_timer t = Error ->
  (0 <= ms)%Z -> (deadline t <= clock m + ms)%Z ->
  step (AdvanceTimers ms) m =
  Some (with_host (spawned m) (clock m + ms) (timer_seq m) [] (calls m) m).
Proof.
  intros U T G P D. unfold step. rewrite ?U.
  destruct (Z.leb_spec 0 ms); [|lia].
  rewrite (advance_one ms t m T) by (apply Z.leb_le; exact D).
  unfold timeout_callback.
  replace (negb (status_eqb (status_seen_by_timer t) Success) &&
           negb (status_eqb (status_seen_by_timer t) Error)) with false
    by (destruct G as [-> | ->]; reflexivity).
  destruct m; reflexivity.
Qed.

Example timeout_inert_witness :
  exists m',
    step (AdvanceTimers 500) rearmed_after_result = Some m' /\
    status m' = Running /\ live 1 m' = true /\ timers m' = [].
Proof.
  eexists. split.
  - apply (timeout_inert 500 (mkTimer 2 150 Success) rearmed_after_result);
      try reflexivity; try (cbn; lia).
    left. reflexivity.
  - repeat split.
Defined.

(** C4 on the code.  A result arrives, then the source changes and a new
    cycle starts with [timeout = 100]: its timer is pending with deadline
    150.  Time passes far beyond the deadline and the timer fires, yet the
    second handle is not terminated, [error] stays null and the status
    stays Running. *)
Theorem timeout_lost_after_result :
  exists m m',
    run [Render (SrcString "/a.js") (Some 100%Z) Constructs;
         AdvanceTimers 50;
         WorkerMessage 0 (VObject [("result", SNum 84)]);
         Render (SrcString "/b.js") (Some 100%Z) Constructs] boot = Some m /\
    status m = Running /\ workerRef m = Some 1 /\
    timers m = [mkTimer 2 150 Success] /\
    step (AdvanceTimers 500) m = Some m' /\
    timers m' = [] /\ clock m' = 550%Z /\
    status m' = Running /\ error m' = VNull /\
    workerRef m' = Some 1 /\ terminate_count 1 m' = 0 /\ live 1 m' = true.
Proof.
  exists rearmed_after_result. eexists.
  split; [exact rearmed_after_result_reached|].
  split; [reflexivity|]. split; [reflexivity|]. split; [reflexivity|].
  split; [lazy; reflexivity|].
  lazy. repeat split.
Qed.

(** * Further properties of the relays and of mounting *)

(** X3.  An error event dispatched on the live worker is stored unchanged
    in [error], the status becomes Error and [data] null, and the pending
    timer is cleared; the handle is not terminated and stays in the ref. *)
Theorem error_relay (w : nat) (message : string) (m : Machine) :
  reachable m -> unmounted m = false -> live w m = true ->
  exists m',
    step (WorkerError w message) m = Some m' /\
    error m' = VErrorEvent message /\ status m' = Error /\ data m' = VNull /\
    timers m' = [] /\
    workerRef m' = Some w /\ live w m' = true.
Proof.
  intros R U L. pose proof (reachable_wf m R) as W.
  pose proof L as L'. apply live_spec in L'. destruct L' as [Lt Z0].
  assert (I : installed w m = true) by (apply Nat.ltb_lt; exact Lt).
  unfold step. rewrite ?U, I. unfold exec. rewrite onerror_result.
  eexists. split; [reflexivity|]. cbn.
  split; [reflexivity|]. split; [reflexivity|]. split; [reflexivity|].
  split; [apply clear_timers_wf; exact W|].
  split; [exact (wf_live_ref m W w Lt Z0)|].
  apply live_spec. cbn. split; [exact Lt|].
  unfold terminate_count in *. cbn.
  rewrite count_terminate_app, count_terminate_clear_calls. lia.
Qed.

Example error_relay_witness :
  exists m',
    step (WorkerError 0 "Something went wrong") running_timed = Some m' /\
    error m' = VErrorEvent "Something went wrong" /\ status m' = Error /\
    timers m' = [] /\ live 0 m' = true.
Proof.
  destruct (error_relay 0 "Something went wrong" running_timed)
    as (m' & E & Er & S & _ & T & _ & L); try reflexivity.
  - eexists. exact running_timed_reached.
  - exists m'. repeat split; assumption.
Defined.

(** X4.  Mounting with a non-empty source whose construction succeeds
    leads from Idle to Running with [data] and [error] null and the new
    handle live, before any message or error arrives. *)
Theorem mount_runs (src : WorkerSource) (tmo : option Z) :
  source_truthy src = true ->
  exists m',
    step (Render src tmo Constructs) boot = Some m' /\
    status boot = Idle /\ status m' = Running /\
    data m' = VNull /\ error m' = VNull /\
    workerRef m' = Some 0 /\ live 0 m' = true /\
    calls m' = CallSpawn 0 src ::
               match tmo with
               | Some delay =>
                   if Z.eqb delay 0 then [] else [CallSetTimeout 1 delay]
               | None => []
               end.
Proof.
  intros T.
  destruct (effect_constructs Idle src tmo (torn_down boot) T)
    as (m2 & F & D2 & E2 & S2 & W2 & Sp2 & _ & _ & C2 & _).
  pose proof (commit_result src tmo Constructs boot true m2 wf_boot eq_refl F) as E.
  exists (with_effect (Some (src, tmo)) true m2).
  split; [exact E|]. cbn in *.
  split; [reflexivity|]. split; [exact S2|].
  split; [rewrite D2; reflexivity|]. split; [rewrite E2; reflexivity|].
  split; [exact W2|].
  split.
  - unfold live, terminate_count. cbn. rewrite Sp2, C2. cbn.
    destruct tmo as [delay|]; [destruct (Z.eqb delay 0)|]; reflexivity.
  - rewrite C2. reflexivity.
Qed.

Example mount_runs_witness :
  exists m',
    step (Render (SrcFunction 0) (Some 5000%Z) Constructs) boot = Some m' /\
    status m' = Running /\ workerRef m' = Some 0.
Proof.
  destruct (mount_runs (SrcFunction 0) (Some 5000%Z) eq_refl)
    as (m' & E & _ & S & _ & _ & Hw & _).
  exists m'. repeat split; assumption.
Defined.

(** X5.  The relays do not look at the handle they were installed on: a
    message that the host delivers from a handle that is no longer live
    (after a timeout or a manual termination) is not suppressed.  It
    overrides whatever was displayed with Success and the payload, and the
    ref is left as it was. *)
Theorem late_message_not_suppressed (w : nat) (event_data : jsval) (m : Machine) :
  unmounted m = false -> installed w m = true -> live w m = false ->
  exists m',
    step (WorkerMessage w event_data) m = Some m' /\
    status m' = Success /\ data m' = event_data /\ error m' = VNull /\
    workerRef m' = workerRef m.
Proof.
  intros U I _. unfold step. rewrite ?U, I. unfold exec.
  rewrite onmessage_result. eexists. repeat split.
Qed.

Example late_message_not_suppressed_witness :
  exists m',
    status timed_out = Error /\ live 0 timed_out = false /\
    step (WorkerMessage 0 (VNum 84)) timed_out = Some m' /\
    status m' = Success /\ data m' = VNum 84 /\ workerRef m' = None.
Proof.
  destruct (late_message_not_suppressed 0 (VNum 84) timed_out)
    as (m' & E & S & D & _ & Hw); try reflexivity.
  exists m'. repeat split; assumption.
Defined.

(** * Further properties of the hook *)

(** ** What the callbacks other than the effect leave alone *)

Lemma clear_timers_nil (t : option Z) : clear_timers t [] = [].
Proof. destruct t as [id|]; cbn; [destruct (Z.eqb id 0)|]; reflexivity. Qed.

Lemma terminateWorker_frame (m m' : Machine) :
  exec terminateWorker m = Some m' ->
  deps m' = deps m /\ spawned m' = spawned m /\ unmounted m' = unmounted m /\
  (timers m = [] -> timers m' = []).
Proof.
  unfold exec. intros E. destruct (workerRef m) as [worker|] eqn:Hw.
  - rewrite (terminateWorker_live m worker Hw) in E. inversion E; subst. cbn.
    repeat split. intros ->. apply clear_timers_nil.
  - rewrite (terminateWorker_idle m Hw) in E. inversion E; subst.
    repeat split. auto.
Qed.

Lemma timeout_callback_frame (status_seen : WorkerStatus) (m m' : Machine) :
  exec (timeout_callback status_seen) m = Some m' ->
  deps m' = deps m /\ spawned m' = spawned m /\ unmounted m' = unmounted m /\
  (timers m = [] -> timers m' = []).
Proof.
  intros E. unfold timeout_callback in E.
  destruct (negb (status_eqb status_seen Success) && negb (status_eqb status_seen Error)).
  - apply exec_bind in E. destruct E as (m1 & E1 & E2).
    apply terminateWorker_frame in E1.
    destruct m1. unfold exec in E2. cbn in E2. inversion E2; subst. exact E1.
  - inversion E; subst. repeat split. auto.
Qed.

Lemma fire_all_frame (queue : list Timer) (m m' : Machine) :
  exec (fire_all queue) m = Some m' ->
  deps m' = deps m /\ spawned m' = spawned m /\ unmounted m' = unmounted m /\
  (timers m = [] -> timers m' = []).
Proof.
  revert m. induction queue as [|t rest IH]; intros m E.
  - inversion E; subst. repeat split. auto.
  - cbn [fire_all] in E. apply exec_bind in E. destruct E as (m1 & E1 & E2).
    apply IH in E2. destruct E2 as (D2 & S2 & U2 & T2).
    assert (F : deps m1 = deps m /\ spawned m1 = spawned m /\
                unmounted m1 = unmounted m /\ (timers m = [] -> timers m1 = [])).
    { unfold fire, exec, bind, read in E1. cbn in E1.
      destruct (is_pending (timer_id t) m).
      - unfold update in E1. cbn in E1.
        apply timeout_callback_frame in E1.
        destruct m; cbn in *. destruct E1 as (A & B & C & D).
        repeat split; auto. intros ->. apply D. reflexivity.
      - cbn in E1. inversion E1; subst. repeat split. auto. }
    destruct F as (D1 & S1 & U1 & T1).
    repeat split; try congruence. auto.
Qed.

(** An event that does not make the effect run again keeps the
    dependencies and the handle counter, and schedules no timer. *)
Lemma step_frame (e : Event) (m m' : Machine) :
  reruns_effect e m = false -> step e m = Some m' ->
  deps m' = deps m /\ spawned m' = spawned m /\
  (timers m = [] -> timers m' = []).
Proof.
  intros N E. unfold step in E.
  destruct e as [src tmo env|message| |w event_data|w message|ms| |status_seen kept|w err];
    cbn in N; mounted_only E.
  - unfold exec, commit, bind, read in E. cbn in E. rewrite N in E.
    inversion E; subst. repeat split. auto.
  - destruct (deps m) eqn:Dm; [|discriminate].
    cbn [useWebworker result_postMessage] in E.
    destruct m as [d e s wr tr dp ds um sp ck sq ts cs].
    run_callback.
    destruct wr as [worker|]; [destruct s|]; cbn in *;
      inversion E; subst; cbn; repeat split; auto.
  - destruct (deps m) eqn:Dm; [|discriminate]. rewrite <- Dm.
    apply terminateWorker_frame in E. destruct E as (A & B & _ & D).
    repeat split; assumption.
  - destruct (installed w m); [|discriminate].
    unfold exec in E. rewrite onmessage_result in E. inversion E; subst. cbn.
    repeat split. intros ->. apply clear_timers_nil.
  - destruct (installed w m); [|discriminate].
    unfold exec in E. rewrite onerror_result in E. inversion E; subst. cbn.
    repeat split. intros ->. apply clear_timers_nil.
  - destruct (Z.leb 0 ms); [|discriminate].
    unfold advance in E.
    unfold bind at 1 2 in E. unfold read at 1 2 in E. cbn beta iota in E.
    apply exec_bind in E. destruct E as (m1 & E1 & E2).
    apply fire_all_frame in E1. destruct E1 as (A & B & _ & D).
    unfold exec, update in E2. inversion E2; subst. destruct m1; cbn in *.
    repeat split; auto.
  - destruct (deps m) eqn:Dm; [|discriminate]. rewrite <- Dm.
    apply exec_bind in E. destruct E as (m1 & E1 & E2).
    assert (F : deps m1 = deps m /\ spawned m1 = spawned m /\
                (timers m = [] -> timers m1 = [])).
    { destruct (destructor m).
      - apply terminateWorker_frame in E1. destruct E1 as (A & B & _ & D).
        repeat split; assumption.
      - inversion E1; subst. repeat split. auto. }
    unfold exec, update in E2. inversion E2; subst. destruct m1; exact F.
  - destruct (deps m) eqn:Dm; [|discriminate].
    destruct m as [d e s wr tr dp ds um sp ck sq ts cs].
    run_callback.
    destruct wr as [worker|]; [destruct status_seen|]; cbn in *;
      inversion E; subst; cbn; repeat split; auto.
  - destruct (installed w m && negb (has_message err)); [|discriminate].
    unfold exec in E. rewrite onerror_result in E. inversion E; subst. cbn.
    repeat split. intros ->. apply clear_timers_nil.
Qed.

(** The three ways a commit with changed dependencies can end. *)
Lemma commit_cases (src : WorkerSource) (tmo : option Z) (env : Construction)
    (m m' : Machine) :
  wf m -> deps_changed src tmo m = true ->
  exec (commit src tmo env) m = Some m' ->
  (source_truthy src = false /\
   m' = with_effect (Some (src, tmo)) false (torn_down m)) \/
  (source_truthy src = true /\
   exists failure,
     env = Throws failure /\
     m' = with_effect (Some (src, tmo)) true
            (with_status Error (with_error failure (torn_down m)))) \/
  (source_truthy src = true /\ env = Constructs /\
   exists m2,
     m' = with_effect (Some (src, tmo)) true m2 /\
     status m2 = Running /\
     workerRef m2 = Some (spawned m) /\ spawned m2 = S (spawned m) /\
     timers m2 = scheduled (status m) tmo (torn_down m) /\
     unmounted m2 = unmounted m).
Proof.
  intros W C E. destruct (source_truthy src) eqn:Tr.
  - right. destruct env as [|failure].
    + right. split; [reflexivity|]. split; [reflexivity|].
      destruct (effect_constructs (status m) src tmo (torn_down m) Tr)
        as (m2 & F & _ & _ & S2 & W2 & Sp2 & T2 & _ & _ & U2).
      pose proof (commit_result src tmo Constructs m true m2 W C F) as E'.
      rewrite E' in E. inversion E; subst. exists m2.
      rewrite torn_down_spawned in W2, Sp2.
      rewrite (torn_down_no_timer m W) in T2. rewrite torn_down_unmounted in U2.
      repeat split; assumption.
    + left. split; [reflexivity|]. exists failure. split; [reflexivity|].
      pose proof (commit_result src tmo (Throws failure) m true _ W C
                    (effect_throws (status m) src tmo failure (torn_down m) Tr)) as E'.
      rewrite E' in E. inversion E; reflexivity.
  - left. split; [reflexivity|].
    pose proof (commit_result src tmo env m false _ W C
                  (effect_empty (status m) src tmo env (torn_down m) Tr)) as E'.
    rewrite E' in E. inversion E; reflexivity.
Qed.

Lemma source_is_refl (src : WorkerSource) : source_is src src = true.
Proof.
  destruct src; cbn; auto using String.eqb_refl, Nat.eqb_refl.
Qed.

Lemma timeout_is_refl (tmo : option Z) : timeout_is tmo tmo = true.
Proof. destruct tmo; cbn; auto using Z.eqb_refl. Qed.

(** X6.  No handle leaks and none is terminated twice: after any sequence
    of events, every handle the hook ever constructed is either the one in
    the ref, with [terminate()] never called on it, or it is out of the ref
    and [terminate()] was called on it exactly once. *)
Theorem no_handle_leaks (es : list Event) (m : Machine) (w : nat) :
  run es boot = Some m -> w < spawned m ->
  (workerRef m = Some w /\ terminate_count w m = 0) \/
  (workerRef m <> Some w /\ terminate_count w m = 1).
Proof.
  intros E Lt. pose proof (run_wf es boot m wf_boot E) as W.
  pose proof (wf_once m W w) as O.
  destruct (terminate_count w m) as [|[|k]] eqn:K; [| |lia].
  - left. split; [|reflexivity]. apply (wf_live_ref m W w Lt K).
  - right. split; [|reflexivity]. intros Hw.
    destruct (wf_ref_live m W w Hw) as [_ Z0]. congruence.
Qed.

Example no_handle_leaks_witness :
  workerRef rearmed_after_result <> Some 0 /\
  terminate_count 0 rearmed_after_result = 1.
Proof.
  destruct (no_handle_leaks _ rearmed_after_result 0 rearmed_after_result_reached)
    as [[Hw _] | H].
  - cbn. lia.
  - discriminate Hw.
  - exact H.
Defined.

Lemma postMessage_fails (status_seen : WorkerStatus) (message : jsval)
    (m : Machine) :
  workerRef m = None ->
  postMessage status_seen message m =
  (Normal tt,
   with_status Error (with_error (VError notice) (log_call (CallWarn notice) m))).
Proof.
  destruct m as [d e s wr tr dp ds um sp ck sq ts cs]. cbn. intros ->.
  reflexivity.
Qed.

Lemma clear_calls_quiet (t : option Z) : forallb quiet_call (clear_calls t) = true.
Proof. destruct t as [id|]; cbn; [destruct (Z.eqb id 0)|]; reflexivity. Qed.

(** After the unmount the closures find no handle and no timer, and leave
    it so. *)
Lemma step_after_unmount (e : Event) (m m' : Machine) :
  unmounted m = true -> workerRef m = None -> timers m = [] ->
  step e m = Some m' ->
  unmounted m' = true /\ workerRef m' = None /\ timers m' = [] /\
  spawned m' = spawned m /\
  exists more, calls m' = calls m ++ more /\ forallb quiet_call more = true.
Proof.
  intros U Hw T E. unfold step in E.
  destruct e as [src tmo env|message| |w event_data|w message|ms| |status_seen kept|w err];
    rewrite ?U in E; try discriminate E.
  - destruct (deps m); [|discriminate].
    cbn [useWebworker result_terminateWorker] in E. unfold exec in E.
    rewrite (terminateWorker_idle m Hw) in E. inversion E; subst.
    repeat split; auto. exists []. rewrite app_nil_r. split; reflexivity.
  - destruct (installed w m); [|discriminate].
    unfold exec in E. rewrite onmessage_result in E. inversion E; subst. cbn.
    repeat split; auto; [rewrite T; apply clear_timers_nil|].
    eexists. split; [reflexivity | apply clear_calls_quiet].
  - destruct (installed w m); [|discriminate].
    unfold exec in E. rewrite onerror_result in E. inversion E; subst. cbn.
    repeat split; auto; [rewrite T; apply clear_timers_nil|].
    eexists. split; [reflexivity | apply clear_calls_quiet].
  - destruct (Z.leb 0 ms); [|discriminate].
    unfold exec in E. rewrite (advance_no_timer ms m T) in E.
    inversion E; subst. destruct m; cbn in *.
    repeat split; auto. exists []. rewrite app_nil_r. split; reflexivity.
  - destruct (deps m); [|discriminate].
    unfold exec in E. rewrite (postMessage_fails status_seen kept m Hw) in E.
    inversion E; subst. destruct m; cbn in *.
    repeat split; auto. eexists. split; reflexivity.
  - destruct (installed w m && negb (has_message err)); [|discriminate].
    unfold exec in E. rewrite onerror_result in E. inversion E; subst. cbn.
    repeat split; auto; [rewrite T; apply clear_timers_nil|].
    eexists. split; [reflexivity | apply clear_calls_quiet].
Qed.

Lemma run_after_unmount (es : list Event) (m m' : Machine) :
  unmounted m = true -> workerRef m = None -> timers m = [] ->
  run es m = Some m' ->
  unmounted m' = true /\ workerRef m' = None /\ timers m' = [] /\
  spawned m' = spawned m /\
  exists more, calls m' = calls m ++ more /\ forallb quiet_call more = true.
Proof.
  revert m. induction es as [|e rest IH]; intros m U Hw T E; cbn in E.
  - inversion E; subst. repeat split; auto.
    exists []. rewrite app_nil_r. split; reflexivity.
  - destruct (step e m) as [m1|] eqn:S1; [|discriminate].
    destruct (step_after_unmount e m m1 U Hw T S1)
      as (U1 & Hw1 & T1 & Sp1 & more1 & C1 & Q1).
    destruct (IH m1 U1 Hw1 T1 E) as (U2 & Hw2 & T2 & Sp2 & more2 & C2 & Q2).
    repeat split; auto; [congruence|].
    exists (more1 ++ more2). split.
    + rewrite C2, C1, app_assoc. reflexivity.
    + rewrite forallb_app, Q1, Q2. reflexivity.
Qed.

(** X7.  Unmounting releases everything: after the destructor ran no handle
    is live, none is in the ref and no timer is pending, whatever state the
    component was in, and every handle ever constructed has been terminated
    exactly once.  The closures outlive the component, but whatever is
    still called or dispatched afterwards (a kept [postMessage], the
    relays, a timer) finds it so and leaves it so: no worker is constructed
    again, none is posted to or terminated, no timer is set; the only host
    calls that can follow are [console.warn] and [clearTimeout]. *)
Theorem unmount_releases (m : Machine) :
  reachable m -> unmounted m = false -> deps m <> None ->
  exists m',
    step Unmount m = Some m' /\
    (forall w, live w m' = false) /\ workerRef m' = None /\ timers m' = [] /\
    (forall w, w < spawned m' -> terminate_count w m' = 1) /\
    (forall es m'',
       run es m' = Some m'' ->
       (forall w, live w m'' = false) /\ workerRef m'' = None /\
       timers m'' = [] /\ spawned m'' = spawned m' /\
       exists more,
         calls m'' = calls m' ++ more /\ forallb quiet_call more = true).
Proof.
  intros R U D. pose proof (reachable_wf m R) as W.
  assert (E : step Unmount m = Some (with_unmounted true (torn_down m))).
  { unfold step. rewrite ?U. destruct (deps m); [|contradiction].
    unfold exec, bind. rewrite (teardown_result m W). reflexivity. }
  exists (with_unmounted true (torn_down m)). split; [exact E|].
  pose proof (step_wf Unmount m _ W E) as W'.
  assert (N : workerRef (with_unmounted true (torn_down m)) = None)
    by (cbn; apply torn_down_no_handle).
  assert (T : timers (with_unmounted true (torn_down m)) = [])
    by (cbn; apply torn_down_no_timer; exact W).
  split; [apply no_handle_no_live; assumption|].
  split; [exact N|].
  split; [exact T|].
  split.
  - intros w Lt. pose proof (wf_once _ W' w) as O.
    destruct (terminate_count w (with_unmounted true (torn_down m)))
      as [|[|k]] eqn:K; [|reflexivity|lia].
    rewrite (wf_live_ref _ W' w Lt K) in N. discriminate.
  - intros es m'' E2.
    destruct (run_after_unmount es (with_unmounted true (torn_down m)) m''
                eq_refl N T E2)
      as (_ & Hw2 & T2 & Sp2 & Q).
    split; [|auto].
    apply no_handle_no_live; [|exact Hw2].
    exact (run_wf es _ m'' W' E2).
Qed.

Example unmount_releases_witness :
  exists m' m'',
    step Unmount running_timed = Some m' /\
    live 0 m' = false /\ timers m' = [] /\ terminate_count 0 m' = 1 /\
    run [CallKeptPostMessage Running (VNum 1); WorkerMessage 0 (VNum 2);
         AdvanceTimers 1000] m' = Some m'' /\
    workerRef m'' = None /\ live 0 m'' = false /\ spawned m'' = 1.
Proof.
  destruct (unmount_releases running_timed) as (m' & E & L & _ & T & K & After).
  - eexists. exact running_timed_reached.
  - reflexivity.
  - discriminate.
  - assert (Em : m' = with_unmounted true (torn_down running_timed)).
    { unfold step in E. lazy in E. inversion E. reflexivity. }
    destruct (run [CallKeptPostMessage Running (VNum 1); WorkerMessage 0 (VNum 2);
                   AdvanceTimers 1000] m') as [m''|] eqn:E2;
      [|subst m'; lazy in E2; discriminate].
    destruct (After _ m'' E2) as (L2 & Hw2 & _ & Sp2 & _).
    exists m', m''. split; [exact E|]. split; [apply L|]. split; [exact T|].
    split; [apply K; subst m'; cbn; lia|].
    split; [exact E2|]. split; [exact Hw2|]. split; [apply L2|].
    rewrite Sp2. subst m'. reflexivity.
Defined.



Lemma postMessage_forwards (status_seen : WorkerStatus) (message : jsval)
    (w : nat) (m : Machine) :
  workerRef m = Some w -> status_seen <> Terminated ->
  exec (postMessage status_seen message) m = Some (log_call (CallPost w message) m).
Proof.
  destruct m as [d e s wr tr dp ds um sp ck sq ts cs]. cbn.
  intros -> G. run_callback.
  destruct status_seen; cbn; try congruence; reflexivity.
Qed.

(** X9.  Messages posted while a handle is in the ref and the status is
    not Terminated reach that handle in the order they were posted, each
    one unchanged, and posting changes nothing else: no state cell, no ref,
    no timer. *)
Theorem posts_in_order (messages : list jsval) (w : nat) (m : Machine) :
  unmounted m = false -> deps m <> None ->
  workerRef m = Some w -> status m <> Terminated ->
  run (map CallPostMessage messages) m =
  Some (with_host (spawned m) (clock m) (timer_seq m) (timers m)
          (calls m ++ map (CallPost w) messages) m).
Proof.
  revert m. induction messages as [|message rest IH]; intros m U D Hw S.
  - cbn. rewrite app_nil_r. destruct m; reflexivity.
  - cbn [map run]. unfold step. rewrite ?U.
    destruct (deps m) eqn:Dm; [|contradiction].
    cbn [useWebworker result_postMessage].
    rewrite (postMessage_forwards (status m) message w m Hw S).
    rewrite (IH (log_call (CallPost w message) m)).
    + destruct m; cbn. rewrite <- app_assoc. reflexivity.
    + destruct m; exact U.
    + destruct m; cbn in *. rewrite Dm. discriminate.
    + destruct m; exact Hw.
    + destruct m; exact S.
Qed.

Example posts_in_order_witness :
  exists m',
    run [CallPostMessage (VNum 1); CallPostMessage (VNum 2);
         CallPostMessage (VNum 3)] running_plain = Some m' /\
    calls m' = [CallSpawn 0 (SrcString "/example.worker.js");
                CallPost 0 (VNum 1); CallPost 0 (VNum 2); CallPost 0 (VNum 3)] /\
    status m' = Running.
Proof.
  eexists. split.
  - apply (posts_in_order [VNum 1; VNum 2; VNum 3] 0 running_plain);
      try reflexivity; discriminate.
  - split; reflexivity.
Defined.

Lemma fire_all_leaves_idle (queue : list Timer) (m m' : Machine) :
  exec (fire_all queue) m = Some m' -> status m' = Idle -> status m = Idle.
Proof.
  revert m. induction queue as [|t rest IH]; intros m E I.
  - inversion E; subst. exact I.
  - cbn [fire_all] in E. apply exec_bind in E. destruct E as (m1 & E1 & E2).
    pose proof (IH m1 E2 I) as I1. clear E2.
    unfold fire, exec, bind, read in E1. cbn in E1.
    destruct (is_pending (timer_id t) m).
    + unfold update in E1. cbn in E1. unfold timeout_callback in E1.
      destruct (negb (status_eqb (status_seen_by_timer t) Success) &&
                negb (status_eqb (status_seen_by_timer t) Error)).
      * match type of E1 with
        | context [bind ?c ?k ?m0] =>
            change (exec (bind c k) m0 = Some m1) in E1
        end.
        apply exec_bind in E1. destruct E1 as (m2 & _ & E3).
        destruct m2. unfold exec in E3. cbn in E3. inversion E3; subst.
        discriminate.
      * cbn in E1. inversion E1; subst. destruct m; exact I1.
    + cbn in E1. inversion E1; subst. exact I1.
Qed.

Lemma step_leaves_idle (e : Event) (m m' : Machine) :
  wf m -> step e m = Some m' -> status m' = Idle -> status m = Idle.
Proof.
  intros W E I. unfold step in E.
  destruct e as [src tmo env|message| |w event_data|w message|ms| |status_seen kept|w err];
    mounted_only E.
  - destruct (deps_changed src tmo m) eqn:C.
    + destruct (commit_cases src tmo env m m' W C E)
        as [[_ ->] | [(_ & failure & _ & ->) | (_ & _ & m2 & -> & S2 & _)]];
        cbn in I.
      * rewrite torn_down_status in I.
        destruct (workerRef m); [discriminate | exact I].
      * discriminate.
      * congruence.
    + unfold exec, commit, bind, read in E. cbn in E. rewrite C in E.
      inversion E; subst. exact I.
  - destruct (deps m); [|discriminate].
    cbn [useWebworker result_postMessage] in E.
    destruct m as [d e s wr tr dp ds um sp ck sq ts cs].
    run_callback.
    destruct wr as [worker|]; [destruct s|]; cbn in *;
      inversion E; subst; cbn in *; congruence.
  - destruct (deps m); [|discriminate]. unfold exec in E.
    cbn [useWebworker result_terminateWorker] in E.
    destruct (workerRef m) as [worker|] eqn:Hw.
    + rewrite (terminateWorker_live m worker Hw) in E. inversion E; subst.
      discriminate.
    + rewrite (terminateWorker_idle m Hw) in E. inversion E; subst. exact I.
  - destruct (installed w m); [|discriminate].
    unfold exec in E. rewrite onmessage_result in E. inversion E; subst.
    discriminate.
  - destruct (installed w m); [|discriminate].
    unfold exec in E. rewrite onerror_result in E. inversion E; subst.
    discriminate.
  - destruct (Z.leb 0 ms); [|discriminate].
    unfold advance in E.
    unfold bind at 1 2 in E. unfold read at 1 2 in E. cbn beta iota in E.
    apply exec_bind in E. destruct E as (m1 & E1 & E2).
    apply (fire_all_leaves_idle _ m m1 E1).
    unfold exec, update in E2. inversion E2; subst. destruct m1; exact I.
  - destruct (deps m); [|discriminate].
    apply exec_bind in E. destruct E as (m1 & E1 & E2).
    assert (I1 : status m1 = Idle).
    { unfold exec, update in E2. inversion E2; subst. destruct m1; exact I. }
    destruct (destructor m).
    + unfold exec in E1. destruct (workerRef m) as [worker|] eqn:Hw.
      * rewrite (terminateWorker_live m worker Hw) in E1. inversion E1; subst.
        discriminate.
      * rewrite (terminateWorker_idle m Hw) in E1. inversion E1; subst. exact I1.
    + inversion E1; subst. exact I1.
  - destruct (deps m); [|discriminate].
    destruct m as [d e s wr tr dp ds um sp ck sq ts cs].
    run_callback.
    destruct wr as [worker|]; [destruct status_seen|]; cbn in *;
      inversion E; subst; cbn in *; congruence.
  - destruct (installed w m && negb (has_message err)); [|discriminate].
    unfold exec in E. rewrite onerror_result in E. inversion E; subst.
    discriminate.
Qed.

(** X10.  Idle is the status before anything happened and only that: once
    the status has left Idle, no sequence of events brings it back. *)
Theorem never_back_to_idle (before after : list Event) (m m' : Machine) :
  run before boot = Some m -> run after m = Some m' ->
  status m <> Idle -> status m' <> Idle.
Proof.
  intros E. pose proof (run_wf before boot m wf_boot E) as W. clear E.
  revert m W. induction after as [|e rest IH]; intros m W E N; cbn in E.
  - inversion E; subst. exact N.
  - destruct (step e m) as [m1|] eqn:S1; [|discriminate].
    apply (IH m1); [eapply step_wf; eauto | exact E |].
    intros I. apply N. exact (step_leaves_idle e m m1 W S1 I).
Qed.

Example never_back_to_idle_witness :
  exists m',
    run [CallTerminateWorker; Render (SrcString "") None Constructs;
         AdvanceTimers 1000] running_plain = Some m' /\
    status m' <> Idle.
Proof.
  destruct (run [CallTerminateWorker; Render (SrcString "") None Constructs;
                 AdvanceTimers 1000] running_plain) as [m'|] eqn:E;
    [|lazy in E; discriminate].
  exists m'. split; [reflexivity|].
  apply (never_back_to_idle _ _ running_plain m' running_plain_reached E).
  discriminate.
Defined.

Lemma scheduled_needs_timeout (status_seen : WorkerStatus) (tmo : option Z)
    (m : Machine) :
  scheduled status_seen tmo m <> [] ->
  exists delay, tmo = Some delay /\ delay <> 0%Z.
Proof.
  unfold scheduled. destruct tmo as [delay|]; [|congruence].
  destruct (Z.eqb_spec delay 0); [congruence|].
  intros _. exists delay. split; [reflexivity | assumption].
Qed.

(** X11.  A timer is pending only while the component is configured with a
    non-empty source and a [timeout] that is a number other than 0: with
    [timeout] absent or 0 no timeout is ever armed, after any sequence of
    events. *)
Theorem timer_needs_timeout (es : list Event) (m : Machine) :
  run es boot = Some m -> timers m <> [] ->
  exists src delay,
    deps m = Some (src, Some delay) /\ delay <> 0%Z /\ source_truthy src = true.
Proof.
  assert (G : forall es m0 m,
             wf m0 ->
             (timers m0 <> [] ->
              exists src delay, deps m0 = Some (src, Some delay) /\
                                delay <> 0%Z /\ source_truthy src = true) ->
             run es m0 = Some m -> timers m <> [] ->
             exists src delay, deps m = Some (src, Some delay) /\
                               delay <> 0%Z /\ source_truthy src = true).
  { clear. induction es as [|e rest IH]; intros m0 m W K E; cbn in E.
    - inversion E; subst. exact K.
    - destruct (step e m0) as [m1|] eqn:S1; [|discriminate].
      apply (IH m1 m); [eapply step_wf; eauto | | exact E].
      intros T1. destruct (reruns_effect e m0) eqn:Re.
      + destruct e as [src tmo env| | | | | | | |]; try discriminate. cbn in Re.
        unfold step in S1. mounted_only S1.
        destruct (commit_cases src tmo env m0 m1 W Re S1)
          as [[_ ->] | [(_ & failure & _ & ->) |
                        (Tr & _ & m2 & -> & _ & _ & _ & T2 & _)]];
          cbn in T1.
        * rewrite (torn_down_no_timer m0 W) in T1. contradiction.
        * rewrite (torn_down_no_timer m0 W) in T1. contradiction.
        * rewrite T2 in T1.
          destruct (scheduled_needs_timeout _ _ _ T1) as (delay & -> & Nz).
          exists src, delay. repeat split; assumption.
      + destruct (step_frame e m0 m1 Re S1) as (D & _ & T).
        rewrite D. apply K. intros T0. apply T1. exact (T T0). }
  intros E. apply (G es boot m wf_boot); [|exact E].
  cbn. congruence.
Qed.

Example timer_needs_timeout_witness :
  exists src delay,
    deps running_timed = Some (src, Some delay) /\ delay <> 0%Z /\
    source_truthy src = true.
Proof.
  apply (timer_needs_timeout _ running_timed running_timed_reached).
  discriminate.
Defined.

(** The text of line 91. *)
Lemma timed_out_is_not_notice : VError "Worker timed out" <> VError notice.
Proof. discriminate. Qed.

Lemma step_keeps_disarmed (e : Event) (m m' : Machine) :
  reruns_effect e m = false -> step e m = Some m' ->
  timers m = [] -> error m <> VError "Worker timed out" ->
  error m' <> VError "Worker timed out".
Proof.
  intros N E T Q. unfold step in E.
  destruct e as [src tmo env|message| |w event_data|w message|ms| |status_seen kept|w err];
    cbn in N; mounted_only E.
  - unfold exec, commit, bind, read in E. cbn in E. rewrite N in E.
    inversion E; subst. exact Q.
  - destruct (deps m); [|discriminate].
    cbn [useWebworker result_postMessage] in E.
    destruct m as [d e s wr tr dp ds um sp ck sq ts cs].
    run_callback.
    destruct wr as [worker|]; [destruct s|]; cbn in *;
      inversion E; subst; cbn; auto; discriminate.
  - destruct (deps m); [|discriminate]. unfold exec in E.
    cbn [useWebworker result_terminateWorker] in E.
    destruct (workerRef m) as [worker|] eqn:Hw.
    + rewrite (terminateWorker_live m worker Hw) in E. inversion E; subst.
      discriminate.
    + rewrite (terminateWorker_idle m Hw) in E. inversion E; subst. exact Q.
  - destruct (installed w m); [|discriminate].
    unfold exec in E. rewrite onmessage_result in E. inversion E; subst.
    discriminate.
  - destruct (installed w m); [|discriminate].
    unfold exec in E. rewrite onerror_result in E. inversion E; subst.
    discriminate.
  - destruct (Z.leb 0 ms); [|discriminate].
    unfold exec in E. rewrite (advance_no_timer ms m T) in E.
    inversion E; subst. destruct m; exact Q.
  - destruct (deps m); [|discriminate].
    apply exec_bind in E. destruct E as (m1 & E1 & E2).
    assert (Q1 : error m1 <> VError "Worker timed out").
    { destruct (destructor m).
      - unfold exec in E1. destruct (workerRef m) as [worker|] eqn:Hw.
        + rewrite (terminateWorker_live m worker Hw) in E1. inversion E1; subst.
          discriminate.
        + rewrite (terminateWorker_idle m Hw) in E1. inversion E1; subst. exact Q.
      - inversion E1; subst. exact Q. }
    unfold exec, update in E2. inversion E2; subst. destruct m1; exact Q1.
  - destruct (deps m); [|discriminate].
    destruct m as [d e s wr tr dp ds um sp ck sq ts cs].
    run_callback.
    destruct wr as [worker|]; [destruct status_seen|]; cbn in *;
      inversion E; subst; cbn; auto; discriminate.
  - destruct (installed w m && negb (has_message err)) eqn:G; [|discriminate].
    apply andb_true_iff in G. destruct G as [_ G].
    unfold exec in E. rewrite onerror_result in E. inversion E; subst.
    cbn. intros ->. discriminate G.
Qed.

(** Without a pending timer and without the effect running again, no timer
    appears and no timeout is reported. *)
Lemma disarmed_stays (es : list Event) (m m' : Machine) :
  timers m = [] -> error m <> VError "Worker timed out" ->
  effect_rests es m = true -> run es m = Some m' ->
  timers m' = [] /\ error m' <> VError "Worker timed out".
Proof.
  revert m. induction es as [|e rest IH]; intros m T Q Re E; cbn in E.
  - inversion E; subst. split; assumption.
  - cbn in Re. apply andb_true_iff in Re. destruct Re as [Re1 Re2].
    apply negb_true_iff in Re1.
    destruct (step e m) as [m1|] eqn:S1; [|discriminate].
    apply (IH m1); [ | |exact Re2 | exact E].
    + exact (proj2 (proj2 (step_frame e m m1 Re1 S1)) T).
    + exact (step_keeps_disarmed e m m1 Re1 S1 T Q).
Qed.

(** X12.  The timeout covers the first response of a cycle only.  Once a
    message has been relayed, for as long as the source and the timeout
    stay the same (the effect does not run again), no timer is ever pending
    and [error] never becomes [Error("Worker timed out")], whatever is
    posted afterwards and however long the worker stays silent. *)
Theorem timeout_covers_first_response_only (w : nat) (event_data : jsval)
    (es : list Event) (m m1 m2 : Machine) :
  reachable m -> step (WorkerMessage w event_data) m = Some m1 ->
  effect_rests es m1 = true -> run es m1 = Some m2 ->
  timers m2 = [] /\ error m2 <> VError "Worker timed out".
Proof.
  intros R E Re E2. pose proof (reachable_wf m R) as W.
  assert (P1 : timers m1 = [] /\ error m1 <> VError "Worker timed out").
  { unfold step in E. mounted_only E.
    destruct (installed w m); [|discriminate].
    unfold exec in E. rewrite onmessage_result in E. inversion E; subst. cbn.
    split; [apply clear_timers_wf; exact W | discriminate]. }
  destruct P1 as [T Q]. exact (disarmed_stays es m1 m2 T Q Re E2).
Qed.

Example timeout_covers_first_response_only_witness :
  exists m2,
    step (WorkerMessage 0 (VNum 1)) running_timed = Some answered_timed /\
    run [CallPostMessage (VNum 5);
         Render (SrcString "/example.worker.js") (Some 100%Z) Constructs;
         AdvanceTimers 1000000] answered_timed = Some m2 /\
    timers m2 = [] /\ error m2 <> VError "Worker timed out".
Proof.
  eexists. split; [reflexivity|]. split; [lazy; reflexivity|].
  apply (timeout_covers_first_response_only 0 (VNum 1)
           [CallPostMessage (VNum 5);
            Render (SrcString "/example.worker.js") (Some 100%Z) Constructs;
            AdvanceTimers 1000000] running_timed answered_timed).
  - eexists. exact running_timed_reached.
  - reflexivity.
  - vm_compute. reflexivity.
  - lazy. reflexivity.
Defined.

(** X13.  A manual termination disarms the timeout: after [terminateWorker]
    found a handle, however much time passes the status stays Terminated
    with [error] null, and the host receives no further call. *)
Theorem terminate_disarms_timeout (m : Machine) (w : nat) (durations : list Z) :
  reachable m -> unmounted m = false -> deps m <> None ->
  workerRef m = Some w ->
  Forall (fun ms => 0 <= ms)%Z durations ->
  exists m1 m2,
    step CallTerminateWorker m = Some m1 /\
    run (map AdvanceTimers durations) m1 = Some m2 /\
    status m2 = Terminated /\ error m2 = VNull /\ data m2 = VNull /\
    calls m2 = calls m1 /\ timers m2 = [].
Proof.
  intros R U D Hw F. pose proof (reachable_wf m R) as W.
  unfold step. rewrite ?U. destruct (deps m); [|contradiction].
  cbn [useWebworker result_terminateWorker]. unfold exec.
  rewrite (terminateWorker_live m w Hw).
  eexists. 
  match goal with |- context [Some ?m1 = Some _] =>
    destruct (quiet_time durations m1) as (m2 & E & Dt & Er & S & _ & C & T)
  end; auto.
  { cbn. apply clear_timers_wf; exact W. }
  exists m2. split; [reflexivity|]. split; [exact E|].
  cbn in *. repeat split; assumption.
Qed.

Example terminate_disarms_timeout_witness :
  exists m1 m2,
    step CallTerminateWorker running_timed = Some m1 /\
    run (map AdvanceTimers [150%Z]) m1 = Some m2 /\
    status m2 = Terminated /\ error m2 = VNull.
Proof.
  destruct (terminate_disarms_timeout running_timed 0 [150%Z])
    as (m1 & m2 & E1 & E2 & S & Er & _); try reflexivity; try discriminate.
  - eexists. exact running_timed_reached.
  - repeat constructor. lia.
  - exists m1, m2. repeat split; assumption.
Defined.

(** * The example worker *)

(** On the safe integers the product is the exact one. *)
Lemma times_two_safe (n : Z) : safe_integer n -> times_two n = Finite (n * 2).
Proof.
  intros [Lo Hi]. unfold MAX_SAFE_INTEGER in *.
  assert (B : (2 ^ 54 < 2 ^ 1024)%Z) by (apply Z.pow_lt_mono_r; lia).
  change (2 ^ 54)%Z with 18014398509481984%Z in B.
  assert (A : (Z.abs (n * 2) < 2 ^ 1024)%Z).
  { apply Z.le_lt_trans with 18014398509481984%Z; [|exact B].
    apply Z.abs_le. lia. }
  apply Z.ltb_lt in A.
  unfold times_two. rewrite A. reflexivity.
Qed.

#[local] Opaque times_two.

Lemma is_string_spec (o : option scalar) (text : string) :
  is_string o text = true <-> o = Some (SStr text).
Proof.
  destruct o as [[n|s]|]; cbn; split; intros H; try discriminate.
  - apply String.eqb_eq in H. subst. reflexivity.
  - inversion H; subst. apply String.eqb_refl.
Qed.

Lemma is_number_spec (o : option scalar) :
  is_number o = true <-> exists n, o = Some (SNum n).
Proof.
  destruct o as [[n|s]|]; cbn; split; intros H; try discriminate;
    try (destruct H; discriminate).
  - exists n. reflexivity.
  - reflexivity.
Qed.

(** Two descriptions of the same message: either they clash, or they name
    the same record or number. *)
Ltac same_message :=
  match goal with
  | Hm : ?m = VObject _, Hm' : ?m = VNum _ |- _ =>
      rewrite Hm in Hm'; discriminate Hm'
  | Hm : ?m = VNum _, Hm' : ?m = VObject _ |- _ =>
      rewrite Hm in Hm'; discriminate Hm'
  | Hm : ?m = VObject _, Hm' : ?m = VObject _ |- _ =>
      rewrite Hm in Hm'; inversion Hm'; subst; clear Hm'
  | Hm : ?m = VNum _, Hm' : ?m = VNum _ |- _ =>
      rewrite Hm in Hm'; inversion Hm'; subst; clear Hm'
  | _ => idtac
  end.

(** The four exclusive situations of a message and the reply in each. *)
Lemma worker_onmessage_cases (messageData : jsval) :
  (exists fields q,
     messageData = VObject fields /\
     get_field "type" fields = Some (SStr "CALCULATE") /\
     get_field "payload" fields = Some (SNum q) /\
     worker_onmessage messageData = ReplyResult (times_two q)) \/
  (exists n,
     messageData = VNum n /\
     worker_onmessage messageData = ReplyNumber (times_two n)) \/
  (exists fields,
     messageData = VObject fields /\
     get_field "type" fields = Some (SStr "ECHO") /\
     worker_onmessage messageData = ReplyEcho (get_field "payload" fields)) \/
  (worker_onmessage messageData = ReplyUnknown messageData /\
   (forall n, messageData <> VNum n) /\
   (forall fields,
      messageData = VObject fields ->
      get_field "type" fields <> Some (SStr "ECHO") /\
      ~ (get_field "type" fields = Some (SStr "CALCULATE") /\
         exists q, get_field "payload" fields = Some (SNum q)))).
Proof.
  unfold worker_onmessage.
  destruct messageData as [|n|s|fields|msg|msg].
  - right. right. right. cbn. repeat split; intros; discriminate.
  - right. left. exists n. cbn. rewrite andb_false_r. cbn. split; reflexivity.
  - right. right. right. cbn. rewrite !andb_false_r. cbn.
    repeat split; intros; discriminate.
  - cbn [js_truthy property typeof_number andb].
    destruct (is_string (get_field "type" fields) "CALCULATE") eqn:TC;
      [destruct (is_number (get_field "payload" fields)) eqn:PN|]; cbn [andb].
    + left. apply is_string_spec in TC. apply is_number_spec in PN.
      destruct PN as [q PQ]. exists fields, q. rewrite PQ. repeat split.
      exact TC.
    + right. right. right. apply is_string_spec in TC.
      replace (is_string (get_field "type" fields) "ECHO") with false
        by (rewrite TC; reflexivity).
      repeat split; intros; try discriminate.
      * inversion H; subst. rewrite TC. discriminate.
      * inversion H; subst. intros [_ [q Hq]]. rewrite Hq in PN. discriminate.
    + destruct (is_string (get_field "type" fields) "ECHO") eqn:TE.
      * right. right. left. apply is_string_spec in TE.
        exists fields. repeat split. exact TE.
      * right. right. right. repeat split; intros; try discriminate.
        -- inversion H; subst. intros Ht. apply is_string_spec in Ht. congruence.
        -- inversion H; subst. intros [Ht _]. apply is_string_spec in Ht. congruence.
  - right. right. right. cbn. repeat split; intros; discriminate.
  - right. right. right. cbn. repeat split; intros; discriminate.
Qed.

(** X14.  How the example worker answers, read backwards from the reply.
    The reply is a RESULT record exactly for a record whose [type] is
    "CALCULATE" and whose [payload] is a number, and it carries the
    script's product of that number and 2: twice the number, or an infinity
    when that leaves the doubles; it is a bare number exactly for a bare
    number, the same product of it; it is an ECHO_BACK record exactly for a
    record whose [type] is "ECHO", carrying that record's [payload]
    (undefined if it has none); in every other case it is the
    unknown-format error, whose [details] are the message as received. *)
Theorem worker_reply_classification (messageData : jsval) :
  (forall p,
     worker_onmessage messageData = ReplyResult p <->
     exists fields q,
       messageData = VObject fields /\
       get_field "type" fields = Some (SStr "CALCULATE") /\
       get_field "payload" fields = Some (SNum q) /\ p = times_two q) /\
  (forall k,
     worker_onmessage messageData = ReplyNumber k <->
     exists n, messageData = VNum n /\ k = times_two n) /\
  (forall p,
     worker_onmessage messageData = ReplyEcho p <->
     exists fields,
       messageData = VObject fields /\
       get_field "type" fields = Some (SStr "ECHO") /\
       p = get_field "payload" fields) /\
  (forall d,
     worker_onmessage messageData = ReplyUnknown d <->
     d = messageData /\
     (forall n, messageData <> VNum n) /\
     (forall fields,
        messageData = VObject fields ->
        get_field "type" fields <> Some (SStr "ECHO") /\
        ~ (get_field "type" fields = Some (SStr "CALCULATE") /\
           exists q, get_field "payload" fields = Some (SNum q)))).
Proof.
  pose proof (worker_onmessage_cases messageData) as C.
  split; [intros p; split; intros H |
    split; [intros k; split; intros H |
      split; [intros p; split; intros H | intros d; split; intros H]]].
  - destruct C as [(f & q & Hm & Ht & Hp & R) | [(n & Hm & R) |
      [(f & Hm & Ht & R) | (R & _)]]]; rewrite R in H; try discriminate.
    inversion H; subst. exists f, q. repeat split; assumption.
  - destruct H as (f & q & Hm & Ht & Hp & ->).
    destruct C as [(f' & q' & Hm' & _ & Hp' & R) | [(n & Hm' & _) |
      [(f' & Hm' & Ht' & _) | (_ & _ & N)]]]; same_message.
    + rewrite Hp in Hp'. inversion Hp'; subst. exact R.
    + congruence.
    + destruct (N f Hm) as [_ N']. exfalso. apply N'.
      split; [exact Ht | exists q; exact Hp].
  - destruct C as [(f & q & Hm & Ht & Hp & R) | [(n & Hm & R) |
      [(f & Hm & Ht & R) | (R & _)]]]; rewrite R in H; try discriminate.
    inversion H; subst. exists n. split; reflexivity.
  - destruct H as (n & Hm & ->).
    destruct C as [(f' & q' & Hm' & _) | [(n' & Hm' & R) |
      [(f' & Hm' & _) | (_ & N & _)]]]; same_message.
    + exact R.
    + contradiction (N n Hm).
  - destruct C as [(f & q & Hm & Ht & Hp & R) | [(n & Hm & R) |
      [(f & Hm & Ht & R) | (R & _)]]]; rewrite R in H; try discriminate.
    inversion H; subst. exists f. repeat split; assumption.
  - destruct H as (f & Hm & Ht & ->).
    destruct C as [(f' & q' & Hm' & Ht' & _) | [(n' & Hm' & _) |
      [(f' & Hm' & _ & R) | (_ & _ & N)]]]; same_message.
    + congruence.
    + exact R.
    + destruct (N f Hm) as [N' _]. contradiction.
  - destruct C as [(f & q & Hm & Ht & Hp & R) | [(n & Hm & R) |
      [(f & Hm & Ht & R) | (R & N1 & N2)]]]; rewrite R in H; try discriminate.
    inversion H; subst. split; [reflexivity | split; assumption].
  - destruct H as (-> & N1 & N2).
    destruct C as [(f & q & Hm & Ht & Hp & _) | [(n & Hm & _) |
      [(f & Hm & Ht & _) | (R & _)]]].
    + destruct (N2 f Hm) as [_ N]. exfalso. apply N.
      split; [exact Ht | exists q; exact Hp].
    + contradiction (N1 n Hm).
    + destruct (N2 f Hm) as [N _]. contradiction.
    + exact R.
Qed.

Example worker_reply_classification_witness :
  worker_onmessage (VNum 21) = ReplyNumber (Finite 42) /\
  worker_onmessage (VNum (2 ^ 1023)) = ReplyNumber (Infinite false) /\
  worker_onmessage (VNum (- 2 ^ 1023)) = ReplyNumber (Infinite true) /\
  worker_onmessage (VObject [("type", SStr "CALCULATE"); ("payload", SNum 21)])
  = ReplyResult (Finite 42).
Proof.
  split; [|split; [|split]].
  - apply (proj1 (proj2 (worker_reply_classification (VNum 21)))).
    exists 21%Z. split; [reflexivity | vm_compute; reflexivity].
  - apply (proj1 (proj2 (worker_reply_classification (VNum (2 ^ 1023))))).
    exists (2 ^ 1023)%Z. split; [reflexivity | vm_compute; reflexivity].
  - apply (proj1 (proj2 (worker_reply_classification (VNum (- 2 ^ 1023))))).
    exists (- 2 ^ 1023)%Z. split; [reflexivity | vm_compute; reflexivity].
  - apply (proj1 (worker_reply_classification
                    (VObject [("type", SStr "CALCULATE"); ("payload", SNum 21)]))).
    exists [("type", SStr "CALCULATE"); ("payload", SNum 21)], 21%Z.
    repeat split; vm_compute; reflexivity.
Defined.

(** X15.  A request to calculate needs a number: a record whose [type] is
    "CALCULATE" but whose [payload] is missing or is a string is not
    computed (nor is the string converted); the worker answers with the
    unknown-format error and hands the request back in [details]. *)
Theorem calculate_needs_number (fields : list (string * scalar)) :
  get_field "type" fields = Some (SStr "CALCULATE") ->
  (forall q, get_field "payload" fields <> Some (SNum q)) ->
  worker_onmessage (VObject fields) = ReplyUnknown (VObject fields).
Proof.
  intros Ht Hp. unfold worker_onmessage. cbn [js_truthy property typeof_number andb].
  rewrite Ht. cbn [is_string].
  replace (is_number (get_field "payload" fields)) with false.
  - reflexivity.
  - destruct (get_field "payload" fields) as [[q|s]|]; try reflexivity.
    contradiction (Hp q eq_refl).
Qed.

Example calculate_needs_number_witness :
  worker_onmessage (VObject [("type", SStr "CALCULATE"); ("payload", SStr "21")])
  = ReplyUnknown (VObject [("type", SStr "CALCULATE"); ("payload", SStr "21")]) /\
  worker_onmessage (VObject [("type", SStr "CALCULATE")])
  = ReplyUnknown (VObject [("type", SStr "CALCULATE")]).
Proof.
  split; apply calculate_needs_number; try reflexivity; intros q; discriminate.
Defined.

(** * The demonstration *)

(** ** The component as a user of the hook *)

Lemma postMessage_returns (status_seen : WorkerStatus) (message : jsval)
    (m : Machine) :
  exists m', postMessage status_seen message m = (Normal tt, m').
Proof.
  destruct m as [d e s wr tr dp ds um sp ck sq ts cs]. run_callback.
  destruct wr as [w|]; [destruct status_seen|]; cbn; eexists; reflexivity.
Qed.

Lemma on_screen_spec (m : Machine) :
  on_screen m = true <-> unmounted m = false /\ deps m <> None.
Proof.
  unfold on_screen. destruct (unmounted m), (deps m); cbn; split;
    try discriminate; try (intros [A B]; congruence).
  intros _. split; [reflexivity | discriminate].
Qed.

(** A click on the send button is nothing or a call of the hook's
    [postMessage] with the number in the input. *)
Lemma click_send_cases (a : AppState) :
  (send_disabled (status (hook a)) = true /\ click_send a = a) \/
  (send_disabled (status (hook a)) = false /\
   exists m',
     exec (postMessage (status (hook a)) (VNum (inputValue a))) (hook a) = Some m' /\
     click_send a =
     mkApp m' (inputValue a) (ui a ++ [UILog "Sending to worker:" (inputValue a)])).
Proof.
  unfold click_send. cbn [useWebworker result_status].
  destruct (send_disabled (status (hook a))) eqn:Dis; [left; auto|].
  right. split; [reflexivity|].
  unfold sendMessageToWorker. cbn [useWebworker result_status result_postMessage].
  destruct (postMessage_returns (status (hook a)) (VNum (inputValue a)) (hook a))
    as [m' P].
  exists m'. unfold exec. rewrite P. split; [reflexivity|].
  unfold send_disabled in Dis. apply orb_false_iff in Dis. destruct Dis as [_ T].
  rewrite T. reflexivity.
Qed.

Lemma click_terminate_cases (a : AppState) :
  (terminate_disabled (status (hook a)) = true /\ click_terminate a = a) \/
  (terminate_disabled (status (hook a)) = false /\
   exists m',
     exec terminateWorker (hook a) = Some m' /\ click_terminate a = with_hook a m').
Proof.
  unfold click_terminate. cbn [useWebworker result_status result_terminateWorker].
  destruct (terminate_disabled (status (hook a))) eqn:Dis; [left; auto|].
  right. split; [reflexivity|].
  destruct (terminateWorker_returns (hook a)) as (m' & P & _).
  exists m'. unfold exec. rewrite P. split; reflexivity.
Qed.

(** Every event of the demonstration leaves the hook alone or is one event
    of the hook, a render bringing the arguments of lines 13-14. *)
Lemma app_step_hook (ev : AppEvent) (a a' : AppState) :
  app_step ev a = Some a' ->
  hook a' = hook a \/
  exists e,
    step e (hook a) = Some (hook a') /\ app_renders [e] = true /\
    on_live e (hook a) = app_on_live ev a.
Proof.
  destruct ev as [env| | |value|w event_data|w message|ms| |w err]; cbn [app_step];
    intros E.
  - destruct (step (Render app_source app_timeout env) (hook a)) as [m'|] eqn:S1;
      [|discriminate].
    inversion E; subst. right. eexists. split; [exact S1|]. split; reflexivity.
  - destruct (on_screen (hook a)) eqn:O; [|discriminate]. inversion E; subst.
    apply on_screen_spec in O. destruct O as [U D].
    destruct (click_send_cases a) as [[_ ->] | (_ & m' & P & ->)]; [left; reflexivity|].
    right. exists (CallPostMessage (VNum (inputValue a))).
    split; [|split; reflexivity].
    unfold step. rewrite ?U. destruct (deps (hook a)); [exact P | contradiction].
  - destruct (on_screen (hook a)) eqn:O; [|discriminate]. inversion E; subst.
    apply on_screen_spec in O. destruct O as [U D].
    destruct (click_terminate_cases a) as [[_ ->] | (_ & m' & P & ->)];
      [left; reflexivity|].
    right. exists CallTerminateWorker. split; [|split; reflexivity].
    unfold step. rewrite ?U. destruct (deps (hook a)); [exact P | contradiction].
  - destruct (on_screen (hook a)); [|discriminate]. inversion E; subst.
    left. reflexivity.
  - destruct (step (WorkerMessage w event_data) (hook a)) as [m'|] eqn:S1;
      [|discriminate].
    inversion E; subst. right. eexists. split; [exact S1|]. split; reflexivity.
  - destruct (step (WorkerError w message) (hook a)) as [m'|] eqn:S1;
      [|discriminate].
    inversion E; subst. right. eexists. split; [exact S1|]. split; reflexivity.
  - destruct (step (AdvanceTimers ms) (hook a)) as [m'|] eqn:S1; [|discriminate].
    inversion E; subst. right. eexists. split; [exact S1|]. split; reflexivity.
  - destruct (step Unmount (hook a)) as [m'|] eqn:S1; [|discriminate].
    inversion E; subst. right. eexists. split; [exact S1|]. split; reflexivity.
  - destruct (step (WorkerErrorOther w err) (hook a)) as [m'|] eqn:S1;
      [|discriminate].
    inversion E; subst. right. eexists. split; [exact S1|]. split; reflexivity.
Qed.

Lemma app_run_hook (evs : list AppEvent) (a a' : AppState) :
  app_run evs a = Some a' ->
  exists es, run es (hook a) = Some (hook a') /\ app_renders es = true.
Proof.
  revert a. induction evs as [|ev rest IH]; intros a E; cbn in E.
  - inversion E; subst. exists []. split; reflexivity.
  - destruct (app_step ev a) as [a1|] eqn:S1; [|discriminate].
    destruct (IH a1 E) as (es & R & A).
    destruct (app_step_hook ev a a1 S1) as [Same | (e & Se & Ae & _)].
    + exists es. rewrite <- Same. split; assumption.
    + exists (e :: es). split.
      * cbn [run]. rewrite Se. exact R.
      * unfold app_renders in *. cbn [forallb] in *.
        apply andb_true_iff in Ae. destruct Ae as [Ae _]. rewrite Ae. exact A.
Qed.

Lemma app_reachable_hook (a : AppState) : app_reachable a -> reachable (hook a).
Proof.
  intros [evs E]. destruct (app_run_hook evs app_boot a E) as (es & R & _).
  exists es. exact R.
Qed.

Lemma app_step_ui (ev : AppEvent) (a a' : AppState) :
  app_step ev a = Some a' ->
  ui a' = ui a \/ ui a' = ui a ++ [UILog "Sending to worker:" (inputValue a)].
Proof.
  destruct ev as [env| | |value|w event_data|w message|ms| |w err]; cbn [app_step];
    intros E;
    try (match type of E with
         | option_map _ ?x = _ => destruct x; [|discriminate]
         end; inversion E; subst; left; reflexivity).
  - destruct (on_screen (hook a)); [|discriminate]. inversion E; subst.
    destruct (click_send_cases a) as [[_ ->] | (_ & m' & _ & ->)]; auto.
  - destruct (on_screen (hook a)); [|discriminate]. inversion E; subst.
    destruct (click_terminate_cases a) as [[_ ->] | (_ & m' & _ & ->)]; auto.
  - destruct (on_screen (hook a)); [|discriminate]. inversion E; subst. auto.
Qed.

Example demo_ready_reached :
  app_run [AppRender Constructs; AppMessage 0 worker_ready] app_boot = Some demo_ready.
Proof. reflexivity. Qed.

Example demo_timed_out_reached :
  app_run [AppRender Constructs; AppWait 5000] app_boot = Some demo_timed_out.
Proof. reflexivity. Qed.

(** X16.  The alert of line 23 is never shown.  The send button is the
    only caller of [sendMessageToWorker] and it is disabled while the
    status is Terminated, so whatever happens to the demonstration, all it
    ever asks of the browser itself is the console line of line 26. *)
Theorem send_button_never_alerts (evs : list AppEvent) (a : AppState) :
  app_run evs app_boot = Some a ->
  Forall (fun c => exists n, c = UILog "Sending to worker:" n) (ui a).
Proof.
  assert (G : forall evs a0 a,
             Forall (fun c => exists n, c = UILog "Sending to worker:" n) (ui a0) ->
             app_run evs a0 = Some a ->
             Forall (fun c => exists n, c = UILog "Sending to worker:" n) (ui a)).
  { clear. induction evs as [|ev rest IH]; intros a0 a F E; cbn in E.
    - inversion E; subst. exact F.
    - destruct (app_step ev a0) as [a1|] eqn:S1; [|discriminate].
      apply (IH a1 a); [|exact E].
      destruct (app_step_ui ev a0 a1 S1) as [-> | ->]; [exact F|].
      apply Forall_app. split; [exact F|].
      constructor; [eexists; reflexivity | constructor]. }
  intros E. apply (G evs app_boot a); [constructor | exact E].
Qed.

Example send_button_never_alerts_witness :
  Forall (fun c => exists n, c = UILog "Sending to worker:" n)
    (ui (mkApp (log_call (CallPost 0 (VNum 7)) (hook demo_ready)) 7
           [UILog "Sending to worker:" 7])).
Proof.
  apply (send_button_never_alerts
           [AppRender Constructs; AppMessage 0 worker_ready; ChangeInput 7;
            ClickSend]).
  reflexivity.
Defined.

(** X17.  One round of the demonstration, for a safe integer in the
    input.  With a handle in the ref and the send button enabled, a click
    posts the number in the input to that handle and changes nothing else
    of the hook: the status is not set back to Running, so the result of
    the previous round stays on display.  The example worker answers the
    number with twice the number, and when that answer is relayed it is
    what [data] holds, with the status Success. *)
Theorem demo_round_trip (a : AppState) (w : nat) :
  app_reachable a -> on_screen (hook a) = true ->
  workerRef (hook a) = Some w -> send_disabled (status (hook a)) = false ->
  safe_integer (inputValue a) ->
  exists a1 a2,
    app_step ClickSend a = Some a1 /\
    calls (hook a1) = calls (hook a) ++ [CallPost w (VNum (inputValue a))] /\
    data (hook a1) = data (hook a) /\ error (hook a1) = error (hook a) /\
    status (hook a1) = status (hook a) /\
    workerRef (hook a1) = Some w /\ timers (hook a1) = timers (hook a) /\
    ui a1 = ui a ++ [UILog "Sending to worker:" (inputValue a)] /\
    worker_onmessage (VNum (inputValue a))
    = ReplyNumber (Finite (inputValue a * 2)) /\
    app_step (AppMessage w (VNum (inputValue a * 2))) a1 = Some a2 /\
    data (hook a2) = VNum (inputValue a * 2) /\
    status (hook a2) = Success /\ error (hook a2) = VNull.
Proof.
  intros R O Hw Dis Safe.
  pose proof (reachable_wf (hook a) (app_reachable_hook a R)) as W.
  destruct (wf_ref_live (hook a) W w Hw) as [Lt _].
  pose proof O as O'. apply on_screen_spec in O'. destruct O' as [U D].
  assert (NT : status (hook a) <> Terminated).
  { intros T. rewrite T in Dis. discriminate. }
  destruct (click_send_cases a) as [[Dis' _] | (_ & m' & P & C)]; [congruence|].
  rewrite (postMessage_forwards (status (hook a)) (VNum (inputValue a)) w (hook a) Hw NT)
    in P.
  inversion P; subst m'; clear P.
  eexists. eexists. split; [cbn [app_step]; rewrite O; rewrite C; reflexivity|].
  cbn [hook ui].
  split; [destruct (hook a); reflexivity|].
  split; [destruct (hook a); reflexivity|].
  split; [destruct (hook a); reflexivity|].
  split; [destruct (hook a); reflexivity|].
  split; [destruct (hook a); exact Hw|].
  split; [destruct (hook a); reflexivity|].
  split; [reflexivity|].
  split.
  { unfold worker_onmessage. cbn [js_truthy property typeof_number value_of is_string].
    rewrite andb_false_r. cbn [andb]. rewrite (times_two_safe _ Safe). reflexivity. }
  cbn [app_step hook]. unfold step.
  replace (installed w (log_call (CallPost w (VNum (inputValue a))) (hook a)))
    with true
    by (symmetry; unfold installed; destruct (hook a); cbn in *;
        apply Nat.ltb_lt; exact Lt).
  unfold exec. rewrite onmessage_result. cbn.
  repeat split; reflexivity.
Qed.

Example demo_round_trip_witness :
  exists a1 a2,
    app_step ClickSend demo_ready = Some a1 /\
    calls (hook a1) = calls (hook demo_ready) ++ [CallPost 0 (VNum 5)] /\
    status (hook a1) = Success /\ data (hook a1) = worker_ready /\
    worker_onmessage (VNum 5) = ReplyNumber (Finite 10) /\
    app_step (AppMessage 0 (VNum 10)) a1 = Some a2 /\
    data (hook a2) = VNum 10 /\ status (hook a2) = Success.
Proof.
  destruct (demo_round_trip demo_ready 0)
    as (a1 & a2 & E1 & C1 & D1 & _ & S1 & _ & _ & _ & Wk & E2 & D2 & S2 & _);
    try reflexivity.
  - eexists. exact demo_ready_reached.
  - unfold safe_integer, MAX_SAFE_INTEGER. cbn. lia.
  - exists a1, a2. repeat split; assumption.
Defined.

(** X18.  Sending without a worker.  When no handle is in the ref and the
    send button is enabled, as it is in the Error status a timeout leaves,
    a click posts nothing: the component writes its console line as if it
    sent, the hook warns, and the error on display is replaced by the
    notice of line 114 with the status Error. *)
Theorem send_click_without_worker (a : AppState) :
  on_screen (hook a) = true -> workerRef (hook a) = None ->
  send_disabled (status (hook a)) = false ->
  app_step ClickSend a =
  Some (mkApp
          (with_status Error
             (with_error (VError notice) (log_call (CallWarn notice) (hook a))))
          (inputValue a)
          (ui a ++ [UILog "Sending to worker:" (inputValue a)])).
Proof.
  intros O Hw Dis. cbn [app_step]. rewrite O.
  destruct (click_send_cases a) as [[Dis' _] | (_ & m' & P & ->)]; [congruence|].
  unfold exec in P.
  rewrite (postMessage_fails (status (hook a)) (VNum (inputValue a)) (hook a) Hw) in P.
  inversion P; subst. reflexivity.
Qed.

Example send_click_without_worker_witness :
  exists a1,
    app_step ClickSend demo_timed_out = Some a1 /\
    error (hook a1) = VError notice /\ status (hook a1) = Error /\
    calls (hook a1) = calls (hook demo_timed_out) ++ [CallWarn notice] /\
    ui a1 = [UILog "Sending to worker:" 5].
Proof.
  eexists. split.
  - apply (send_click_without_worker demo_timed_out); reflexivity.
  - repeat split; reflexivity.
Defined.

(** ** The arguments never change *)

Lemma app_renders_props (src : WorkerSource) (tmo : option Z) :
  source_is app_source src && timeout_is app_timeout tmo = true ->
  src = app_source /\ tmo = app_timeout.
Proof.
  intros H. apply andb_true_iff in H. destruct H as [A B].
  unfold app_source in *. unfold app_timeout in *.
  destruct src as [|s|r h|r]; try discriminate A.
  destruct tmo as [t|]; try discriminate B.
  unfold source_is in A. unfold timeout_is in B.
  apply String.eqb_eq in A. apply Z.eqb_eq in B. subst. split; reflexivity.
Qed.

Lemma step_demo_deps (e : Event) (m m' : Machine) :
  wf m -> demo_deps m -> app_renders [e] = true -> step e m = Some m' ->
  demo_deps m'.
Proof.
  intros W I A E.
  destruct e as [src tmo env|message| |w event_data|w message|ms| |status_seen kept|w err].
  - cbn in A. rewrite andb_true_r in A.
    destruct (app_renders_props src tmo A) as [-> ->].
    unfold step in E. mounted_only E.
    destruct (deps_changed app_source app_timeout m) eqn:C.
    + right.
      assert (S0 : spawned m = 0).
      { destruct I as [(_ & S0 & _) | (D & _)]; [exact S0|].
        unfold deps_changed in C. rewrite D in C.
        rewrite source_is_refl, timeout_is_refl in C. discriminate. }
      destruct (commit_cases app_source app_timeout env m m' W C E)
        as [(_ & ->) | [(_ & failure & _ & ->) | (_ & _ & m2 & -> & _ & _ & S2 & _)]];
        cbn; rewrite ?torn_down_spawned; split; try reflexivity; lia.
    + unfold exec, commit, bind, read in E. cbn in E. rewrite C in E.
      inversion E; subst. exact I.
  - pose proof (step_frame (CallPostMessage message) m m' eq_refl E) as (D & S & _).
    destruct I as [(D0 & _) | (D1 & S1)].
    + unfold step in E. mounted_only E.
      rewrite D0 in E. discriminate.
    + right. split; congruence.
  - pose proof (step_frame CallTerminateWorker m m' eq_refl E) as (D & S & _).
    destruct I as [(D0 & _) | (D1 & S1)].
    + unfold step in E. mounted_only E.
      rewrite D0 in E. discriminate.
    + right. split; congruence.
  - pose proof (step_frame (WorkerMessage w event_data) m m' eq_refl E) as (D & S & _).
    destruct I as [(_ & S0 & _) | (D1 & S1)].
    + unfold step in E. mounted_only E.
      unfold installed in E. rewrite S0 in E. discriminate.
    + right. split; congruence.
  - pose proof (step_frame (WorkerError w message) m m' eq_refl E) as (D & S & _).
    destruct I as [(_ & S0 & _) | (D1 & S1)].
    + unfold step in E. mounted_only E.
      unfold installed in E. rewrite S0 in E. discriminate.
    + right. split; congruence.
  - pose proof (step_frame (AdvanceTimers ms) m m' eq_refl E) as (D & S & _).
    destruct I as [(D0 & S0 & I0) | (D1 & S1)].
    + left. unfold step in E. mounted_only E.
      destruct (Z.leb 0 ms); [|discriminate].
      assert (T : timers m = []).
      { destruct (wf_timers m W) as [T | (t & _ & _ & _ & N)]; [exact T|].
        destruct (wf_idle m W I0) as (_ & _ & N'). contradiction. }
      unfold exec in E. rewrite (advance_no_timer ms m T) in E.
      inversion E; subst. destruct m; cbn in *. repeat split; assumption.
    + right. split; congruence.
  - pose proof (step_frame Unmount m m' eq_refl E) as (D & S & _).
    destruct I as [(D0 & _) | (D1 & S1)].
    + unfold step in E. mounted_only E.
      rewrite D0 in E. discriminate.
    + right. split; congruence.
  - pose proof (step_frame (CallKeptPostMessage status_seen kept) m m' eq_refl E)
      as (D & S & _).
    destruct I as [(D0 & _) | (D1 & S1)].
    + unfold step in E. rewrite D0 in E. discriminate.
    + right. split; congruence.
  - pose proof (step_frame (WorkerErrorOther w err) m m' eq_refl E) as (D & S & _).
    destruct I as [(_ & S0 & _) | (D1 & S1)].
    + unfold step in E. unfold installed in E. rewrite S0 in E. discriminate.
    + right. split; congruence.
Qed.

Lemma run_demo_deps (es : list Event) (m m' : Machine) :
  wf m -> demo_deps m -> app_renders es = true -> run es m = Some m' ->
  demo_deps m'.
Proof.
  revert m. induction es as [|e rest IH]; intros m W I A E; cbn in E.
  - inversion E; subst. exact I.
  - destruct (step e m) as [m1|] eqn:S1; [|discriminate].
    unfold app_renders in A. cbn [forallb] in A.
    apply andb_true_iff in A. destruct A as [A1 A2].
    apply (IH m1); [exact (step_wf e m m1 W S1) | | exact A2 | exact E].
    apply (step_demo_deps e m m1 W I); [|exact S1].
    unfold app_renders. cbn [forallb]. rewrite A1. reflexivity.
Qed.

Lemma app_reachable_deps (a : AppState) : app_reachable a -> demo_deps (hook a).
Proof.
  intros [evs E]. destruct (app_run_hook evs app_boot a E) as (es & R & A).
  apply (run_demo_deps es boot (hook a) wf_boot); [|exact A|exact R].
  left. repeat split; reflexivity.
Qed.

(** With the arguments of lines 13-14 in the dependencies, no event the
    demonstration brings makes the effect run again. *)
Lemma app_renders_rest (es : list Event) (m : Machine) :
  deps m = Some (app_source, app_timeout) -> app_renders es = true ->
  effect_rests es m = true.
Proof.
  revert m. induction es as [|e rest IH]; intros m D A; [reflexivity|].
  unfold app_renders in A. cbn [forallb] in A.
  apply andb_true_iff in A. destruct A as [A1 A2].
  assert (N : reruns_effect e m = false).
  { destruct e; try reflexivity. cbn. unfold deps_changed. rewrite D.
    rewrite A1. reflexivity. }
  cbn [effect_rests]. rewrite N. cbn.
  destruct (step e m) as [m1|] eqn:S1; [|reflexivity].
  apply IH; [|exact A2].
  destruct (step_frame e m m1 N S1) as (D1 & _). congruence.
Qed.

(** X19.  The demonstration constructs at most one worker.  Its arguments
    never change, so the effect runs on the first commit only: after a
    timeout, an error or a click on the terminate button no event brings a
    second worker. *)
Theorem demo_constructs_once (evs : list AppEvent) (a : AppState) :
  app_run evs app_boot = Some a ->
  spawned (hook a) <= 1 /\
  forall w, installed w (hook a) = true -> w = 0.
Proof.
  intros E.
  assert (S1 : spawned (hook a) <= 1).
  { destruct (app_reachable_deps a (ex_intro _ evs E)) as [(_ & S0 & _) | (_ & S1)]; lia. }
  split; [exact S1|].
  intros w I. unfold installed in I. apply Nat.ltb_lt in I. lia.
Qed.

Example demo_constructs_once_witness :
  spawned (hook demo_timed_out) <= 1 /\
  forall w, installed w (hook demo_timed_out) = true -> w = 0.
Proof.
  apply (demo_constructs_once [AppRender Constructs; AppWait 5000]).
  reflexivity.
Defined.

(** X20.  The timeout of the demonstration guards the start only.  Once any
    message of the worker has been relayed (the script posts WORKER_READY
    as soon as it has loaded) no timer is pending ever again and [error]
    never becomes [Error("Worker timed out")]: a calculation that is sent
    afterwards and never answered is never timed out. *)
Theorem demo_timeout_guards_start_only (w : nat) (event_data : jsval)
    (evs : list AppEvent) (a a1 a2 : AppState) :
  app_reachable a -> app_step (AppMessage w event_data) a = Some a1 ->
  app_run evs a1 = Some a2 ->
  timers (hook a2) = [] /\ error (hook a2) <> VError "Worker timed out".
Proof.
  intros R E1 E2.
  pose proof (reachable_wf (hook a) (app_reachable_hook a R)) as W.
  pose proof (app_reachable_deps a R) as I.
  cbn [app_step] in E1.
  destruct (step (WorkerMessage w event_data) (hook a)) as [m1|] eqn:S1;
    [|discriminate].
  inversion E1; subst a1; clear E1.
  destruct (app_run_hook evs _ a2 E2) as (es & Rn & A).
  cbn [with_hook hook] in Rn.
  unfold step in S1. mounted_only S1.
  destruct (installed w (hook a)) eqn:In; [|discriminate].
  unfold exec in S1. rewrite onmessage_result in S1. inversion S1; subst m1; clear S1.
  eapply disarmed_stays; [ | | |exact Rn].
  - cbn. apply clear_timers_wf. exact W.
  - cbn. discriminate.
  - apply app_renders_rest; [|exact A]. cbn.
    destruct I as [(_ & S0 & _) | (D & _)]; [|exact D].
    unfold installed in In. rewrite S0 in In. discriminate.
Qed.

Example demo_timeout_guards_start_only_witness :
  exists a2,
    app_run [ClickSend; AppWait 3600000] demo_ready = Some a2 /\
    status (hook a2) = Success /\
    timers (hook a2) = [] /\ error (hook a2) <> VError "Worker timed out".
Proof.
  eexists. split; [reflexivity|]. split; [reflexivity|].
  apply (demo_timeout_guards_start_only 0 worker_ready [ClickSend; AppWait 3600000]
           demo_mounted demo_ready).
  - exists [AppRender Constructs]. reflexivity.
  - reflexivity.
  - reflexivity.
Defined.

(** ** After a termination *)

Lemma app_step_wf (ev : AppEvent) (a a' : AppState) :
  wf (hook a) -> app_step ev a = Some a' -> wf (hook a').
Proof.
  intros W E. destruct (app_step_hook ev a a' E) as [-> | (e & S & _)];
    [exact W | exact (step_wf e (hook a) (hook a') W S)].
Qed.

Lemma commit_same (src : WorkerSource) (tmo : option Z) (env : Construction)
    (m : Machine) :
  deps m = Some (src, tmo) -> exec (commit src tmo env) m = Some m.
Proof.
  intros D. unfold exec, commit, bind, read. cbn. unfold deps_changed.
  rewrite D, source_is_refl, timeout_is_refl. reflexivity.
Qed.

Lemma terminated_step (ev : AppEvent) (a a' : AppState) :
  wf (hook a) -> status (hook a) = Terminated ->
  deps (hook a) = Some (app_source, app_timeout) ->
  app_on_live ev a = true -> app_step ev a = Some a' ->
  status (hook a') = Terminated /\
  deps (hook a') = Some (app_source, app_timeout) /\
  calls (hook a') = calls (hook a) /\ ui a' = ui a.
Proof.
  intros W S D L E.
  destruct (wf_terminated (hook a) W S) as (_ & _ & Hw).
  assert (T : timers (hook a) = []).
  { destruct (wf_timers (hook a) W) as [T | (t & _ & _ & _ & N)];
      [exact T | contradiction]. }
  destruct ev as [env| | |value|w event_data|w message|ms| |w err]; cbn [app_step] in E;
    cbn [app_on_live] in L;
    try (rewrite (no_handle_no_live (hook a) W Hw w) in L; discriminate).
  - unfold step in E. mounted_only E.
    rewrite (commit_same app_source app_timeout env (hook a) D) in E.
    inversion E; subst. cbn. auto.
  - destruct (on_screen (hook a)); [|discriminate]. inversion E; subst.
    destruct (click_send_cases a) as [[_ ->] | (Dis & _)]; [auto|].
    rewrite S in Dis. discriminate.
  - destruct (on_screen (hook a)); [|discriminate]. inversion E; subst.
    destruct (click_terminate_cases a) as [[_ ->] | (Dis & _)]; [auto|].
    rewrite S in Dis. discriminate.
  - destruct (on_screen (hook a)); [|discriminate]. inversion E; subst.
    cbn. auto.
  - unfold step in E. mounted_only E.
    destruct (Z.leb 0 ms); [|discriminate].
    unfold exec in E. rewrite (advance_no_timer ms (hook a) T) in E.
    inversion E; subst. cbn. destruct (hook a); cbn in *. auto.
  - unfold step in E. mounted_only E.
    rewrite D in E. unfold exec, bind in E.
    replace ((if destructor (hook a) then terminateWorker else ret tt) (hook a))
      with (Normal tt, hook a) in E
      by (destruct (destructor (hook a));
          [rewrite (terminateWorker_idle (hook a) Hw)|]; reflexivity).
    unfold update in E. inversion E; subst. cbn. destruct (hook a); cbn in *. auto.
Qed.

(** X21.  In the demonstration a termination is final.  Once the status is
    Terminated, with a host that dispatches on live workers only, whatever
    is clicked or typed, however often the component renders and however
    much time passes, the status stays Terminated with [data] and [error]
    null, the hook asks nothing more of the host and the component nothing
    of the browser: only a reload brings a worker back. *)
Theorem demo_terminated_is_final (evs : list AppEvent) (a a' : AppState) :
  app_reachable a -> status (hook a) = Terminated ->
  app_dispatches_live evs a = true -> app_run evs a = Some a' ->
  status (hook a') = Terminated /\
  data (hook a') = VNull /\ error (hook a') = VNull /\
  workerRef (hook a') = None /\
  calls (hook a') = calls (hook a) /\ ui a' = ui a.
Proof.
  intros R S L E.
  pose proof (reachable_wf (hook a) (app_reachable_hook a R)) as W.
  assert (D : deps (hook a) = Some (app_source, app_timeout)).
  { destruct (app_reachable_deps a R) as [(_ & _ & I) | (D & _)]; [congruence|exact D]. }
  clear R. revert a S L E W D.
  induction evs as [|ev rest IH]; intros a S L E W D; cbn in E.
  - inversion E; subst.
    destruct (wf_terminated (hook a') W S) as (A & B & C). auto 10.
  - cbn in L. apply andb_true_iff in L. destruct L as [L1 L2].
    destruct (app_step ev a) as [a1|] eqn:S1; [|discriminate].
    destruct (terminated_step ev a a1 W S D L1 S1) as (St & Dp & Cl & Ui).
    destruct (IH a1 St L2 E (app_step_wf ev a a1 W S1) Dp)
      as (P1 & P2 & P3 & P4 & P5 & P6).
    repeat split; try assumption; congruence.
Qed.

Example demo_terminated_is_final_witness :
  exists a',
    app_run [ClickSend; AppRender Constructs; ChangeInput 9; ClickSend;
             AppWait 10000; ClickTerminate] demo_terminated = Some a' /\
    status (hook a') = Terminated /\
    calls (hook a') = calls (hook demo_terminated) /\ ui a' = [].
Proof.
  eexists. split; [reflexivity|].
  destruct (demo_terminated_is_final
              [ClickSend; AppRender Constructs; ChangeInput 9; ClickSend;
               AppWait 10000; ClickTerminate] demo_terminated _
              (ex_intro _ [AppRender Constructs; ClickTerminate] eq_refl)
              eq_refl eq_refl eq_refl) as (S & _ & _ & _ & C & U).
  repeat split; assumption.
Defined.

(** ** The error panel *)

Lemma terminateWorker_shows (m m' : Machine) :
  shows_message m -> exec terminateWorker m = Some m' -> shows_message m'.
Proof.
  unfold shows_message, exec. intros Q E.
  destruct (workerRef m) as [worker|] eqn:Hw.
  - rewrite (terminateWorker_live m worker Hw) in E. inversion E; subst.
    cbn. discriminate.
  - rewrite (terminateWorker_idle m Hw) in E. inversion E; subst. exact Q.
Qed.

Lemma timeout_callback_shows (status_seen : WorkerStatus) (m m' : Machine) :
  shows_message m -> exec (timeout_callback status_seen) m = Some m' ->
  shows_message m'.
Proof.
  unfold shows_message. intros Q E. unfold timeout_callback in E.
  destruct (negb (status_eqb status_seen Success) && negb (status_eqb status_seen Error)).
  - apply exec_bind in E. destruct E as (m1 & _ & E2).
    destruct m1. unfold exec in E2. cbn in E2. inversion E2; subst.
    cbn. reflexivity.
  - inversion E; subst. exact Q.
Qed.

Lemma fire_all_shows (queue : list Timer) (m m' : Machine) :
  shows_message m -> exec (fire_all queue) m = Some m' -> shows_message m'.
Proof.
  revert m. induction queue as [|t rest IH]; intros m Q E.
  - inversion E; subst. exact Q.
  - cbn [fire_all] in E. apply exec_bind in E. destruct E as (m1 & E1 & E2).
    eapply IH; [|exact E2]. clear E2.
    unfold fire, exec, bind, read in E1. cbn in E1.
    destruct (is_pending (timer_id t) m).
    + unfold update in E1. cbn in E1.
      eapply (timeout_callback_shows (status_seen_by_timer t)); [|exact E1].
      destruct m; exact Q.
    + cbn in E1. inversion E1; subst. exact Q.
Qed.

Lemma step_shows (e : Event) (m m' : Machine) :
  wf m -> shows_message m -> brings_no_message e = false ->
  step e m = Some m' -> shows_message m'.
Proof.
  intros W Q T E.
  destruct e as [src tmo env|message| |w event_data|w message|ms| |status_seen kept|w err].
  - unfold step in E. mounted_only E.
    destruct (deps_changed src tmo m) eqn:C.
    + destruct (commit_cases src tmo env m m' W C E)
        as [(_ & ->) | [(_ & failure & -> & ->) | (_ & _ & m2 & -> & S2 & _)]];
        unfold shows_message; cbn.
      * unfold torn_down. destruct (workerRef m); cbn; [discriminate | exact Q].
      * intros _. destruct failure; cbn in T; try discriminate T; reflexivity.
      * rewrite S2. discriminate.
    + unfold exec, commit, bind, read in E. cbn in E. rewrite C in E.
      inversion E; subst. exact Q.
  - unfold step in E. mounted_only E.
    destruct (deps m); [|discriminate].
    cbn [useWebworker result_postMessage] in E.
    destruct m as [d e s wr tr dp ds um sp ck sq ts cs].
    run_callback. unfold shows_message in *. cbn in *.
    destruct wr as [worker|]; [destruct s|]; cbn in *;
      inversion E; subst; cbn; auto; discriminate.
  - unfold step in E. mounted_only E.
    destruct (deps m); [|discriminate].
    exact (terminateWorker_shows m m' Q E).
  - unfold step in E. mounted_only E.
    destruct (installed w m); [|discriminate].
    unfold exec in E. rewrite onmessage_result in E. inversion E; subst.
    unfold shows_message. cbn. discriminate.
  - unfold step in E. mounted_only E.
    destruct (installed w m); [|discriminate].
    unfold exec in E. rewrite onerror_result in E. inversion E; subst.
    unfold shows_message. cbn. reflexivity.
  - unfold step in E. mounted_only E.
    destruct (Z.leb 0 ms); [|discriminate].
    unfold advance in E.
    unfold bind at 1 2 in E. unfold read at 1 2 in E. cbn beta iota in E.
    apply exec_bind in E. destruct E as (m1 & E1 & E2).
    apply fire_all_shows in E1; [|exact Q].
    unfold exec, update in E2. inversion E2; subst. destruct m1; exact E1.
  - unfold step in E. mounted_only E.
    destruct (deps m); [|discriminate].
    apply exec_bind in E. destruct E as (m1 & E1 & E2).
    assert (Q1 : shows_message m1).
    { destruct (destructor m).
      - eapply terminateWorker_shows; eauto.
      - inversion E1; subst. exact Q. }
    unfold exec, update in E2. inversion E2; subst. destruct m1; exact Q1.
  - unfold step in E. destruct (deps m); [|discriminate].
    destruct m as [d e s wr tr dp ds um sp ck sq ts cs].
    run_callback. unfold shows_message in *. cbn in *.
    destruct wr as [worker|]; [destruct status_seen|]; cbn in *;
      inversion E; subst; cbn; auto; discriminate.
  - discriminate T.
Qed.

Lemma run_shows (es : list Event) (m m' : Machine) :
  wf m -> shows_message m -> existsb brings_no_message es = false ->
  run es m = Some m' -> shows_message m'.
Proof.
  revert m. induction es as [|e rest IH]; intros m W Q T E; cbn in E.
  - inversion E; subst. exact Q.
  - cbn in T. apply orb_false_iff in T. destruct T as [T1 T2].
    destruct (step e m) as [m1|] eqn:S1; [|discriminate].
    eapply (IH m1); eauto using step_wf, step_shows.
Qed.

(** X22.  What the error panel shows.  As long as the hook was never
    handed an error that is not an Error object or an ErrorEvent (by a
    constructor that throws such a value, or by the host passing one to
    [onerror]), whenever the status is Error the error of the hook is an
    Error object or an ErrorEvent and the panel of lines 92-96 shows its
    message.  When the host does pass something else to [onerror], a plain
    Event for one, that value is stored as it is and the text of the panel
    is what [JSON.stringify] makes of it. *)
Theorem error_panel_shows_message (es : list Event) (m : Machine) :
  run es boot = Some m ->
  (existsb brings_no_message es = false -> status m = Error ->
   exists message,
     (error m = VError message \/ error m = VErrorEvent message) /\
     forall JSON_stringify, error_text JSON_stringify (error m) = message) /\
  (forall w err m',
     step (WorkerErrorOther w err) m = Some m' ->
     status m' = Error /\ error m' = err /\
     forall JSON_stringify,
       error_text JSON_stringify (error m') = JSON_stringify err).
Proof.
  intros R. split.
  - intros T S.
    assert (Q : shows_message m).
    { apply (run_shows es boot m wf_boot); [|exact T|exact R].
      unfold shows_message. cbn. discriminate. }
    specialize (Q S).
    destruct (error m) as [|n|s|fields|message|message]; try discriminate Q;
      exists message; split; auto.
  - intros w err m' E. unfold step in E.
    destruct (installed w m && negb (has_message err)) eqn:G; [|discriminate].
    apply andb_true_iff in G. destruct G as [_ G].
    unfold exec in E. rewrite onerror_result in E. inversion E; subst. cbn.
    split; [reflexivity|]. split; [reflexivity|].
    intros JSON_stringify. destruct err; try reflexivity; discriminate G.
Qed.

Example error_panel_shows_message_witness :
  (exists message,
     (error timed_out = VError message \/ error timed_out = VErrorEvent message) /\
     forall JSON_stringify, error_text JSON_stringify (error timed_out) = message) /\
  (exists m',
     step (WorkerErrorOther 0 (VObject [])) running_plain = Some m' /\
     status m' = Error /\
     forall JSON_stringify,
       error_text JSON_stringify (error m') = JSON_stringify (VObject [])).
Proof.
  split.
  - apply (proj1 (error_panel_shows_message
                    [Render (SrcString "/example.worker.js") (Some 100%Z) Constructs;
                     AdvanceTimers 150] timed_out eq_refl)); reflexivity.
  - eexists. split; [reflexivity|].
    destruct (proj2 (error_panel_shows_message
                       [Render (SrcString "/example.worker.js") None Constructs]
                       running_plain eq_refl)
                0 (VObject []) _ eq_refl) as (S & _ & F).
    split; assumption.
Defined.
